(** * Godsaeng Mate MCP server: tool dispatch, validation, adapters, formatters

    A shallow embedding of the TypeScript sources:

    - [src/schemas/*.ts]            the three Zod input schemas ([Schemas]);
    - [src/constants.ts]            the constant tables ([Constants]);
    - [src/services/kakao*Api.ts]   the three adapters ([KakaoLocalApi],
                                    [KakaoCalendarApi], [KakaoMessageApi]);
    - [src/services/formatters.ts]  the result formatters ([Formatters]);
    - [src/tools/*.ts]              the SDK tool handlers ([Tools]);
    - the JSON-RPC serverless handler built on the schemas ([ApiHandler]);
    - the self-contained serverless handler ([Inline]).

    JavaScript strings are sequences of UTF-16 code units, numbers that the
    schemas accept are integers (Z), [Math.round] is computed over Q, thrown
    exceptions are an explicit completion, and the outside world (HTTP
    endpoints, [process.env], [Math.random]) is a record of oracles together
    with a log of the requests sent so far. *)

From Stdlib Require Import ZArith NArith QArith Qround List String Ascii Lia Bool.
Import ListNotations.

Set Implicit Arguments.

(** ** JavaScript strings *)

(** A string is its sequence of UTF-16 code units; [length] is [.length]. *)
Definition JsString := list N.

(** The source files are UTF-8; [utf16_of_utf8] turns the bytes of a
    literal into the code units the JavaScript engine sees. *)
Fixpoint utf16_of_utf8 (bs : list N) : JsString :=
  match bs with
  | [] => []
  | b0 :: r0 =>
    if (b0 <? 128)%N then b0 :: utf16_of_utf8 r0
    else if (b0 <? 224)%N then
      match r0 with
      | b1 :: r1 => ((b0 mod 32) * 64 + b1 mod 64)%N :: utf16_of_utf8 r1
      | [] => []
      end
    else if (b0 <? 240)%N then
      match r0 with
      | b1 :: b2 :: r2 =>
        ((b0 mod 16) * 4096 + (b1 mod 64) * 64 + b2 mod 64)%N
          :: utf16_of_utf8 r2
      | _ => []
      end
    else
      match r0 with
      | b1 :: b2 :: b3 :: r3 =>
        let cp := ((b0 mod 8) * 262144 + (b1 mod 64) * 4096
                   + (b2 mod 64) * 64 + b3 mod 64)%N in
        let v := (cp - 65536)%N in
        (55296 + v / 1024)%N :: (56320 + v mod 1024)%N :: utf16_of_utf8 r3
      | _ => []
      end
  end.

Definition js (s : string) : JsString :=
  utf16_of_utf8 (map N_of_ascii (list_ascii_of_string s)).

(** Literals are compared as written; their code units are computed only
    on demand. *)
Strategy 100 [js].

(** The escape [\n] of the source's string literals. *)
Definition nl : JsString := [10%N].

Fixpoint JsString_eqb (a b : JsString) : bool :=
  match a, b with
  | [], [] => true
  | x :: a', y :: b' => (x =? y)%N && JsString_eqb a' b'
  | _, _ => false
  end.

(** [s.length] *)
Definition jsLength (s : JsString) : Z := Z.of_nat (List.length s).

(** [s.substring(0, n)] and [s.slice(0, n)] for a constant [0 <= n]. *)
Definition substring0 (n : Z) (s : JsString) : JsString :=
  firstn (Z.to_nat n) s.
Definition slice0 (n : Z) (s : JsString) : JsString :=
  firstn (Z.to_nat n) s.

(** [lines.join(sep)] *)
Fixpoint join (sep : JsString) (lines : list JsString) : JsString :=
  match lines with
  | [] => []
  | [l] => l
  | l :: rest => l ++ sep ++ join sep rest
  end.

(** WhiteSpace and LineTerminator code units, as [String.prototype.trim]
    removes them. *)
Definition isWhiteSpace (c : N) : bool :=
  existsb (N.eqb c)
    [9; 10; 11; 12; 13; 32; 160; 5760; 8192; 8193; 8194; 8195; 8196; 8197;
     8198; 8199; 8200; 8201; 8202; 8232; 8233; 8239; 8287; 12288; 65279]%N.

Fixpoint trimStart (s : JsString) : JsString :=
  match s with
  | c :: r => if isWhiteSpace c then trimStart r else s
  | [] => []
  end.

Definition trim (s : JsString) : JsString :=
  rev (trimStart (rev (trimStart s))).

Definition digitUnit (d : N) : N := (48 + d)%N.

Fixpoint uint_units (u : Decimal.uint) : JsString :=
  match u with
  | Decimal.Nil => []
  | Decimal.D0 r => digitUnit 0 :: uint_units r
  | Decimal.D1 r => digitUnit 1 :: uint_units r
  | Decimal.D2 r => digitUnit 2 :: uint_units r
  | Decimal.D3 r => digitUnit 3 :: uint_units r
  | Decimal.D4 r => digitUnit 4 :: uint_units r
  | Decimal.D5 r => digitUnit 5 :: uint_units r
  | Decimal.D6 r => digitUnit 6 :: uint_units r
  | Decimal.D7 r => digitUnit 7 :: uint_units r
  | Decimal.D8 r => digitUnit 8 :: uint_units r
  | Decimal.D9 r => digitUnit 9 :: uint_units r
  end.

(** [String(n)] for an integral number [n], as a template literal
    interpolates it. *)
Definition Number_toString (n : Z) : JsString :=
  match Z.to_int n with
  | Decimal.Pos u => uint_units u
  | Decimal.Neg u => 45%N :: uint_units u
  end.

(** [s.padStart(n, "0")] *)
Definition padStart0 (n : nat) (s : JsString) : JsString :=
  repeat 48%N (n - List.length s) ++ s.

(** JavaScript truthiness of an optional string ([undefined] and the empty
    string are falsy), and [a || b] on strings. *)
Definition truthyStr (s : option JsString) : bool :=
  match s with
  | Some (_ :: _) => true
  | _ => false
  end.

Definition orElseStr (s : option JsString) (d : JsString) : JsString :=
  match s with
  | Some (c :: r) => c :: r
  | _ => d
  end.

(** [n || d] on an optional number: [undefined] and [0] are falsy. *)
Definition orElseNum (n : option Z) (d : Z) : Z :=
  match n with
  | Some v => if (v =? 0)%Z then d else v
  | None => d
  end.

(** [n ?? d] on an optional number: only [undefined] is replaced. *)
Definition nullishNum (n : option Z) (d : Z) : Z :=
  match n with
  | Some v => v
  | None => d
  end.

(** [Math.round]: the nearest integer, ties towards plus infinity. *)
Definition Math_round (q : Q) : Z := Qfloor (q + (1 # 2)).

(** ** JSON values: the raw arguments of a tool call *)

#[local] Unset Elimination Schemes.
Inductive JsValue :=
| JNull
| JBool (b : bool)
| JNum (n : Z)                 (* an integral number *)
| JNonInt (q : Q)              (* a number with a fractional part *)
| JStr (s : JsString)
| JArray (items : list JsValue)
| JObject (fields : list (JsString * JsValue)).
#[local] Set Elimination Schemes.

(** [obj[key]]; [None] is [undefined]. *)
Fixpoint getProp (key : JsString) (fields : list (JsString * JsValue))
  : option JsValue :=
  match fields with
  | [] => None
  | (k, v) :: rest => if JsString_eqb k key then Some v else getProp key rest
  end.

Definition truthy (v : option JsValue) : bool :=
  match v with
  | None | Some JNull => false
  | Some (JBool b) => b
  | Some (JNum n) => negb (n =? 0)%Z
  | Some (JStr s) => match s with [] => false | _ => true end
  | Some _ => true
  end.

(** Whether [String(v)], and with it a template literal, throws on [v].
    A value parsed from JSON holds no function.  An object is converted by
    [Object.prototype.toString] unless it has a [toString] member of its
    own; that member is no function, [Object.prototype.valueOf] gives no
    primitive, and the conversion ends in a TypeError.  An array is
    converted by joining the conversions of its items ([null] as the empty
    string), so it throws where one of them does. *)
Fixpoint stringThrows (v : JsValue) : bool :=
  match v with
  | JObject fields =>
    match getProp (js "toString") fields with
    | Some _ => true
    | None => false
    end
  | JArray items => existsb stringThrows items
  | _ => false
  end.

(** ** Data types ([src/types.ts]) *)

Inductive Purpose := study | exercise | reading | work.

Inductive ResponseFormat := markdown | json.

Inductive CalendarColor :=
  BLUE | RED | YELLOW | GREEN | PINK | ORANGE | PURPLE | GRAY.

Inductive MessageTemplateType := feed | text.

Record KakaoPlace := {
  place_name : JsString;
  category_name : JsString;
  phone : JsString;
  address_name : JsString;
  road_address_name : JsString;
  place_x : JsString;                  (* x: longitude *)
  place_y : JsString;                  (* y: latitude *)
  place_url : JsString;
  distance : option JsString
}.

Record KakaoAddressDocument := {
  doc_address_name : JsString;
  doc_x : JsString;
  doc_y : JsString
}.

Record Coords := { x : JsString; y : JsString }.

Record CalendarEventTime := {
  start_at : JsString;
  end_at : JsString;
  time_zone : JsString;
  all_day : bool
}.

Record CalendarEventLocation := {
  loc_name : JsString;
  loc_address : option JsString
}.

Record CalendarEvent := {
  ev_title : JsString;
  ev_time : CalendarEventTime;
  ev_description : option JsString;
  ev_location : option CalendarEventLocation;
  ev_reminders : option (list Z);
  ev_color : JsString
}.

Record CalendarCreateResponse := { event_id : JsString }.

Record MessageLink := { web_url : JsString; mobile_web_url : JsString }.

Record MessageButton := { btn_title : JsString; btn_link : MessageLink }.

Record MessageContent := {
  mc_title : JsString;
  mc_description : JsString;
  mc_link : MessageLink
}.

Record FeedTemplate := {
  feed_content : MessageContent;
  feed_buttons : option (list MessageButton)
}.

Record TextTemplate := { tt_text : JsString; tt_link : MessageLink }.

Inductive MessageTemplate :=
| Feed (t : FeedTemplate)              (* object_type: "feed" *)
| Text (t : TextTemplate).             (* object_type: "text" *)

Record ProcessedPlace := {
  pp_name : JsString;
  pp_address : JsString;
  pp_roadAddress : JsString;
  pp_phone : JsString;
  pp_category : JsString;
  pp_distance : JsString;
  pp_mapUrl : JsString;
  pp_latitude : JsString;
  pp_longitude : JsString
}.

Record SearchSpotOutput := {
  so_query : JsString;
  so_purpose : Purpose;
  so_location : JsString;
  so_total : Z;
  so_places : list ProcessedPlace
}.

Record BlockSessionOutput := {
  bo_success : bool;
  bo_eventId : option JsString;
  bo_title : JsString;
  bo_startTime : JsString;
  bo_endTime : JsString;
  bo_location : option JsString;
  bo_reminder : Z;
  bo_message : JsString
}.

Record SendCommitmentOutput := {
  co_success : bool;
  co_goal : JsString;
  co_location : option JsString;
  co_encouragement : JsString;
  co_message : JsString
}.

Definition Purpose_name (p : Purpose) : JsString :=
  match p with
  | study => js "study"
  | exercise => js "exercise"
  | reading => js "reading"
  | work => js "work"
  end.

Definition ResponseFormat_name (f : ResponseFormat) : JsString :=
  match f with
  | markdown => js "markdown"
  | json => js "json"
  end.

Definition CalendarColor_name (c : CalendarColor) : JsString :=
  match c with
  | BLUE => js "BLUE" | RED => js "RED" | YELLOW => js "YELLOW"
  | GREEN => js "GREEN" | PINK => js "PINK" | ORANGE => js "ORANGE"
  | PURPLE => js "PURPLE" | GRAY => js "GRAY"
  end.

Definition MessageTemplateType_name (t : MessageTemplateType) : JsString :=
  match t with
  | feed => js "feed"
  | text => js "text"
  end.

(** ** Constants ([src/constants.ts]) *)

Module Constants.

Record PurposeConfig := {
  keywords : list JsString;
  categoryCode : option JsString;      (* null is None *)
  defaultKeyword : JsString
}.

Definition PURPOSE_CONFIG (p : Purpose) : PurposeConfig :=
  match p with
  | study =>
    {| keywords := [js "스터디카페"; js "카공"; js "독서실"];
       categoryCode := Some (js "CE7");
       defaultKeyword := js "스터디카페" |}
  | exercise =>
    {| keywords := [js "헬스장"; js "피트니스"; js "필라테스"; js "요가"];
       categoryCode := None;
       defaultKeyword := js "헬스장" |}
  | reading =>
    {| keywords := [js "북카페"; js "도서관"; js "독서"];
       categoryCode := Some (js "CE7");
       defaultKeyword := js "북카페" |}
  | work =>
    {| keywords := [js "코워킹스페이스"; js "공유오피스"; js "카페"];
       categoryCode := None;
       defaultKeyword := js "코워킹스페이스" |}
  end.

Definition ENCOURAGEMENT_MESSAGES : list JsString :=
  [ js "오늘 하루도 갓생 달성!";
    js "작은 실천이 큰 변화를 만듭니다";
    js "꾸준함이 실력이 됩니다";
    js "오늘의 노력이 내일의 나를 만듭니다";
    js "할 수 있다! 파이팅!";
    js "시작이 반이다!";
    js "포기하지 않는 당신이 멋집니다" ].

Definition DEFAULT_RADIUS : Z := 500.
Definition MAX_RADIUS : Z := 20000.
Definition DEFAULT_LIMIT : Z := 5.
Definition MAX_LIMIT : Z := 15.
Definition CHARACTER_LIMIT : Z := 25000.

Definition DEFAULT_REMINDER_MINUTES : Z := 15.

End Constants.

(** ** Exceptions, the outside world and the effect monad *)

(** What a [catch] clause can receive. *)
Inductive Thrown :=
| AxiosError (status : option Z) (message : JsString)
             (data_msg : option JsString)
    (* error.response?.status, error.message, error.response.data.msg *)
| JsError (message : JsString)         (* any other instance of Error *)
| NonError (asString : JsString).      (* another thrown value v, with String(v) *)

Definition instanceof_Error (e : Thrown) : bool :=
  match e with
  | NonError _ => false
  | _ => true
  end.

Definition error_message (e : Thrown) : JsString :=
  match e with
  | AxiosError _ m _ => m
  | JsError m => m
  | NonError _ => []
  end.

Inductive Completion (A : Type) :=
| Return (a : A)
| Throw (e : Thrown).

Arguments Throw {A} e.

(** [error.response?.status === n] *)
Definition statusIs (status : option Z) (n : Z) : bool :=
  match status with
  | Some s => (s =? n)%Z
  | None => false
  end.

(** The value of a normal completion. *)
Definition returned {A} (c : Completion A) : option A :=
  match c with
  | Return a => Some a
  | Throw _ => None
  end.

(** The query parameters of a keyword search; an absent parameter is
    [None]. *)
Record KeywordParams := {
  kp_query : JsString;
  kp_x : option JsString;
  kp_y : option JsString;
  kp_radius : option Z;
  kp_size : option Z;
  kp_sort : option JsString;
  kp_category_group_code : option JsString
}.

(** One outbound HTTP request. *)
Inductive Request :=
| GetAddress (apiKey : JsString) (query : JsString)
| GetKeyword (apiKey : JsString) (params : KeywordParams)
| PostCalendar (accessToken : JsString) (event : CalendarEvent)
| PostMessage (accessToken : JsString) (template : MessageTemplate).

(** What [await fetch(...)] gives: a response with its status and the
    outcome of reading the expected data out of [await res.json()], or a
    rejection (network failure, abort on timeout). *)
Inductive FetchOutcome (A : Type) :=
| FetchResolved (status : Z) (data : Completion A)
| FetchRejected (e : Thrown).

Arguments FetchRejected {A} e.

(** The outside world.  Every reply may depend on the requests sent
    before it.  The [axios_*] oracles give the completion of
    [await axios.get/post(...)] (axios rejects on a non-2xx status); the
    [fetch_*] oracles give the completion of [await fetch(...)]. *)
Record World := {
  env_KAKAO_REST_API_KEY : option JsString;
  env_KAKAO_ACCESS_TOKEN : option JsString;
  Math_random : Q;
  axios_address : list Request -> JsString -> JsString
                  -> Completion (list KakaoAddressDocument);
  axios_keyword : list Request -> JsString -> KeywordParams
                  -> Completion (list KakaoPlace);
  axios_calendar : list Request -> JsString -> CalendarEvent
                   -> Completion CalendarCreateResponse;
  axios_message : list Request -> JsString -> MessageTemplate
                  -> Completion unit;
  fetch_address : list Request -> JsString -> JsString
                  -> FetchOutcome (list KakaoAddressDocument);
  fetch_keyword : list Request -> JsString -> KeywordParams
                  -> FetchOutcome (list KakaoPlace);
  fetch_calendar : list Request -> JsString -> CalendarEvent
                   -> FetchOutcome unit
}.

(** The issues a Zod parse reports. *)
Inductive ZodIssueCode :=
| invalid_type
| invalid_enum_value
| too_small
| too_big
| invalid_string
| unrecognized_keys (keys : list JsString).

Record ZodIssue := { code : ZodIssueCode; path : list JsString }.

(** Library functions of the runtime that the sources call and whose
    text output is not fixed here. *)
Record Builtins := {
  JSON_stringify : JsValue -> JsString;        (* JSON.stringify(v, null, 2) *)
  URL_valid : JsString -> bool;                (* new URL(s) does not throw *)
  Date_parse : JsString -> option Z;           (* new Date(s).getTime(); NaN is None *)
  Date_toISOString : Z -> JsString;            (* of a valid time value *)
  Date_getFullYear : Z -> Z;
  Date_getMonth : Z -> Z;
  Date_getDate : Z -> Z;
  Date_getHours : Z -> Z;
  Date_getMinutes : Z -> Z;
  RangeError_message : JsString;               (* of toISOString on an Invalid Date *)
  String_value : JsValue -> JsString;          (* String(v) of a value that is no string *)
  ToPrimitive_message : JsString;              (* of the TypeError where String(v) throws *)
  ZodError_message : list ZodIssue -> JsString (* error.message of a ZodError *)
}.

(** A computation reads and extends the log of requests and completes
    normally or abruptly. *)
Definition Eff (A : Type) : Type := list Request -> Completion A * list Request.

Definition ret {A} (a : A) : Eff A := fun log => (Return a, log).

Definition throw {A} (e : Thrown) : Eff A := fun log => (Throw e, log).

Definition bind {A B} (c : Eff A) (k : A -> Eff B) : Eff B :=
  fun log =>
    match c log with
    | (Return a, log') => k a log'
    | (Throw e, log') => (Throw e, log')
    end.

(** [try { c } catch (error) { h error }] *)
Definition tryCatch {A} (c : Eff A) (h : Thrown -> Eff A) : Eff A :=
  fun log =>
    match c log with
    | (Return a, log') => (Return a, log')
    | (Throw e, log') => h e log'
    end.

(** [await] of a request: the world's completion, with the request
    logged. *)
Definition await {A} (r : Request) (reply : list Request -> Completion A)
  : Eff A :=
  fun log => (reply log, log ++ [r]).

Declare Scope eff_scope.
Delimit Scope eff_scope with eff.
Notation "x <- c1 ;; c2" := (bind c1 (fun x => c2))
  (at level 61, c1 at next level, right associativity) : eff_scope.
Open Scope eff_scope.

(** Running a computation from the empty log. *)
Definition run {A} (c : Eff A) : Completion A * list Request := c [].

(** ** The Zod schemas ([src/schemas/*.ts]) *)

Module Schemas.

(** A schema parses an input value ([None] is [undefined]) to a typed
    value or to the codes of the issues found. *)
Inductive ParseResult (A : Type) :=
| Valid (a : A)
| Invalid (codes : list ZodIssueCode).

Arguments Invalid {A} codes.

Definition Schema (A : Type) : Type := option JsValue -> ParseResult A.

(** What [safeParse] returns. *)
Inductive SafeParseReturn (A : Type) :=
| ParseSuccess (data : A)
| ParseFailure (issues : list ZodIssue).

Arguments ParseFailure {A} issues.

Inductive StringCheck :=
| min (n : Z)
| max (n : Z)
| regex (re : JsString -> bool)
| url.

Inductive NumberCheck :=
| nmin (n : Z)
| nmax (n : Z).

Section WithBuiltins.

Variable B : Builtins.

Definition stringCheck (s : JsString) (c : StringCheck) : list ZodIssueCode :=
  match c with
  | min n => if (jsLength s <? n)%Z then [too_small] else []
  | max n => if (n <? jsLength s)%Z then [too_big] else []
  | regex re => if re s then [] else [invalid_string]
  | url => if B.(URL_valid) s then [] else [invalid_string]
  end.

(** [z.string()] followed by its checks; every check runs. *)
Definition z_string (checks : list StringCheck) : Schema JsString :=
  fun input =>
    match input with
    | Some (JStr s) =>
      match flat_map (stringCheck s) checks with
      | [] => Valid s
      | codes => Invalid codes
      end
    | _ => Invalid [invalid_type]
    end.

Definition numberCheck (n : Z) (c : NumberCheck) : list ZodIssueCode :=
  match c with
  | nmin m => if (n <? m)%Z then [too_small] else []
  | nmax m => if (m <? n)%Z then [too_big] else []
  end.

Definition fractionCheck (q : Q) (c : NumberCheck) : list ZodIssueCode :=
  match c with
  | nmin m => if Qle_bool (inject_Z m) q then [] else [too_small]
  | nmax m => if Qle_bool q (inject_Z m) then [] else [too_big]
  end.

(** [z.number().int()] followed by its range checks.  A number with a
    fractional part fails [int()] with [invalid_type]. *)
Definition z_number_int (checks : list NumberCheck) : Schema Z :=
  fun input =>
    match input with
    | Some (JNum n) =>
      match flat_map (numberCheck n) checks with
      | [] => Valid n
      | codes => Invalid codes
      end
    | Some (JNonInt q) => Invalid (invalid_type :: flat_map (fractionCheck q) checks)
    | _ => Invalid [invalid_type]
    end.

(** [z.enum([...])]: the value must be one of the listed strings. *)
Definition z_enum {A} (values : list A) (name : A -> JsString) : Schema A :=
  fun input =>
    match input with
    | Some (JStr s) =>
      match find (fun a => JsString_eqb (name a) s) values with
      | Some a => Valid a
      | None => Invalid [invalid_enum_value]
      end
    | _ => Invalid [invalid_type]
    end.

(** [.optional()] *)
Definition optional {A} (inner : Schema A) : Schema (option A) :=
  fun input =>
    match input with
    | None => Valid None
    | Some _ =>
      match inner input with
      | Valid a => Valid (Some a)
      | Invalid codes => Invalid codes
      end
    end.

(** [.default(d)]: an [undefined] input is replaced by [d] and parsed. *)
Definition default {A} (inner : Schema A) (d : JsValue) : Schema A :=
  fun input =>
    match input with
    | None => inner (Some d)
    | Some _ => inner input
    end.

(** The parser of an object's declared keys: the issues found, in the
    order of the shape, and the record when every key parsed. *)
Definition ObjParser (A : Type) : Type :=
  list (JsString * JsValue) -> list ZodIssue * option A.

Definition pure {A} (a : A) : ObjParser A := fun _ => ([], Some a).

Definition prop {A} (key : JsString) (schema : Schema A) : ObjParser A :=
  fun fields =>
    match schema (getProp key fields) with
    | Valid a => ([], Some a)
    | Invalid codes =>
      (map (fun c => {| code := c; path := [key] |}) codes, None)
    end.

Definition ap {A C} (pf : ObjParser (A -> C)) (pa : ObjParser A)
  : ObjParser C :=
  fun fields =>
    let (i1, f) := pf fields in
    let (i2, a) := pa fields in
    (i1 ++ i2,
     match f, a with
     | Some f', Some a' => Some (f' a')
     | _, _ => None
     end).

(** The keys of the input that the shape does not declare. *)
Definition extraKeys (shapeKeys : list JsString)
  (fields : list (JsString * JsValue)) : list JsString :=
  filter (fun k => negb (existsb (JsString_eqb k) shapeKeys)) (map fst fields).

(** [z.object({...}).strict().safeParse(input)] *)
Definition strictObject {A} (shapeKeys : list JsString) (p : ObjParser A)
  : JsValue -> SafeParseReturn A :=
  fun input =>
    match input with
    | JObject fields =>
      let (fieldIssues, data) := p fields in
      let issues :=
        fieldIssues ++
        match extraKeys shapeKeys fields with
        | [] => []
        | keys => [{| code := unrecognized_keys keys; path := [] |}]
        end in
      match issues, data with
      | [], Some d => ParseSuccess d
      | _, _ => ParseFailure issues
      end
    | _ => ParseFailure [{| code := invalid_type; path := [] |}]
    end.

(** [schema.parse(input)] throws the ZodError where [safeParse] fails. *)
Definition parse {A} (safeParse : JsValue -> SafeParseReturn A)
  (input : JsValue) : Eff A :=
  match safeParse input with
  | ParseSuccess d => ret d
  | ParseFailure issues => throw (JsError (B.(ZodError_message) issues))
  end.

(** *** [common.ts] and [searchSpot.ts] *)

Definition ResponseFormatSchema : Schema ResponseFormat :=
  default (z_enum [markdown; json] ResponseFormat_name) (JStr (js "markdown")).

Definition PurposeSchema : Schema Purpose :=
  z_enum [study; exercise; reading; work] Purpose_name.

Record SearchSpotInput := {
  ss_purpose : Purpose;
  ss_keyword : option JsString;
  ss_location : JsString;
  ss_radius : Z;
  ss_limit : Z;
  ss_response_format : ResponseFormat
}.

Definition SearchSpotShape : list JsString :=
  [js "purpose"; js "keyword"; js "location"; js "radius"; js "limit";
   js "response_format"].

Definition SearchSpotInputSchema : JsValue -> SafeParseReturn SearchSpotInput :=
  strictObject SearchSpotShape
    (ap (ap (ap (ap (ap (ap (pure Build_SearchSpotInput)
      (prop (js "purpose") PurposeSchema))
      (prop (js "keyword") (optional (z_string [max 100]))))
      (prop (js "location") (z_string [min 1; max 100])))
      (prop (js "radius")
         (default (z_number_int [nmin 100; nmax 20000]) (JNum 500))))
      (prop (js "limit")
         (default (z_number_int [nmin 1; nmax 15]) (JNum 5))))
      (prop (js "response_format") ResponseFormatSchema)).

(** *** [blockSession.ts] *)

Definition CalendarColorSchema : Schema CalendarColor :=
  default
    (z_enum [BLUE; RED; YELLOW; GREEN; PINK; ORANGE; PURPLE; GRAY]
       CalendarColor_name)
    (JStr (js "BLUE")).

Definition isDigit (c : N) : bool := (48 <=? c)%N && (c <=? 57)%N.

(** [\d{n}] at the head of [s]: the rest of [s] after [n] digits. *)
Fixpoint digits (n : nat) (s : JsString) : option JsString :=
  match n with
  | O => Some s
  | S n' =>
    match s with
    | c :: r => if isDigit c then digits n' r else None
    | [] => None
    end
  end.

(** One of the code units [cs] at the head of [s]. *)
Definition oneOf (cs : JsString) (s : JsString) : option JsString :=
  match s with
  | c :: r => if existsb (N.eqb c) cs then Some r else None
  | [] => None
  end.

Definition andThen {A C} (o : option A) (f : A -> option C) : option C :=
  match o with
  | Some a => f a
  | None => None
  end.

(** [/^\d{4}-\d{2}-\d{2}T\d{2}:\d{2}(:\d{2})?(Z|[+-]\d{2}:\d{2})?$/].
    The greedy choice for the optional seconds is exact: what follows the
    minutes is either the end, [Z] or a sign, never a colon. *)
Definition startTimeRegex (s : JsString) : bool :=
  match
    andThen (andThen (andThen (andThen (andThen (andThen (andThen (andThen
      (digits 4 s) (oneOf (js "-"))) (digits 2)) (oneOf (js "-"))) (digits 2))
      (oneOf (js "T"))) (digits 2)) (oneOf (js ":"))) (digits 2)
  with
  | None => false
  | Some r =>
    let r' :=
      match andThen (oneOf (js ":") r) (digits 2) with
      | Some r2 => r2
      | None => r
      end in
    match r' with
    | [] => true
    | _ =>
      match oneOf (js "Z") r' with
      | Some [] => true
      | Some _ => false
      | None =>
        match
          andThen (andThen (andThen (oneOf (js "+-") r') (digits 2))
            (oneOf (js ":"))) (digits 2)
        with
        | Some [] => true
        | _ => false
        end
      end
    end
  end.

Record BlockSessionInput := {
  bs_title : JsString;
  bs_location_name : option JsString;
  bs_location_address : option JsString;
  bs_start_time : JsString;
  bs_duration_minutes : Z;
  bs_reminder_minutes : Z;
  bs_color : CalendarColor
}.

Definition BlockSessionShape : list JsString :=
  [js "title"; js "location_name"; js "location_address"; js "start_time";
   js "duration_minutes"; js "reminder_minutes"; js "color"].

Definition BlockSessionInputSchema
  : JsValue -> SafeParseReturn BlockSessionInput :=
  strictObject BlockSessionShape
    (ap (ap (ap (ap (ap (ap (ap (pure Build_BlockSessionInput)
      (prop (js "title") (z_string [min 1; max 50])))
      (prop (js "location_name") (optional (z_string [max 100]))))
      (prop (js "location_address") (optional (z_string [max 200]))))
      (prop (js "start_time") (z_string [regex startTimeRegex])))
      (prop (js "duration_minutes") (z_number_int [nmin 15; nmax 480])))
      (prop (js "reminder_minutes")
         (default (z_number_int [nmin 0; nmax 1440]) (JNum 15))))
      (prop (js "color") CalendarColorSchema)).

(** *** [sendCommitment.ts] *)

Definition MessageTemplateTypeSchema : Schema MessageTemplateType :=
  default (z_enum [feed; text] MessageTemplateType_name) (JStr (js "feed")).

Record SendCommitmentInput := {
  sc_goal : JsString;
  sc_location_name : option JsString;
  sc_location_url : option JsString;
  sc_encouragement : option JsString;
  sc_template_type : MessageTemplateType
}.

Definition SendCommitmentShape : list JsString :=
  [js "goal"; js "location_name"; js "location_url"; js "encouragement";
   js "template_type"].

Definition SendCommitmentInputSchema
  : JsValue -> SafeParseReturn SendCommitmentInput :=
  strictObject SendCommitmentShape
    (ap (ap (ap (ap (ap (pure Build_SendCommitmentInput)
      (prop (js "goal") (z_string [min 1; max 200])))
      (prop (js "location_name") (optional (z_string [max 100]))))
      (prop (js "location_url") (optional (z_string [url]))))
      (prop (js "encouragement") (optional (z_string [max 100]))))
      (prop (js "template_type") MessageTemplateTypeSchema)).

End WithBuiltins.

End Schemas.

(** ** The result formatters ([src/services/formatters.ts]) *)

Module Formatters.

Definition PURPOSE_LABELS (p : Purpose) : JsString :=
  match p with
  | study => js "공부"
  | exercise => js "운동"
  | reading => js "독서"
  | work => js "업무"
  end.

(** [xs.forEach((x, index) => lines.push(...f(x, index)))], from index [i]. *)
Fixpoint forEachLines {A} (f : A -> Z -> list JsString) (i : Z) (xs : list A)
  : list JsString :=
  match xs with
  | [] => []
  | a :: rest => f a i ++ forEachLines f (i + 1) rest
  end.

Definition optField (key : string) (v : option JsString)
  : list (JsString * JsValue) :=
  match v with
  | Some s => [(js key, JStr s)]
  | None => []
  end.

Definition ProcessedPlace_toJson (p : ProcessedPlace) : JsValue :=
  JObject
    [ (js "name", JStr p.(pp_name));
      (js "address", JStr p.(pp_address));
      (js "roadAddress", JStr p.(pp_roadAddress));
      (js "phone", JStr p.(pp_phone));
      (js "category", JStr p.(pp_category));
      (js "distance", JStr p.(pp_distance));
      (js "mapUrl", JStr p.(pp_mapUrl));
      (js "coordinates",
       JObject [ (js "latitude", JStr p.(pp_latitude));
                 (js "longitude", JStr p.(pp_longitude)) ]) ].

Definition SearchSpotOutput_toJson (o : SearchSpotOutput) : JsValue :=
  JObject
    [ (js "query", JStr o.(so_query));
      (js "purpose", JStr (Purpose_name o.(so_purpose)));
      (js "location", JStr o.(so_location));
      (js "total", JNum o.(so_total));
      (js "places", JArray (map ProcessedPlace_toJson o.(so_places))) ].

Definition BlockSessionOutput_toJson (o : BlockSessionOutput) : JsValue :=
  JObject
    ([ (js "success", JBool o.(bo_success)) ]
     ++ optField "eventId" o.(bo_eventId)
     ++ [ (js "title", JStr o.(bo_title));
          (js "startTime", JStr o.(bo_startTime));
          (js "endTime", JStr o.(bo_endTime)) ]
     ++ optField "location" o.(bo_location)
     ++ [ (js "reminder", JNum o.(bo_reminder));
          (js "message", JStr o.(bo_message)) ]).

Definition SendCommitmentOutput_toJson (o : SendCommitmentOutput) : JsValue :=
  JObject
    ([ (js "success", JBool o.(co_success));
       (js "goal", JStr o.(co_goal)) ]
     ++ optField "location" o.(co_location)
     ++ [ (js "encouragement", JStr o.(co_encouragement));
          (js "message", JStr o.(co_message)) ]).

Section WithBuiltins.

Variable B : Builtins.

Definition placeLines (place : ProcessedPlace) (index : Z) : list JsString :=
  [ js "## " ++ Number_toString (index + 1) ++ js ". " ++ place.(pp_name);
    [];
    js "- **카테고리**: " ++ place.(pp_category);
    js "- **주소**: " ++ place.(pp_roadAddress);
    js "- **거리**: " ++ place.(pp_distance);
    js "- **전화**: " ++ place.(pp_phone);
    js "- **지도**: [카카오맵에서 보기](" ++ place.(pp_mapUrl) ++ js ")";
    [] ].

Definition formatSearchSpotResult (output : SearchSpotOutput)
  (format : ResponseFormat) : JsString :=
  match format with
  | json => B.(JSON_stringify) (SearchSpotOutput_toJson output)
  | markdown =>
    let purposeLabel := PURPOSE_LABELS output.(so_purpose) in
    let lines :=
      [ js "# " ++ purposeLabel ++ js " 장소 검색 결과";
        [];
        js "**검색어**: " ++ output.(so_query);
        js "**위치**: " ++ output.(so_location);
        js "**검색 결과**: " ++ Number_toString output.(so_total) ++ js "개";
        [] ] in
    match output.(so_places) with
    | [] =>
      join nl
        (lines ++
         [js "검색 결과가 없습니다. 다른 키워드나 위치로 다시 검색해보세요."])
    | places =>
      join nl
        (lines ++ forEachLines placeLines 0 places
         ++ [js "---"; js "*장소를 선택하면 일정을 등록할 수 있습니다.*"])
    end
  end.

Definition formatBlockSessionResult (output : BlockSessionOutput)
  (format : ResponseFormat) : JsString :=
  match format with
  | json => B.(JSON_stringify) (BlockSessionOutput_toJson output)
  | markdown =>
    join nl
      (if output.(bo_success) then
         [ js "# 일정 등록 완료";
           [];
           js "**제목**: " ++ output.(bo_title);
           js "**시작**: " ++ output.(bo_startTime);
           js "**종료**: " ++ output.(bo_endTime) ]
         ++ (if truthyStr output.(bo_location)
             then [js "**장소**: " ++ orElseStr output.(bo_location) []]
             else [])
         ++ [ js "**알림**: " ++ Number_toString output.(bo_reminder)
                ++ js "분 전";
              [];
              js "톡캘린더에 일정이 등록되었습니다!" ]
       else
         [ js "# 일정 등록 실패"; []; output.(bo_message) ])
  end.

Definition formatSendCommitmentResult (output : SendCommitmentOutput)
  (format : ResponseFormat) : JsString :=
  match format with
  | json => B.(JSON_stringify) (SendCommitmentOutput_toJson output)
  | markdown =>
    join nl
      (if output.(co_success) then
         [ js "# 다짐 카드 전송 완료";
           [];
           js "**오늘의 목표**: " ++ output.(co_goal) ]
         ++ (if truthyStr output.(co_location)
             then [js "**장소**: " ++ orElseStr output.(co_location) []]
             else [])
         ++ [ js "**응원 메시지**: " ++ output.(co_encouragement);
              [];
              output.(co_message);
              [];
              js "*카카오톡 '나와의 채팅'을 확인해보세요!*" ]
       else
         [ js "# 다짐 카드 전송 실패"; []; output.(co_message) ])
  end.

End WithBuiltins.

End Formatters.

(** [xs.length] of an array *)
Definition arrayLength {A} (xs : list A) : Z := Z.of_nat (List.length xs).

(** ** The place-search adapter ([src/services/kakaoLocalApi.ts]) *)

Module KakaoLocalApi.

Import Constants.

Section WithWorld.

Variable W : World.

(** [config.kakaoRestApiKey]: [process.env.KAKAO_REST_API_KEY || ""]. *)
Definition kakaoRestApiKey : JsString :=
  orElseStr W.(env_KAKAO_REST_API_KEY) [].

Definition axios_get_address (query : JsString)
  : Eff (list KakaoAddressDocument) :=
  await (GetAddress kakaoRestApiKey query)
    (fun log => W.(axios_address) log kakaoRestApiKey query).

Definition axios_get_keyword (params : KeywordParams)
  : Eff (list KakaoPlace) :=
  await (GetKeyword kakaoRestApiKey params)
    (fun log => W.(axios_keyword) log kakaoRestApiKey params).

(** The parameters of the fallback lookup: [{ query: location, size: 1 }]. *)
Definition lookupParams (location : JsString) : KeywordParams :=
  {| kp_query := location; kp_x := None; kp_y := None; kp_radius := None;
     kp_size := Some 1%Z; kp_sort := None; kp_category_group_code := None |}.

Definition getCoordinates (location : JsString) : Eff (option Coords) :=
  tryCatch
    (response <- axios_get_address location ;;
     match response with
     | doc :: _ => ret (Some {| x := doc.(doc_x); y := doc.(doc_y) |})
     | [] =>
       (* Fallback: try keyword search for the location *)
       keywordResponse <- axios_get_keyword (lookupParams location) ;;
       match keywordResponse with
       | place :: _ =>
         ret (Some {| x := place.(place_x); y := place.(place_y) |})
       | [] => ret None
       end
     end)
    (fun error => ret None).

Definition notConfigured : JsString := js "KAKAO_REST_API_KEY is not configured".

Definition locationNotFound (location : JsString) : JsString :=
  js "위치를 찾을 수 없습니다: " ++ location.

Definition unauthorized : JsString :=
  js "Kakao API 인증 실패. API Key를 확인해주세요.".

Definition rateLimited : JsString :=
  js "API 호출 한도 초과. 잠시 후 다시 시도해주세요.".

(** The parameters of the place search request. *)
Definition searchParams (fullQuery : JsString) (coords : Coords)
  (radius limit : Z) (categoryCode : option JsString) : KeywordParams :=
  {| kp_query := fullQuery;
     kp_x := Some coords.(x);
     kp_y := Some coords.(y);
     kp_radius := Some radius;
     kp_size := Some limit;
     kp_sort := Some (js "distance");
     kp_category_group_code :=
       if truthyStr categoryCode then categoryCode else None |}.

Definition searchPlaces (purpose : Purpose) (location : JsString)
  (keyword : option JsString) (radius limit : option Z)
  : Eff (list KakaoPlace * JsString) :=
  let radius := nullishNum radius DEFAULT_RADIUS in
  let limit := nullishNum limit DEFAULT_LIMIT in
  if negb (truthyStr (Some kakaoRestApiKey)) then
    throw (JsError notConfigured)
  else
    (* Get coordinates for the location *)
    coords <- getCoordinates location ;;
    match coords with
    | None => throw (JsError (locationNotFound location))
    | Some coords =>
      let purposeConfig := PURPOSE_CONFIG purpose in
      let searchKeyword := orElseStr keyword purposeConfig.(defaultKeyword) in
      let fullQuery := location ++ js " " ++ searchKeyword in
      tryCatch
        (response <-
           axios_get_keyword
             (searchParams fullQuery coords radius limit
                purposeConfig.(categoryCode)) ;;
         ret (response, fullQuery))
        (fun error =>
           match error with
           | AxiosError status message _ =>
             if statusIs status 401 then throw (JsError unauthorized)
             else if statusIs status 429 then throw (JsError rateLimited)
             else throw (JsError (js "장소 검색 실패: " ++ message))
           | _ => throw error
           end)
    end.

Definition processPlace (place : KakaoPlace) : ProcessedPlace :=
  {| pp_name := place.(place_name);
     pp_address := place.(address_name);
     pp_roadAddress :=
       orElseStr (Some place.(road_address_name)) place.(address_name);
     pp_phone := orElseStr (Some place.(phone)) (js "정보 없음");
     pp_category := place.(category_name);
     pp_distance :=
       if truthyStr place.(distance)
       then orElseStr place.(distance) [] ++ js "m"
       else js "정보 없음";
     pp_mapUrl := place.(place_url);
     pp_latitude := place.(place_y);
     pp_longitude := place.(place_x) |}.

Record SpotsResult := {
  sr_places : list ProcessedPlace;
  sr_query : JsString;
  sr_total : Z
}.

Definition searchProductivitySpots (purpose : Purpose) (location : JsString)
  (keyword : option JsString) (radius limit : option Z) : Eff SpotsResult :=
  result <- searchPlaces purpose location keyword radius limit ;;
  ret {| sr_places := map processPlace (fst result);
         sr_query := snd result;
         sr_total := arrayLength (fst result) |}.

End WithWorld.

End KakaoLocalApi.

(** ** The calendar adapter ([src/services/kakaoCalendarApi.ts]) *)

Module KakaoCalendarApi.

Import Constants.

(** Round reminder minutes to nearest 5 (Kakao Calendar requirement):
    [Math.round(minutes / 5) * 5]. *)
Definition roundToFiveMinutes (minutes : Z) : Z :=
  (Math_round (inject_Z minutes / inject_Z 5) * 5)%Z.

(** [s.replace(/\.\d{3}Z$/, "Z")] *)
Definition stripMillis (s : JsString) : JsString :=
  match rev s with
  | 90%N :: d3 :: d2 :: d1 :: 46%N :: r =>
    if Schemas.isDigit d1 && Schemas.isDigit d2 && Schemas.isDigit d3
    then rev r ++ [90%N]
    else s
  | _ => s
  end.

Record CreateOptions := {
  locationName : option JsString;
  locationAddress : option JsString;
  reminderMinutes : option Z;
  color : option CalendarColor;
  description : option JsString
}.

Section WithBuiltins.

Variable B : Builtins.

(** [date.toISOString()], which throws a RangeError on an Invalid Date. *)
Definition toISOString (time : option Z) : Completion JsString :=
  match time with
  | Some t => Return (B.(Date_toISOString) t)
  | None => Throw (JsError B.(RangeError_message))
  end.

Definition mapCompletion {A C} (f : A -> C) (c : Completion A) : Completion C :=
  match c with
  | Return a => Return (f a)
  | Throw e => Throw e
  end.

(** Calculate end time from start time and duration. *)
Definition calculateEndTime (startTime : JsString) (durationMinutes : Z)
  : Completion JsString :=
  let start := B.(Date_parse) startTime in
  let end_ := option_map (fun t => t + durationMinutes * 60 * 1000)%Z start in
  mapCompletion stripMillis (toISOString end_).

(** Format start time to ISO 8601 with Z suffix. *)
Definition formatStartTime (startTime : JsString) : Completion JsString :=
  let date := B.(Date_parse) startTime in
  mapCompletion stripMillis (toISOString date).

(** [String(getter())], [NaN] on an Invalid Date. *)
Definition dateField (time : option Z) (getter : Z -> Z) (plus : Z) : JsString :=
  match time with
  | Some t => Number_toString (getter t + plus)
  | None => js "NaN"
  end.

(** Format datetime for display. *)
Definition formatDateTime (isoString : JsString) : JsString :=
  let date := B.(Date_parse) isoString in
  let year := dateField date B.(Date_getFullYear) 0 in
  let month := padStart0 2 (dateField date B.(Date_getMonth) 1) in
  let day := padStart0 2 (dateField date B.(Date_getDate) 0) in
  let hours := padStart0 2 (dateField date B.(Date_getHours) 0) in
  let minutes := padStart0 2 (dateField date B.(Date_getMinutes) 0) in
  year ++ js "-" ++ month ++ js "-" ++ day ++ js " " ++ hours ++ js ":"
    ++ minutes.

Variable W : World.

Definition liftC {A} (c : Completion A) : Eff A := fun log => (c, log).

Definition tokenRequired : JsString :=
  js "Access Token이 필요합니다. PlayMCP를 통해 카카오 로그인을 해주세요.".

(** The event object built before the request. *)
Definition buildEvent (title formattedStartTime endTime : JsString)
  (options : CreateOptions) (reminderMinutes : Z) : CalendarEvent :=
  {| ev_title := title;
     ev_time := {| start_at := formattedStartTime;
                   end_at := endTime;
                   time_zone := js "Asia/Seoul";
                   all_day := false |};
     ev_color :=
       match options.(color) with
       | Some c => CalendarColor_name c
       | None => js "BLUE"
       end;
     (* Add location if provided *)
     ev_location :=
       match options.(locationName) with
       | Some (c :: r) =>
         Some {| loc_name := c :: r;
                 loc_address :=
                   if truthyStr options.(locationAddress)
                   then options.(locationAddress) else None |}
       | _ => None
       end;
     (* Add description *)
     ev_description :=
       if truthyStr options.(description) then options.(description) else None;
     (* Add reminder (max 2 reminders allowed) *)
     ev_reminders :=
       if (0 <? reminderMinutes)%Z then Some [reminderMinutes] else None |}.

Definition createCalendarEvent (accessToken title startTime : JsString)
  (durationMinutes : Z) (options : CreateOptions)
  : Eff CalendarCreateResponse :=
  if negb (truthyStr (Some accessToken)) then
    throw (JsError tokenRequired)
  else
    formattedStartTime <- liftC (formatStartTime startTime) ;;
    endTime <- liftC (calculateEndTime formattedStartTime durationMinutes) ;;
    let reminderMinutes :=
      roundToFiveMinutes
        (nullishNum options.(reminderMinutes) DEFAULT_REMINDER_MINUTES) in
    let event :=
      buildEvent title formattedStartTime endTime options reminderMinutes in
    tryCatch
      (await (PostCalendar accessToken event)
         (fun log => W.(axios_calendar) log accessToken event))
      (fun error =>
         match error with
         | AxiosError status message data_msg =>
           if statusIs status 401 then
             throw (JsError
               (js "카카오 인증이 만료되었습니다. 다시 로그인해주세요."))
           else if statusIs status 403 then
             throw (JsError
               (js "톡캘린더 권한이 없습니다. PlayMCP에서 talk_calendar 권한을 허용해주세요."))
           else if statusIs status 400 then
             throw (JsError
               (js "일정 생성 실패: "
                ++ orElseStr data_msg (js "잘못된 요청입니다.")))
           else throw (JsError (js "일정 생성 실패: " ++ message))
         | _ => throw error
         end).

End WithBuiltins.

End KakaoCalendarApi.

(** ** The message adapter ([src/services/kakaoMessageApi.ts]) *)

Module KakaoMessageApi.

Import Constants.

Definition fallbackUrl : JsString := js "https://playmcp.kakao.com".

(** Create a Feed template for commitment card. *)
Definition createFeedTemplate (goal encouragement : JsString)
  (locationName locationUrl : option JsString) : FeedTemplate :=
  let description :=
    if truthyStr locationName
    then goal ++ nl ++ nl ++ js "장소: " ++ orElseStr locationName []
           ++ nl ++ nl ++ encouragement
    else goal ++ nl ++ nl ++ encouragement in
  {| feed_content :=
       {| mc_title := js "오늘의 갓생 목표";
          mc_description := description;
          mc_link := {| web_url := orElseStr locationUrl fallbackUrl;
                        mobile_web_url := orElseStr locationUrl fallbackUrl |} |};
     (* Add map button if location URL is provided *)
     feed_buttons :=
       match locationUrl with
       | Some (c :: r) =>
         Some [ {| btn_title := js "지도 보기";
                   btn_link := {| web_url := c :: r;
                                  mobile_web_url := c :: r |} |} ]
       | _ => None
       end |}.

(** Create a Text template for simple commitment message. *)
Definition createTextTemplate (goal encouragement : JsString)
  (locationUrl : option JsString) : TextTemplate :=
  let text := js "[오늘의 갓생 목표]" ++ nl ++ nl ++ goal ++ nl ++ nl
              ++ encouragement in
  {| tt_text := substring0 200 text; (* Max 200 characters for text template *)
     tt_link := {| web_url := orElseStr locationUrl fallbackUrl;
                   mobile_web_url := orElseStr locationUrl fallbackUrl |} |}.

Record SendOptions := {
  locationName : option JsString;
  locationUrl : option JsString;
  encouragement : option JsString;
  templateType : option MessageTemplateType
}.

Record SendResult := { success : bool; message : JsString }.

Section WithWorld.

Variable W : World.

(** Get a random encouragement message: [Math.random()] lies in [0, 1), so
    the index lies within the table. *)
Definition getRandomEncouragement : JsString :=
  let index :=
    Qfloor (W.(Math_random) * inject_Z (arrayLength ENCOURAGEMENT_MESSAGES)) in
  nth (Z.to_nat index) ENCOURAGEMENT_MESSAGES [].

Definition tokenRequired : JsString :=
  js "Access Token이 필요합니다. PlayMCP를 통해 카카오 로그인을 해주세요.".

Definition sendCommitmentCard (accessToken goal : JsString)
  (options : SendOptions) : Eff SendResult :=
  if negb (truthyStr (Some accessToken)) then
    throw (JsError tokenRequired)
  else
    let encouragement :=
      orElseStr options.(encouragement) getRandomEncouragement in
    let templateType :=
      match options.(templateType) with Some t => t | None => feed end in
    let template :=
      match templateType with
      | feed =>
        Feed (createFeedTemplate goal encouragement options.(locationName)
                options.(locationUrl))
      | text =>
        Text (createTextTemplate goal encouragement options.(locationUrl))
      end in
    tryCatch
      (_ <- await (PostMessage accessToken template)
              (fun log => W.(axios_message) log accessToken template) ;;
       ret {| success := true;
              message :=
                js "다짐 카드가 카카오톡 '나와의 채팅'으로 전송되었습니다!" |})
      (fun error =>
         match error with
         | AxiosError status message _ =>
           if statusIs status 401 then
             throw (JsError
               (js "카카오 인증이 만료되었습니다. 다시 로그인해주세요."))
           else if statusIs status 403 then
             throw (JsError
               (js "메시지 전송 권한이 없습니다. PlayMCP에서 talk_message 권한을 허용해주세요."))
           else throw (JsError (js "메시지 전송 실패: " ++ message))
         | _ => throw error
         end).

End WithWorld.

End KakaoMessageApi.

(** ** The tool result envelope *)

Record ContentItem := { ci_type : JsString; ci_text : JsString }.

(** [{ content: [...], isError?: boolean }]: a handler that returns no
    [isError] property yields [None]. *)
Record Envelope := { content : list ContentItem; isError : option bool }.

Definition textItem (t : JsString) : ContentItem :=
  {| ci_type := js "text"; ci_text := t |}.

(** [error instanceof Error ? error.message : fallback] *)
Definition messageOr (fallback : JsString) (error : Thrown) : JsString :=
  if instanceof_Error error then error_message error else fallback.

(** ** The SDK tool handlers ([src/tools/*.ts]) *)

Module Tools.

Import Schemas Formatters.

Section WithWorld.

Variable B : Builtins.
Variable W : World.

Definition unknownError : JsString := js "알 수 없는 오류가 발생했습니다.".

Definition loginRequired : JsString :=
  js "오류: 카카오 로그인이 필요합니다. PlayMCP에서 카카오 계정으로 로그인해주세요.".

(** The handler registered by [registerSearchSpotTool]. *)
Definition searchSpotHandler (params : JsValue) : Eff Envelope :=
  tryCatch
    (input <- parse B (SearchSpotInputSchema B) params ;;
     result <-
       KakaoLocalApi.searchProductivitySpots W
         input.(ss_purpose) input.(ss_location) input.(ss_keyword)
         (Some input.(ss_radius)) (Some input.(ss_limit)) ;;
     let output :=
       {| so_query := result.(KakaoLocalApi.sr_query);
          so_purpose := input.(ss_purpose);
          so_location := input.(ss_location);
          so_total := result.(KakaoLocalApi.sr_total);
          so_places := result.(KakaoLocalApi.sr_places) |} in
     let formattedResult :=
       formatSearchSpotResult B output input.(ss_response_format) in
     ret {| content := [textItem formattedResult]; isError := None |})
    (fun error =>
       let errorMessage := messageOr unknownError error in
       ret {| content := [textItem (js "오류: " ++ errorMessage)];
              isError := Some true |}).

Definition eventDescription (title : JsString) : JsString :=
  js "갓생 메이트로 등록한 일정입니다." ++ nl ++ nl ++ js "목표: " ++ title.

(** The handler registered by [registerBlockSessionTool]. *)
Definition blockSessionHandler (params : JsValue) : Eff Envelope :=
  tryCatch
    (input <- parse B (BlockSessionInputSchema B) params ;;
     (* Get access token from environment *)
     match W.(env_KAKAO_ACCESS_TOKEN) with
     | Some (c :: r) =>
       let accessToken := c :: r in
       (* Calculate end time for display *)
       let startDate := B.(Date_parse) input.(bs_start_time) in
       let endDate :=
         option_map
           (fun t => t + input.(bs_duration_minutes) * 60 * 1000)%Z
           startDate in
       result <-
         KakaoCalendarApi.createCalendarEvent B W accessToken
           input.(bs_title) input.(bs_start_time)
           input.(bs_duration_minutes)
           {| KakaoCalendarApi.locationName := input.(bs_location_name);
              KakaoCalendarApi.locationAddress := input.(bs_location_address);
              KakaoCalendarApi.reminderMinutes :=
                Some input.(bs_reminder_minutes);
              KakaoCalendarApi.color := Some input.(bs_color);
              KakaoCalendarApi.description :=
                Some (eventDescription input.(bs_title)) |} ;;
       endIso <- KakaoCalendarApi.liftC (KakaoCalendarApi.toISOString B endDate) ;;
       let output :=
         {| bo_success := true;
            bo_eventId := Some result.(event_id);
            bo_title := input.(bs_title);
            bo_startTime :=
              KakaoCalendarApi.formatDateTime B input.(bs_start_time);
            bo_endTime := KakaoCalendarApi.formatDateTime B endIso;
            bo_location := input.(bs_location_name);
            bo_reminder := input.(bs_reminder_minutes);
            bo_message := js "톡캘린더에 일정이 등록되었습니다!" |} in
       let formattedResult := formatBlockSessionResult B output markdown in
       ret {| content := [textItem formattedResult]; isError := None |}
     | _ =>
       ret {| content := [textItem loginRequired]; isError := Some true |}
     end)
    (fun error =>
       let errorMessage := messageOr unknownError error in
       let output :=
         {| bo_success := false;
            bo_eventId := None;
            bo_title := [];
            bo_startTime := [];
            bo_endTime := [];
            bo_location := None;
            bo_reminder := 0;
            bo_message := errorMessage |} in
       ret {| content := [textItem (formatBlockSessionResult B output markdown)];
              isError := Some true |}).

(** The handler registered by [registerSendCommitmentTool]. *)
Definition sendCommitmentHandler (params : JsValue) : Eff Envelope :=
  tryCatch
    (input <- parse B (SendCommitmentInputSchema B) params ;;
     (* Get access token from environment *)
     match W.(env_KAKAO_ACCESS_TOKEN) with
     | Some (c :: r) =>
       let accessToken := c :: r in
       let encouragement :=
         orElseStr input.(sc_encouragement)
           (KakaoMessageApi.getRandomEncouragement W) in
       result <-
         KakaoMessageApi.sendCommitmentCard W accessToken input.(sc_goal)
           {| KakaoMessageApi.locationName := input.(sc_location_name);
              KakaoMessageApi.locationUrl := input.(sc_location_url);
              KakaoMessageApi.encouragement := Some encouragement;
              KakaoMessageApi.templateType := Some input.(sc_template_type) |} ;;
       let output :=
         {| co_success := result.(KakaoMessageApi.success);
            co_goal := input.(sc_goal);
            co_location := input.(sc_location_name);
            co_encouragement := encouragement;
            co_message := result.(KakaoMessageApi.message) |} in
       let formattedResult := formatSendCommitmentResult B output markdown in
       ret {| content := [textItem formattedResult]; isError := None |}
     | _ =>
       ret {| content := [textItem loginRequired]; isError := Some true |}
     end)
    (fun error =>
       let errorMessage := messageOr unknownError error in
       let output :=
         {| co_success := false;
            co_goal := [];
            co_location := None;
            co_encouragement := [];
            co_message := errorMessage |} in
       ret {| content :=
                [textItem (formatSendCommitmentResult B output markdown)];
              isError := Some true |}).

End WithWorld.

End Tools.

(** ** The JSON-RPC serverless handler built on the schemas *)

Module ApiHandler.

Import Schemas.

Record LatLng := { latitude : JsString; longitude : JsString }.

Record SearchOptions := {
  opt_radius : Z;
  opt_size : Z;
  opt_categoryGroupCode : option JsString
}.

Record ApiPlace := {
  ap_name : JsString;
  ap_address : JsString;
  ap_distance : option JsString;
  ap_phone : option JsString;
  ap_url : JsString;
  ap_category : JsString
}.

Record ApiSearchOutput := {
  ao_purpose : Purpose;
  ao_location : JsString;
  ao_count : Z;
  ao_places : list ApiPlace
}.

(** The names this handler imports for the search tool and that no source
    file defines with the imported signature; they are taken as given. *)
Record Imports := {
  coordinateLookup : JsString -> Eff LatLng;
  searchPlaces : JsString -> JsString -> JsString -> SearchOptions
                 -> Eff (list KakaoPlace);
  formatSearchSpotResult : ApiSearchOutput -> ResponseFormat -> JsString;
  PURPOSE_CATEGORY_MAP : Purpose -> option JsString;
  PURPOSE_KEYWORDS : Purpose -> option JsString
}.

Definition TOOLS : list JsString :=
  [js "godsaeng_search_spot"; js "godsaeng_block_session";
   js "godsaeng_send_commitment"].

Section WithWorld.

Variable B : Builtins.
Variable W : World.
Variable I : Imports.

Definition unknownError : JsString := js "알 수 없는 오류".

Definition loginRequired : JsString :=
  js "❌ 오류: 카카오 로그인이 필요합니다. PlayMCP에서 카카오 계정으로 로그인해주세요.".

(** The search phrase of this handler. *)
Definition searchQuery (args : SearchSpotInput) : JsString :=
  let purposeKeyword := orElseStr (I.(PURPOSE_KEYWORDS) args.(ss_purpose)) [] in
  if truthyStr args.(ss_keyword)
  then trim (orElseStr args.(ss_keyword) [] ++ js " " ++ purposeKeyword)
  else purposeKeyword.

Definition executeSearchSpot (args : SearchSpotInput) : Eff JsString :=
  let format := args.(ss_response_format) in
  tryCatch
    ((* Get coordinates for the location *)
     coords <- I.(coordinateLookup) args.(ss_location) ;;
     (* Search for places *)
     places <-
       I.(searchPlaces) (searchQuery args) coords.(longitude) coords.(latitude)
         {| opt_radius := orElseNum (Some args.(ss_radius)) 500;
            opt_size := orElseNum (Some args.(ss_limit)) 5;
            opt_categoryGroupCode :=
              I.(PURPOSE_CATEGORY_MAP) args.(ss_purpose) |} ;;
     let result :=
       {| ao_purpose := args.(ss_purpose);
          ao_location := args.(ss_location);
          ao_count := arrayLength places;
          ao_places :=
            map (fun place =>
                   {| ap_name := place.(place_name);
                      ap_address :=
                        orElseStr (Some place.(road_address_name))
                          place.(address_name);
                      ap_distance := place.(distance);
                      ap_phone :=
                        if truthyStr (Some place.(phone))
                        then Some place.(phone) else None;
                      ap_url := place.(place_url);
                      ap_category := place.(category_name) |})
                places |} in
     ret (I.(formatSearchSpotResult) result format))
    (fun error =>
       ret (js "❌ 장소 검색 실패: " ++ messageOr unknownError error)).

Definition executeBlockSession (args : BlockSessionInput) : Eff JsString :=
  match W.(env_KAKAO_ACCESS_TOKEN) with
  | Some (c :: r) =>
    let accessToken := c :: r in
    tryCatch
      (let startDate := B.(Date_parse) args.(bs_start_time) in
       let endDate :=
         option_map
           (fun t => t + args.(bs_duration_minutes) * 60 * 1000)%Z
           startDate in
       result <-
         KakaoCalendarApi.createCalendarEvent B W accessToken
           args.(bs_title) args.(bs_start_time) args.(bs_duration_minutes)
           {| KakaoCalendarApi.locationName := args.(bs_location_name);
              KakaoCalendarApi.locationAddress := args.(bs_location_address);
              KakaoCalendarApi.reminderMinutes :=
                Some args.(bs_reminder_minutes);
              KakaoCalendarApi.color := Some args.(bs_color);
              KakaoCalendarApi.description :=
                Some (Tools.eventDescription args.(bs_title)) |} ;;
       endIso <- KakaoCalendarApi.liftC (KakaoCalendarApi.toISOString B endDate) ;;
       let output :=
         {| bo_success := true;
            bo_eventId := Some result.(event_id);
            bo_title := args.(bs_title);
            bo_startTime :=
              KakaoCalendarApi.formatDateTime B args.(bs_start_time);
            bo_endTime := KakaoCalendarApi.formatDateTime B endIso;
            bo_location := args.(bs_location_name);
            bo_reminder := args.(bs_reminder_minutes);
            bo_message := js "톡캘린더에 일정이 등록되었습니다!" |} in
       ret (Formatters.formatBlockSessionResult B output markdown))
      (fun error =>
         ret (js "❌ 일정 등록 실패: " ++ messageOr unknownError error))
  | _ => ret loginRequired
  end.

Definition executeSendCommitment (args : SendCommitmentInput) : Eff JsString :=
  match W.(env_KAKAO_ACCESS_TOKEN) with
  | Some (c :: r) =>
    let accessToken := c :: r in
    tryCatch
      (let encouragement :=
         orElseStr args.(sc_encouragement)
           (KakaoMessageApi.getRandomEncouragement W) in
       result <-
         KakaoMessageApi.sendCommitmentCard W accessToken args.(sc_goal)
           {| KakaoMessageApi.locationName := args.(sc_location_name);
              KakaoMessageApi.locationUrl := args.(sc_location_url);
              KakaoMessageApi.encouragement := Some encouragement;
              KakaoMessageApi.templateType := Some args.(sc_template_type) |} ;;
       let output :=
         {| co_success := result.(KakaoMessageApi.success);
            co_goal := args.(sc_goal);
            co_location := args.(sc_location_name);
            co_encouragement := encouragement;
            co_message := result.(KakaoMessageApi.message) |} in
       ret (Formatters.formatSendCommitmentResult B output markdown))
      (fun error =>
         ret (js "❌ 메시지 전송 실패: " ++ messageOr unknownError error))
  | _ => ret loginRequired
  end.

Definition inputError (issues : list ZodIssue) : JsString :=
  js "❌ 입력 오류: " ++ B.(ZodError_message) issues.

Definition executeTool (name : JsString) (args : JsValue) : Eff JsString :=
  if JsString_eqb name (js "godsaeng_search_spot") then
    match SearchSpotInputSchema B args with
    | ParseFailure issues => ret (inputError issues)
    | ParseSuccess data => executeSearchSpot data
    end
  else if JsString_eqb name (js "godsaeng_block_session") then
    match BlockSessionInputSchema B args with
    | ParseFailure issues => ret (inputError issues)
    | ParseSuccess data => executeBlockSession data
    end
  else if JsString_eqb name (js "godsaeng_send_commitment") then
    match SendCommitmentInputSchema B args with
    | ParseFailure issues => ret (inputError issues)
    | ParseSuccess data => executeSendCommitment data
    end
  else ret (js "❌ 알 수 없는 도구: " ++ name).

(** What the handler answers to a [tools/call] request. *)
Inductive RpcReply :=
| RpcError (httpStatus code : Z) (message : JsString)
| RpcResult (result : Envelope).       (* HTTP 200 *)

(** [params?.key] *)
Definition paramOf (params : option JsValue) (key : JsString)
  : option JsValue :=
  match params with
  | Some (JObject fields) => getProp key fields
  | _ => None
  end.

(** A value interpolated in a template literal: [String(v)], which
    throws a TypeError on some objects. *)
Definition interpolate (v : JsValue) : Eff JsString :=
  match v with
  | JStr s => ret s
  | _ =>
    if stringThrows v then throw (JsError B.(ToPrimitive_message))
    else ret (B.(String_value) v)
  end.

(** The [tools/call] case of the handler, with its enclosing [catch]. *)
Definition toolsCall (params : option JsValue) : Eff RpcReply :=
  tryCatch
    (let toolName := paramOf params (js "name") in
     let toolArgs :=
       match paramOf params (js "arguments") with
       | Some v => if truthy (Some v) then v else JObject []
       | None => JObject []
       end in
     match toolName with
     | Some v =>
       if negb (truthy toolName) then
         ret (RpcError 400 (-32602) (js "Missing tool name"))
       else
         match v with
         | JStr name =>
           if existsb (JsString_eqb name) TOOLS then
             toolResult <- executeTool name toolArgs ;;
             ret (RpcResult {| content := [textItem toolResult];
                               isError := None |})
           else
             ret (RpcError 400 (-32602) (js "Unknown tool: " ++ name))
         | _ =>
           text <- interpolate v ;;
           ret (RpcError 400 (-32602) (js "Unknown tool: " ++ text))
         end
     | None => ret (RpcError 400 (-32602) (js "Missing tool name"))
     end)
    (fun error =>
       ret (RpcError 500 (-32603)
              (if instanceof_Error error then error_message error
               else match error with
                    | NonError str => str
                    | _ => []
                    end))).

End WithWorld.

End ApiHandler.

(** ** The self-contained serverless handler *)

Module Inline.

Definition CHARACTER_LIMIT : Z := 25000.

Record PurposeConfig := {
  defaultKeyword : JsString;
  categoryCode : option JsString
}.

Definition PURPOSE_CONFIG (p : Purpose) : PurposeConfig :=
  match p with
  | study =>
    {| defaultKeyword := js "스터디카페"; categoryCode := Some (js "CE7") |}
  | exercise => {| defaultKeyword := js "헬스장"; categoryCode := None |}
  | reading =>
    {| defaultKeyword := js "북카페"; categoryCode := Some (js "CE7") |}
  | work => {| defaultKeyword := js "코워킹스페이스"; categoryCode := None |}
  end.

Definition PURPOSE_LABELS (p : Purpose) : JsString :=
  match p with
  | study => js "공부"
  | exercise => js "운동"
  | reading => js "독서"
  | work => js "업무"
  end.

Definition getErrorMessage (error : Thrown) : JsString :=
  match error with
  | NonError str => str
  | _ => error_message error
  end.

Definition truncationNotice : JsString :=
  nl ++ nl ++ js "... (응답이 잘렸습니다)".

Definition truncateResponse (content : JsString) : JsString :=
  if (jsLength content <=? CHARACTER_LIMIT)%Z then content
  else slice0 (CHARACTER_LIMIT - 100) content ++ truncationNotice.

(** [response.ok] *)
Definition ok (status : Z) : bool := (200 <=? status)%Z && (status <=? 299)%Z.

(** [await fetchWithTimeout(url, ...)]: the request is logged; a rejection
    (network failure, abort after the timeout) is thrown. *)
Definition fetchWithTimeout {A} (r : Request)
  (reply : list Request -> FetchOutcome A) : Eff (Z * Completion A) :=
  fun log =>
    (match reply log with
     | FetchResolved status data => Return (status, data)
     | FetchRejected e => Throw e
     end, log ++ [r]).

Definition liftC {A} (c : Completion A) : Eff A := fun log => (c, log).

(** The arguments of the tools, as the handler casts them. *)
Record SearchArgs := {
  purpose : Purpose;
  location : JsString;
  keyword : option JsString;
  radius : option Z;
  limit : option Z;
  response_format : option JsString
}.

Record BlockArgs := {
  title : JsString;
  start_time : JsString;
  duration_minutes : Z;
  location_name : option JsString;
  location_address : option JsString;
  reminder_minutes : option Z;
  color : option JsString
}.

(** [`${v}`] of an optional string. *)
Definition templateOpt (v : option JsString) : JsString :=
  match v with
  | Some s => s
  | None => js "undefined"
  end.

Definition placeJson (p : KakaoPlace) : JsValue :=
  JObject
    ([ (js "name", JStr p.(place_name));
       (js "address",
        JStr (orElseStr (Some p.(road_address_name)) p.(address_name))) ]
     ++ Formatters.optField "distance" p.(distance)
     ++ [ (js "phone", JStr p.(phone));
          (js "url", JStr p.(place_url));
          (js "category", JStr p.(category_name)) ]).

Definition searchJson (args : SearchArgs) (places : list KakaoPlace) : JsValue :=
  JObject
    [ (js "purpose", JStr (Purpose_name args.(purpose)));
      (js "location", JStr args.(location));
      (js "count", JNum (arrayLength places));
      (js "places", JArray (map placeJson places)) ].

Definition placeMarkdown (place : KakaoPlace) (idx : Z) : JsString :=
  js "## " ++ Number_toString (idx + 1) ++ js ". " ++ place.(place_name)
    ++ nl ++ nl
  ++ js "- **카테고리**: " ++ place.(category_name) ++ nl
  ++ js "- **주소**: "
       ++ orElseStr (Some place.(road_address_name)) place.(address_name) ++ nl
  ++ js "- **거리**: " ++ templateOpt place.(distance) ++ js "m" ++ nl
  ++ (if truthyStr (Some place.(phone))
      then js "- **전화**: " ++ place.(phone) ++ nl else [])
  ++ js "- **지도**: [카카오맵에서 보기](" ++ place.(place_url) ++ js ")"
       ++ nl ++ nl.

(** [places.forEach((place, idx) => { md += ... })], from index [i]. *)
Fixpoint forEachPlace (i : Z) (places : list KakaoPlace) : JsString :=
  match places with
  | [] => []
  | place :: rest => placeMarkdown place i ++ forEachPlace (i + 1) rest
  end.

Definition markdownHeader (args : SearchArgs) (places : list KakaoPlace)
  : JsString :=
  js "# " ++ PURPOSE_LABELS args.(purpose) ++ js " 장소 검색 결과" ++ nl ++ nl
  ++ js "**위치**: " ++ args.(location) ++ nl
  ++ js "**검색 결과**: " ++ Number_toString (arrayLength places) ++ js "개"
       ++ nl ++ nl.

Definition noResults : JsString :=
  js "검색 결과가 없습니다. 다른 키워드나 위치로 다시 검색해보세요." ++ nl.

Section WithWorld.

Variable B : Builtins.
Variable W : World.

(** [const KAKAO_REST_API_KEY = process.env.KAKAO_REST_API_KEY] *)
Definition KAKAO_REST_API_KEY : option JsString := W.(env_KAKAO_REST_API_KEY).

Definition getCoordinates (location : JsString) : Eff (option Coords) :=
  match KAKAO_REST_API_KEY with
  | Some (c :: r) =>
    let key := c :: r in
    tryCatch
      ((* Try address search first *)
       addressRes <-
         fetchWithTimeout (GetAddress key location)
           (fun log => W.(fetch_address) log key location) ;;
       addressData <- liftC (snd addressRes) ;;
       match addressData with
       | doc :: _ => ret (Some {| x := doc.(doc_x); y := doc.(doc_y) |})
       | [] =>
         (* Fallback to keyword search *)
         keywordRes <-
           fetchWithTimeout
             (GetKeyword key (KakaoLocalApi.lookupParams location))
             (fun log =>
                W.(fetch_keyword) log key (KakaoLocalApi.lookupParams location)) ;;
         keywordData <- liftC (snd keywordRes) ;;
         match keywordData with
         | place :: _ =>
           ret (Some {| x := place.(place_x); y := place.(place_y) |})
         | [] => ret None
         end
       end)
      (fun _ => ret None)
  | _ => ret None
  end.

Definition searchPlaces (purpose : Purpose) (location : JsString)
  (keyword : option JsString) (radius limit : option Z)
  : Eff (list KakaoPlace) :=
  let radius := nullishNum radius 500 in
  let limit := nullishNum limit 5 in
  match KAKAO_REST_API_KEY with
  | Some (c :: r) =>
    let key := c :: r in
    coords <- getCoordinates location ;;
    match coords with
    | None => throw (JsError (KakaoLocalApi.locationNotFound location))
    | Some coords =>
      let config := PURPOSE_CONFIG purpose in
      let searchKeyword := orElseStr keyword config.(defaultKeyword) in
      let fullQuery := location ++ js " " ++ searchKeyword in
      let params :=
        KakaoLocalApi.searchParams fullQuery coords radius limit
          config.(categoryCode) in
      response <-
        fetchWithTimeout (GetKeyword key params)
          (fun log => W.(fetch_keyword) log key params) ;;
      if negb (ok (fst response)) then
        if (fst response =? 401)%Z then
          throw (JsError (js "Kakao API 인증 실패"))
        else
          throw (JsError (js "장소 검색 실패: " ++ Number_toString (fst response)))
      else
        liftC (snd response)
    end
  | _ => throw (JsError (js "KAKAO_REST_API_KEY가 설정되지 않았습니다."))
  end.

Definition executeSearchSpot (args : SearchArgs) : Eff JsString :=
  let format := orElseStr args.(response_format) (js "markdown") in
  tryCatch
    (places <-
       searchPlaces args.(purpose) args.(location) args.(keyword)
         (Some (orElseNum args.(radius) 500))
         (Some (orElseNum args.(limit) 5)) ;;
     if JsString_eqb format (js "json") then
       ret (B.(JSON_stringify) (searchJson args places))
     else
       (* Markdown format *)
       let md := markdownHeader args places in
       match places with
       | [] => ret (md ++ noResults)
       | _ => ret (truncateResponse (md ++ forEachPlace 0 places))
       end)
    (fun error => ret (js "❌ 장소 검색 실패: " ++ getErrorMessage error)).

Definition loginRequired : JsString :=
  js "❌ 카카오 로그인이 필요합니다. PlayMCP에서 카카오 계정으로 로그인해주세요.".

(** [formatTime(d)] of a valid date. *)
Definition formatTime (t : Z) : JsString :=
  Number_toString (B.(Date_getFullYear) t) ++ js "-"
  ++ padStart0 2 (Number_toString (B.(Date_getMonth) t + 1)) ++ js "-"
  ++ padStart0 2 (Number_toString (B.(Date_getDate) t)) ++ js " "
  ++ padStart0 2 (Number_toString (B.(Date_getHours) t)) ++ js ":"
  ++ padStart0 2 (Number_toString (B.(Date_getMinutes) t)).

(** The reminder this handler submits. *)
Definition reminderOf (args : BlockArgs) : Z :=
  KakaoCalendarApi.roundToFiveMinutes (orElseNum args.(reminder_minutes) 15).

Definition eventOf (args : BlockArgs) (startIso endIso : JsString)
  : CalendarEvent :=
  {| ev_title := args.(title);
     ev_time := {| start_at := KakaoCalendarApi.stripMillis startIso;
                   end_at := KakaoCalendarApi.stripMillis endIso;
                   time_zone := js "Asia/Seoul";
                   all_day := false |};
     ev_color := orElseStr args.(color) (js "BLUE");
     ev_description := Some (Tools.eventDescription args.(title));
     ev_location :=
       match args.(location_name) with
       | Some (c :: r) =>
         Some {| loc_name := c :: r;
                 loc_address :=
                   if truthyStr args.(location_address)
                   then args.(location_address) else None |}
       | _ => None
       end;
     ev_reminders :=
       if (0 <? reminderOf args)%Z then Some [reminderOf args] else None |}.

Definition executeBlockSession (args : BlockArgs) : Eff JsString :=
  match W.(env_KAKAO_ACCESS_TOKEN) with
  | Some (c :: r) =>
    let accessToken := c :: r in
    tryCatch
      (let startDate := B.(Date_parse) args.(start_time) in
       let endDate :=
         option_map (fun t => t + args.(duration_minutes) * 60 * 1000)%Z
           startDate in
       let reminderMinutes := reminderOf args in
       startIso <- liftC (KakaoCalendarApi.toISOString B startDate) ;;
       endIso <- liftC (KakaoCalendarApi.toISOString B endDate) ;;
       let event := eventOf args startIso endIso in
       response <-
         fetchWithTimeout (PostCalendar accessToken event)
           (fun log => W.(fetch_calendar) log accessToken event) ;;
       if negb (ok (fst response)) then
         if (fst response =? 401)%Z then
           throw (JsError (js "카카오 인증이 만료되었습니다."))
         else if (fst response =? 403)%Z then
           throw (JsError (js "톡캘린더 권한이 필요합니다."))
         else
           throw (JsError (js "일정 생성 실패: "
                           ++ Number_toString (fst response)))
       else
         ret (js "# 일정 등록 완료" ++ nl ++ nl
              ++ js "**제목**: " ++ args.(title) ++ nl
              ++ js "**시작**: "
                   ++ match startDate with Some t => formatTime t | None => [] end
                   ++ nl
              ++ js "**종료**: "
                   ++ match endDate with Some t => formatTime t | None => [] end
                   ++ nl
              ++ (if truthyStr args.(location_name)
                  then js "**장소**: " ++ orElseStr args.(location_name) [] ++ nl
                  else [])
              ++ js "**알림**: " ++ Number_toString reminderMinutes
                   ++ js "분 전" ++ nl ++ nl
              ++ js "톡캘린더에 일정이 등록되었습니다!" ++ nl))
      (fun error => ret (js "❌ 일정 등록 실패: " ++ getErrorMessage error))
  | _ => ret loginRequired
  end.

End WithWorld.

End Inline.

(** ** Concrete worlds used to run the handlers *)

Module Fixtures.

Definition builtins : Builtins :=
  {| JSON_stringify := fun _ => js "{}";
     URL_valid := fun _ => true;
     Date_parse := fun _ => Some 0%Z;
     Date_toISOString := fun _ => js "1970-01-01T00:00:00.000Z";
     Date_getFullYear := fun _ => 1970%Z;
     Date_getMonth := fun _ => 0%Z;
     Date_getDate := fun _ => 1%Z;
     Date_getHours := fun _ => 9%Z;
     Date_getMinutes := fun _ => 0%Z;
     RangeError_message := js "Invalid time value";
     String_value := fun _ => js "[object Object]";
     ToPrimitive_message := js "Cannot convert object to primitive value";
     ZodError_message := fun _ => js "[ { code: invalid } ]" |}.

Definition station : KakaoAddressDocument :=
  {| doc_address_name := js "홍대입구역";
     doc_x := js "126.9236";
     doc_y := js "37.5572" |}.

Definition cafe (name : JsString) : KakaoPlace :=
  {| place_name := name;
     category_name := js "카페";
     phone := js "02-123-4567";
     address_name := js "서울 마포구 동교동 1";
     road_address_name := js "서울 마포구 양화로 1";
     place_x := js "126.9240";
     place_y := js "37.5570";
     place_url := js "https://place.map.kakao.com/1";
     distance := Some (js "120") |}.

(** A world in which every request succeeds; the place search returns
    [places]. *)
Definition world (key token : option JsString) (places : list KakaoPlace)
  : World :=
  {| env_KAKAO_REST_API_KEY := key;
     env_KAKAO_ACCESS_TOKEN := token;
     Math_random := 0;
     axios_address := fun _ _ _ => Return [station];
     axios_keyword := fun _ _ _ => Return places;
     axios_calendar := fun _ _ _ => Return {| event_id := js "evt-1" |};
     axios_message := fun _ _ _ => Return tt;
     fetch_address := fun _ _ _ => FetchResolved 200 (Return [station]);
     fetch_keyword := fun _ _ _ => FetchResolved 200 (Return places);
     fetch_calendar := fun _ _ _ => FetchResolved 200 (Return tt) |}.

(** A world whose address lookup is answered 401 Unauthorized. *)
Definition world401 (key : option JsString) : World :=
  {| env_KAKAO_REST_API_KEY := key;
     env_KAKAO_ACCESS_TOKEN := None;
     Math_random := 0;
     axios_address := fun _ _ _ =>
       Throw (AxiosError (Some 401%Z)
                (js "Request failed with status code 401") None);
     axios_keyword := fun _ _ _ => Return [cafe (js "북카페 콤마")];
     axios_calendar := fun _ _ _ => Return {| event_id := js "evt-1" |};
     axios_message := fun _ _ _ => Return tt;
     fetch_address := fun _ _ _ =>
       FetchResolved 401 (Throw (JsError (js "documents is undefined")));
     fetch_keyword := fun _ _ _ =>
       FetchResolved 200 (Return [cafe (js "북카페 콤마")]);
     fetch_calendar := fun _ _ _ => FetchResolved 200 (Return tt) |}.

Definition apiKey : option JsString := Some (js "rest-api-key").

Definition accessToken : option JsString := Some (js "access-token").

(** [{ purpose: "study", location: "홍대입구역" }] *)
Definition searchArgs : JsValue :=
  JObject [ (js "purpose", JStr (js "study"));
            (js "location", JStr (js "홍대입구역")) ].

(** [{ title: "공부", start_time: "2026-01-15T19:00:00",
       duration_minutes: 120 }] *)
Definition blockArgs : JsValue :=
  JObject [ (js "title", JStr (js "공부"));
            (js "start_time", JStr (js "2026-01-15T19:00:00"));
            (js "duration_minutes", JNum 120) ].

(** [{ title: "공부", start_time: "2026-01-15T19:00:00",
       duration_minutes: 500 }] *)
Definition blockArgs500 : JsValue :=
  JObject [ (js "title", JStr (js "공부"));
            (js "start_time", JStr (js "2026-01-15T19:00:00"));
            (js "duration_minutes", JNum 500) ].

(** Stand-ins for the imports of the JSON-RPC handler. *)
Definition imports : ApiHandler.Imports :=
  {| ApiHandler.coordinateLookup := fun _ =>
       ret {| ApiHandler.latitude := js "37.5572";
              ApiHandler.longitude := js "126.9236" |};
     ApiHandler.searchPlaces := fun _ _ _ _ => ret [];
     ApiHandler.formatSearchSpotResult := fun _ _ => js "[]";
     ApiHandler.PURPOSE_CATEGORY_MAP := fun _ => None;
     ApiHandler.PURPOSE_KEYWORDS := fun _ => None |}.

(** A place name of 30000 letters. *)
Definition longName : JsString := repeat 97%N (Z.to_nat 30000).

End Fixtures.

Set Implicit Arguments.

(** ** Vocabulary of the further properties *)

(** A coordinate lookup or place search sent with the REST API key [key]. *)
Definition isLookupRequest (key : JsString) (r : Request) : bool :=
  match r with
  | GetAddress k _ => JsString_eqb k key
  | GetKeyword k _ => JsString_eqb k key
  | _ => false
  end.

(** The world with another [process.env.KAKAO_ACCESS_TOKEN]. *)
Definition withAccessToken (W : World) (token : option JsString) : World :=
  {| env_KAKAO_REST_API_KEY := W.(env_KAKAO_REST_API_KEY);
     env_KAKAO_ACCESS_TOKEN := token;
     Math_random := W.(Math_random);
     axios_address := W.(axios_address);
     axios_keyword := W.(axios_keyword);
     axios_calendar := W.(axios_calendar);
     axios_message := W.(axios_message);
     fetch_address := W.(fetch_address);
     fetch_keyword := W.(fetch_keyword);
     fetch_calendar := W.(fetch_calendar) |}.

(** The world with another [process.env.KAKAO_REST_API_KEY]. *)
Definition withRestApiKey (W : World) (key : option JsString) : World :=
  {| env_KAKAO_REST_API_KEY := key;
     env_KAKAO_ACCESS_TOKEN := W.(env_KAKAO_ACCESS_TOKEN);
     Math_random := W.(Math_random);
     axios_address := W.(axios_address);
     axios_keyword := W.(axios_keyword);
     axios_calendar := W.(axios_calendar);
     axios_message := W.(axios_message);
     fetch_address := W.(fetch_address);
     fetch_keyword := W.(fetch_keyword);
     fetch_calendar := W.(fetch_calendar) |}.

(** ** The message tool of the self-contained handler
    ([executeSendCommitment]) *)

Module InlineMessage.

Record CommitArgs := {
  goal : JsString;
  location_name : option JsString;
  location_url : option JsString;
  encouragement : option JsString;
  template_type : option JsString
}.

(** The handler's own copy of the table. *)
Definition ENCOURAGEMENT_MESSAGES : list JsString :=
  [ js "오늘 하루도 갓생 달성!";
    js "작은 실천이 큰 변화를 만듭니다";
    js "꾸준함이 실력이 됩니다";
    js "오늘의 노력이 내일의 나를 만듭니다";
    js "할 수 있다! 파이팅!";
    js "시작이 반이다!";
    js "포기하지 않는 당신이 멋집니다" ].

Definition fallbackUrl : JsString := js "https://playmcp.kakao.com".

(** The template object the handler builds. *)
Definition templateOf (args : CommitArgs) (encouragement : JsString)
  : MessageTemplate :=
  let templateType := orElseStr args.(template_type) (js "feed") in
  if JsString_eqb templateType (js "feed") then
    let description :=
      if truthyStr args.(location_name)
      then args.(goal) ++ nl ++ nl ++ js "장소: "
             ++ orElseStr args.(location_name) [] ++ nl ++ nl ++ encouragement
      else args.(goal) ++ nl ++ nl ++ encouragement in
    Feed
      {| feed_content :=
           {| mc_title := js "오늘의 갓생 목표";
              mc_description := description;
              mc_link :=
                {| web_url := orElseStr args.(location_url) fallbackUrl;
                   mobile_web_url :=
                     orElseStr args.(location_url) fallbackUrl |} |};
         feed_buttons :=
           match args.(location_url) with
           | Some (c :: r) =>
             Some [ {| btn_title := js "지도 보기";
                       btn_link := {| web_url := c :: r;
                                      mobile_web_url := c :: r |} |} ]
           | _ => None
           end |}
  else
    Text
      {| tt_text :=
           substring0 200
             (js "[오늘의 갓생 목표]" ++ nl ++ nl ++ args.(goal) ++ nl ++ nl
              ++ encouragement);
         tt_link :=
           {| web_url := orElseStr args.(location_url) fallbackUrl;
              mobile_web_url := orElseStr args.(location_url) fallbackUrl |} |}.

Section WithWorld.

Variable W : World.

(** [await fetchWithTimeout(".../v2/api/talk/memo/default/send", ...)]: the
    status of the response, or a rejection; the handler does not read the
    body. *)
Variable fetch_message : list Request -> JsString -> MessageTemplate
                         -> FetchOutcome unit.

(** [args.encouragement || ENCOURAGEMENT_MESSAGES[Math.floor(Math.random() *
    ENCOURAGEMENT_MESSAGES.length)]]; [Math.random()] lies in [0, 1), so the
    index lies within the table. *)
Definition encouragementOf (args : CommitArgs) : JsString :=
  orElseStr args.(encouragement)
    (nth (Z.to_nat
            (Qfloor (W.(Math_random)
                     * inject_Z (arrayLength ENCOURAGEMENT_MESSAGES))))
         ENCOURAGEMENT_MESSAGES []).

Definition executeSendCommitment (args : CommitArgs) : Eff JsString :=
  match W.(env_KAKAO_ACCESS_TOKEN) with
  | Some (c :: r) =>
    let accessToken := c :: r in
    tryCatch
      (let encouragement := encouragementOf args in
       let template := templateOf args encouragement in
       response <-
         Inline.fetchWithTimeout (PostMessage accessToken template)
           (fun log => fetch_message log accessToken template) ;;
       if negb (Inline.ok (fst response)) then
         if (fst response =? 401)%Z then
           throw (JsError (js "카카오 인증이 만료되었습니다."))
         else if (fst response =? 403)%Z then
           throw (JsError (js "메시지 전송 권한이 필요합니다."))
         else
           throw (JsError (js "메시지 전송 실패: "
                           ++ Number_toString (fst response)))
       else
         ret (js "# 다짐 카드 전송 완료" ++ nl ++ nl
              ++ js "**오늘의 목표**: " ++ args.(goal) ++ nl
              ++ (if truthyStr args.(location_name)
                  then js "**장소**: " ++ orElseStr args.(location_name) []
                         ++ nl
                  else [])
              ++ js "**응원 메시지**: " ++ encouragement ++ nl ++ nl
              ++ js "*카카오톡 '나와의 채팅'을 확인해보세요!*" ++ nl))
      (fun error =>
         ret (js "❌ 메시지 전송 실패: " ++ Inline.getErrorMessage error))
  | _ => ret Inline.loginRequired
  end.

End WithWorld.

End InlineMessage.

(** ** The Vercel entry point of the JSON-RPC handler ([handler]) *)

Module VercelHandler.

(** What the handler reads of the request; an absent member is [None]. *)
Record VercelRequest := {
  method : option JsString;
  url : option JsString;
  body : option JsValue
}.

(** The [result] member of a JSON-RPC response. *)
Inductive RpcResult :=
| InitializeResult (protocolVersion : JsValue)
| ToolsList                                  (* { tools: TOOLS } *)
| ToolCallResult (text : JsString)           (* { content: [{ type, text }] } *)
| EmptyResult.                               (* {} *)

(** What the handler writes: the status and the body.  The three CORS
    headers, set first on every path, and [console.error] are left out. *)
Inductive Response :=
| End_ (status : Z)                          (* res.status(s).end() *)
| Redirect (status : Z) (location : JsString)
| Health (status : Z) (server version timestamp : JsString)
         (tools : list JsString)
| JsonRpcResponse (status : Z) (id : option JsValue) (result : RpcResult)
| JsonRpcError (status : Z) (id : option JsValue) (code : Z)
               (message : JsString)
| Success (status : Z)                       (* { success: true } *)
| NotAllowed (status : Z).                   (* { error: "Method not allowed" } *)

Definition SERVER_INFO_name : JsString := js "godsaeng-mate-mcp-server".
Definition SERVER_INFO_version : JsString := js "1.0.0".

(** [s.split("?")[0]] *)
Fixpoint beforeQuestion (s : JsString) : JsString :=
  match s with
  | [] => []
  | c :: r => if (c =? 63)%N then [] else c :: beforeQuestion r
  end.

(** [v === "literal"] *)
Definition isString (v : option JsValue) (literal : JsString) : bool :=
  match v with
  | Some (JStr s) => JsString_eqb s literal
  | _ => false
  end.

Definition getErrorMessage (error : Thrown) : JsString :=
  match error with
  | NonError str => str
  | _ => error_message error
  end.

(** [const urlPath = req.url?.split("?")[0] || "/"] *)
Definition urlPath (req : VercelRequest) : JsString :=
  orElseStr (option_map beforeQuestion req.(url)) (js "/").

Section WithWorld.

Variable B : Builtins.
Variable W : World.
Variable I : ApiHandler.Imports.

(** [Date.now()] at the health check, and the message of the TypeError
    that destructuring [undefined] or [null] throws. *)
Variable now : Z.
Variable TypeError_message : JsString.

(** [const { jsonrpc, id, method, params } = body]: the members read off
    the body; a body that is no object has none of them. *)
Definition destructure (body : option JsValue)
  : Eff (list (JsString * JsValue)) :=
  match body with
  | None | Some JNull => throw (JsError TypeError_message)
  | Some (JObject fields) => ret fields
  | Some _ => ret []
  end.

(** [`${v}`], which throws a TypeError on some objects. *)
Definition interpolate (v : option JsValue) : Eff JsString :=
  match v with
  | None => ret (js "undefined")
  | Some v => ApiHandler.interpolate B v
  end.

Definition methodIs (req : VercelRequest) (name : JsString) : bool :=
  match req.(method) with
  | Some m => JsString_eqb m name
  | None => false
  end.

Definition handler (req : VercelRequest) : Eff Response :=
  if methodIs req (js "OPTIONS") then ret (End_ 200)
  else
    (* Path check *)
    let urlPath := urlPath req in
    (* Landing page (root path) *)
    if methodIs req (js "GET")
       && (JsString_eqb urlPath (js "/") || JsString_eqb urlPath [])
    then ret (Redirect 302 (js "/public/index.html"))
    (* Health check *)
    else if methodIs req (js "GET") && JsString_eqb urlPath (js "/health")
    then
      ret (Health 200 SERVER_INFO_name SERVER_INFO_version
             (B.(Date_toISOString) now) ApiHandler.TOOLS)
    (* MCP JSON-RPC endpoint *)
    else if methodIs req (js "POST")
            && (JsString_eqb urlPath (js "/mcp")
                || JsString_eqb urlPath (js "/api")
                || JsString_eqb urlPath (js "/api/"))
    then
      tryCatch
        (fields <- destructure req.(body) ;;
         let jsonrpc := getProp (js "jsonrpc") fields in
         let id := getProp (js "id") fields in
         let method := getProp (js "method") fields in
         let params := getProp (js "params") fields in
         if negb (isString jsonrpc (js "2.0")) then
           ret (JsonRpcError 400 id (-32600) (js "Invalid JSON-RPC version"))
         else if isString method (js "initialize") then
           let protocolVersion :=
             ApiHandler.paramOf params (js "protocolVersion") in
           ret (JsonRpcResponse 200 id
                  (InitializeResult
                     (match protocolVersion with
                      | Some v =>
                        if truthy protocolVersion then v
                        else JStr (js "2024-11-05")
                      | None => JStr (js "2024-11-05")
                      end)))
         else if isString method (js "notifications/initialized") then
           ret (End_ 200)
         else if isString method (js "tools/list") then
           ret (JsonRpcResponse 200 id ToolsList)
         else if isString method (js "tools/call") then
           let toolName := ApiHandler.paramOf params (js "name") in
           let toolArgs :=
             match ApiHandler.paramOf params (js "arguments") with
             | Some v => if truthy (Some v) then v else JObject []
             | None => JObject []
             end in
           if negb (truthy toolName) then
             ret (JsonRpcError 400 id (-32602) (js "Missing tool name"))
           else
             match toolName with
             | Some (JStr name) =>
               if existsb (JsString_eqb name) ApiHandler.TOOLS then
                 toolResult <- ApiHandler.executeTool B W I name toolArgs ;;
                 ret (JsonRpcResponse 200 id (ToolCallResult toolResult))
               else
                 text <- interpolate toolName ;;
                 ret (JsonRpcError 400 id (-32602)
                        (js "Unknown tool: " ++ text))
             | _ =>
               text <- interpolate toolName ;;
               ret (JsonRpcError 400 id (-32602)
                      (js "Unknown tool: " ++ text))
             end
         else if isString method (js "ping") then
           ret (JsonRpcResponse 200 id EmptyResult)
         else
           text <- interpolate method ;;
           ret (JsonRpcError 400 id (-32601)
                  (js "Method not found: " ++ text)))
        (fun error =>
           ret (JsonRpcError 500 (Some JNull) (-32603)
                  (getErrorMessage error)))
    (* DELETE for session cleanup *)
    else if methodIs req (js "DELETE") then ret (Success 200)
    else ret (NotAllowed 405).

End WithWorld.

(** The HTTP status of a response. *)
Definition statusOf (r : Response) : Z :=
  match r with
  | End_ s | Redirect s _ | Health s _ _ _ _ | JsonRpcResponse s _ _
  | JsonRpcError s _ _ _ | Success s | NotAllowed s => s
  end.

(** The [id] member of the request body, [None] when there is none. *)
Definition requestId (req : VercelRequest) : option JsValue :=
  match req.(body) with
  | Some (JObject fields) => getProp (js "id") fields
  | _ => None
  end.

(** The [method] member of the request body, and the name its [params]
    give, [None] when there is none. *)
Definition requestMethod (req : VercelRequest) : option JsValue :=
  match req.(body) with
  | Some (JObject fields) => getProp (js "method") fields
  | _ => None
  end.

Definition requestToolName (req : VercelRequest) : option JsValue :=
  match req.(body) with
  | Some (JObject fields) =>
    ApiHandler.paramOf (getProp (js "params") fields) (js "name")
  | _ => None
  end.

(** The body asks for [tools/call]. *)
Definition isToolCall (req : VercelRequest) : bool :=
  match req.(body) with
  | Some (JObject fields) =>
    isString (getProp (js "method") fields) (js "tools/call")
  | _ => false
  end.

End VercelHandler.

(** ** Further runs *)

Module Scenarios.



(** A world with both credentials whose provider rejects every calendar and
    message request with [status] and, in the body, [msg]; the place search
    is answered [status] too. *)
Definition rejecting (status : Z) (msg : option JsString) : World :=
  {| env_KAKAO_REST_API_KEY := Fixtures.apiKey;
     env_KAKAO_ACCESS_TOKEN := Fixtures.accessToken;
     Math_random := 0;
     axios_address := fun _ _ _ => Return [Fixtures.station];
     axios_keyword := fun _ _ _ =>
       Throw (AxiosError (Some status) (js "Request failed") msg);
     axios_calendar := fun _ _ _ =>
       Throw (AxiosError (Some status) (js "Request failed") msg);
     axios_message := fun _ _ _ =>
       Throw (AxiosError (Some status) (js "Request failed") msg);
     fetch_address := fun _ _ _ =>
       FetchResolved 200 (Return [Fixtures.station]);
     fetch_keyword := fun _ _ _ =>
       FetchResolved status (Throw (JsError (js "documents is undefined")));
     fetch_calendar := fun _ _ _ =>
       FetchResolved status (Return tt) |}.

End Scenarios.

(** ** Vocabulary of the properties *)

Unset Implicit Arguments.

(** The string [[heading]\n\n{goal}\n\n{encouragement}] before the cut. *)
Definition composedText (goal encouragement : JsString) : JsString :=
  js "[오늘의 갓생 목표]" ++ nl ++ nl ++ goal ++ nl ++ nl ++ encouragement.

(** The three tools, their names, the callback each registers and the
    schema each validates with. *)
Inductive Tool := SearchSpot | BlockSession | SendCommitment.

Definition toolName (t : Tool) : JsString :=
  match t with
  | SearchSpot => js "godsaeng_search_spot"
  | BlockSession => js "godsaeng_block_session"
  | SendCommitment => js "godsaeng_send_commitment"
  end.

(** The callback a tool hands to [server.tool].  It is registered together
    with the shape of the tool's schema, so the arguments the SDK calls it
    with are not the raw arguments of the request: the SDK has parsed them
    with that shape first. *)
Definition handlerOf (B : Builtins) (W : World) (t : Tool)
  : JsValue -> Eff Envelope :=
  match t with
  | SearchSpot => Tools.searchSpotHandler B W
  | BlockSession => Tools.blockSessionHandler B W
  | SendCommitment => Tools.sendCommitmentHandler B W
  end.

(** The issues of a failed validation; [None] when the arguments pass. *)
Definition issuesOf {A} (r : Schemas.SafeParseReturn A)
  : option (list ZodIssue) :=
  match r with
  | Schemas.ParseSuccess _ => None
  | Schemas.ParseFailure issues => Some issues
  end.

Definition validationIssues (B : Builtins) (t : Tool) (args : JsValue)
  : option (list ZodIssue) :=
  match t with
  | SearchSpot => issuesOf (Schemas.SearchSpotInputSchema B args)
  | BlockSession => issuesOf (Schemas.BlockSessionInputSchema B args)
  | SendCommitment => issuesOf (Schemas.SendCommitmentInputSchema B args)
  end.

Definition declaredFields (t : Tool) : list JsString :=
  match t with
  | SearchSpot => Schemas.SearchSpotShape
  | BlockSession => Schemas.BlockSessionShape
  | SendCommitment => Schemas.SendCommitmentShape
  end.

(** The ranges the specification declares for the fields of each tool:
    the length of a string, the value of a number. *)
Inductive Range :=
| Length (lo hi : Z)
| Between (lo hi : Z).

Definition declaredRanges (t : Tool) : list (JsString * Range) :=
  match t with
  | SearchSpot =>
    [ (js "location", Length 1 100);
      (js "keyword", Length 0 100);
      (js "radius", Between 100 20000);
      (js "limit", Between 1 15) ]
  | BlockSession =>
    [ (js "title", Length 1 50);
      (js "location_name", Length 0 100);
      (js "location_address", Length 0 200);
      (js "duration_minutes", Between 15 480);
      (js "reminder_minutes", Between 0 1440) ]
  | SendCommitment =>
    [ (js "goal", Length 1 200);
      (js "location_name", Length 0 100);
      (js "encouragement", Length 0 100) ]
  end.

(** A supplied value of the right kind that lies outside the range. *)
Definition outOfRange (r : Range) (v : JsValue) : bool :=
  match r, v with
  | Length lo hi, JStr s => (jsLength s <? lo)%Z || (hi <? jsLength s)%Z
  | Between lo hi, JNum n => (n <? lo)%Z || (hi <? n)%Z
  | Between lo hi, JNonInt q =>
    negb (Qle_bool (inject_Z lo) q) || negb (Qle_bool q (inject_Z hi))
  | _, _ => false
  end.

(** No bearer credential is configured: the variable is unset or empty. *)
Definition noCredential (W : World) : Prop :=
  W.(env_KAKAO_ACCESS_TOKEN) = None \/ W.(env_KAKAO_ACCESS_TOKEN) = Some [].

(** The REST API key is configured. *)
Definition keyConfigured (W : World) : Prop :=
  KakaoLocalApi.kakaoRestApiKey W <> [].

(** The parameters of the place search proper, as [searchPlaces] builds
    them from its arguments and the resolved coordinates. *)
Definition placeSearchParams (purpose : Purpose) (location : JsString)
  (keyword : option JsString) (radius limit : option Z) (coords : Coords)
  : KeywordParams :=
  KakaoLocalApi.searchParams
    (location ++ js " "
     ++ orElseStr keyword
          (Constants.PURPOSE_CONFIG purpose).(Constants.defaultKeyword))
    coords
    (nullishNum radius Constants.DEFAULT_RADIUS)
    (nullishNum limit Constants.DEFAULT_LIMIT)
    (Constants.PURPOSE_CONFIG purpose).(Constants.categoryCode).

(** Forgetting the value of a completion. *)
Definition void {A} (c : Completion A) : Completion unit :=
  match c with
  | Return _ => Return tt
  | Throw e => Throw e
  end.

(** The completion of the adapter call an SDK handler makes for [params];
    [None] when the handler makes none (the arguments fail validation, or
    the calendar or message tool finds no credential). *)
Definition adapterCompletion (B : Builtins) (W : World) (t : Tool)
  (params : JsValue) (log : list Request) : option (Completion unit) :=
  match t with
  | SearchSpot =>
    match Schemas.SearchSpotInputSchema B params with
    | Schemas.ParseSuccess input =>
      Some (void (fst (KakaoLocalApi.searchProductivitySpots W
                         input.(Schemas.ss_purpose) input.(Schemas.ss_location)
                         input.(Schemas.ss_keyword)
                         (Some input.(Schemas.ss_radius))
                         (Some input.(Schemas.ss_limit)) log)))
    | Schemas.ParseFailure _ => None
    end
  | BlockSession =>
    match Schemas.BlockSessionInputSchema B params,
          W.(env_KAKAO_ACCESS_TOKEN) with
    | Schemas.ParseSuccess input, Some (c :: r) =>
      Some (void (fst (KakaoCalendarApi.createCalendarEvent B W (c :: r)
                         input.(Schemas.bs_title) input.(Schemas.bs_start_time)
                         input.(Schemas.bs_duration_minutes)
                         {| KakaoCalendarApi.locationName :=
                              input.(Schemas.bs_location_name);
                            KakaoCalendarApi.locationAddress :=
                              input.(Schemas.bs_location_address);
                            KakaoCalendarApi.reminderMinutes :=
                              Some input.(Schemas.bs_reminder_minutes);
                            KakaoCalendarApi.color :=
                              Some input.(Schemas.bs_color);
                            KakaoCalendarApi.description :=
                              Some (Tools.eventDescription
                                      input.(Schemas.bs_title)) |} log)))
    | _, _ => None
    end
  | SendCommitment =>
    match Schemas.SendCommitmentInputSchema B params,
          W.(env_KAKAO_ACCESS_TOKEN) with
    | Schemas.ParseSuccess input, Some (c :: r) =>
      Some (void (fst (KakaoMessageApi.sendCommitmentCard W (c :: r)
                         input.(Schemas.sc_goal)
                         {| KakaoMessageApi.locationName :=
                              input.(Schemas.sc_location_name);
                            KakaoMessageApi.locationUrl :=
                              input.(Schemas.sc_location_url);
                            KakaoMessageApi.encouragement :=
                              Some (orElseStr input.(Schemas.sc_encouragement)
                                      (KakaoMessageApi.getRandomEncouragement W));
                            KakaoMessageApi.templateType :=
                              Some input.(Schemas.sc_template_type) |} log)))
    | _, _ => None
    end
  end.

(** The flag an SDK handler sets: absent when the adapter completed
    normally, true otherwise. *)
Definition flagOf (completion : option (Completion unit)) : option bool :=
  match completion with
  | Some (Return _) => None
  | _ => Some true
  end.

(** * Properties *)

(** ** Strings *)

Lemma JsString_eqb_eq (a b : JsString) : JsString_eqb a b = true <-> a = b.
Proof.
  revert b; induction a as [|c a IH]; intros [|d b]; simpl; split;
    try congruence; try discriminate.
  - intros H. apply andb_true_iff in H as [Hc Hr].
    apply N.eqb_eq in Hc. apply IH in Hr. congruence.
  - intros H. injection H as -> ->. rewrite N.eqb_refl. simpl.
    now apply IH.
Qed.

Lemma JsString_eqb_refl (a : JsString) : JsString_eqb a a = true.
Proof. now apply JsString_eqb_eq. Qed.

Lemma jsLength_app (a b : JsString) :
  jsLength (a ++ b) = (jsLength a + jsLength b)%Z.
Proof. unfold jsLength. rewrite length_app. lia. Qed.

Lemma substring0_length (n : Z) (s : JsString) :
  (0 <= n)%Z ->
  jsLength (substring0 n s) = Z.min n (jsLength s).
Proof.
  intros Hn. unfold jsLength, substring0. rewrite length_firstn. lia.
Qed.

Lemma substring0_short (n : Z) (s : JsString) :
  (jsLength s <= n)%Z -> substring0 n s = s.
Proof.
  intros H. unfold substring0, jsLength in *. apply firstn_all2. lia.
Qed.

(** ** The text template *)

Section TextTemplate.

Import KakaoMessageApi.

(** C8. The text field of a text template is the composed string
    [[heading]\n\n{goal}\n\n{encouragement}] cut to its first 200 code
    units: exactly 200 long when the composed string is longer, the composed
    string itself otherwise; and [sendCommitmentCard] posts this template
    when the template type is text. *)
Theorem text_template_hard_cut (W : World)
  (accessToken goal : JsString) (options : SendOptions) (log : list Request) :
  let encouragement :=
    orElseStr options.(encouragement) (getRandomEncouragement W) in
  let composed := composedText goal encouragement in
  let template := createTextTemplate goal encouragement options.(locationUrl) in
  tt_text template = firstn 200 composed
  /\ ((200 < jsLength composed)%Z -> jsLength (tt_text template) = 200%Z)
  /\ ((jsLength composed <= 200)%Z -> tt_text template = composed)
  /\ (accessToken <> [] -> options.(templateType) = Some text ->
      snd (sendCommitmentCard W accessToken goal options log)
      = log ++ [PostMessage accessToken (Text template)]).
Proof.
  intros encouragement composed template.
  assert (Htext : tt_text template = substring0 200 composed) by reflexivity.
  split; [exact Htext|]. split; [|split].
  - intros Hlong. rewrite Htext, substring0_length by lia. lia.
  - intros Hshort. rewrite Htext. now apply substring0_short.
  - intros Htoken Htype. unfold sendCommitmentCard.
    destruct accessToken as [|c r]; [congruence|].
    cbn [truthyStr negb]. rewrite Htype.
    fold encouragement. fold template.
    unfold tryCatch, bind, await, ret, throw.
    destruct (axios_message W log (c :: r) (Text template)) as [[]|e];
      [reflexivity|].
    destruct e as [status m d|m|v]; try reflexivity.
    repeat match goal with
    | |- context [if ?b then _ else _] => destruct b
    end; reflexivity.
Qed.

(** Scenario C: a goal of 200 letters and a 13-unit encouragement compose
    to 228 units; the text field posted holds the first 200. *)
Lemma text_template_hard_cut_witness :
  let W := Fixtures.world None Fixtures.accessToken [] in
  let goal := repeat 97%N 200 in
  let options :=
    {| locationName := None; locationUrl := None;
       encouragement := Some (js "오늘 하루도 갓생 달성!");
       templateType := Some text |} in
  let template :=
    createTextTemplate goal
      (orElseStr options.(encouragement) (getRandomEncouragement W))
      options.(locationUrl) in
  jsLength (tt_text template) = 200%Z
  /\ snd (sendCommitmentCard W (js "access-token") goal options [])
     = [] ++ [PostMessage (js "access-token") (Text template)].
Proof.
  intros W goal options template.
  destruct (text_template_hard_cut W (js "access-token") goal options [])
    as [_ [Hlong [_ Hsend]]].
  split.
  - apply Hlong. vm_compute. reflexivity.
  - apply Hsend; [vm_compute; discriminate|reflexivity].
Defined.

(** A short goal is sent whole. *)
Example text_template_of_short_goal :
  tt_text (createTextTemplate (js "공부") (js "시작이 반이다!") None)
  = js "[오늘의 갓생 목표]" ++ nl ++ nl ++ js "공부" ++ nl ++ nl
    ++ js "시작이 반이다!".
Proof. vm_compute. reflexivity. Qed.

End TextTemplate.

(** ** Truncation of long markdown renders *)

Section Truncation.

Import Inline.

Lemma truncationNotice_length : jsLength truncationNotice = 17%Z.
Proof. vm_compute. reflexivity. Qed.

Lemma truncateResponse_short (content : JsString) :
  (jsLength content <= 25000)%Z -> truncateResponse content = content.
Proof.
  intros H. unfold truncateResponse, CHARACTER_LIMIT.
  destruct (Z.leb_spec (jsLength content) 25000); [reflexivity|lia].
Qed.

Lemma truncateResponse_long (content : JsString) :
  (25000 < jsLength content)%Z ->
  truncateResponse content = slice0 24900 content ++ truncationNotice
  /\ jsLength (truncateResponse content) = 24917%Z.
Proof.
  intros H. unfold truncateResponse, CHARACTER_LIMIT.
  destruct (Z.leb_spec (jsLength content) 25000); [lia|].
  change (25000 - 100)%Z with 24900%Z. split; [reflexivity|].
  rewrite jsLength_app, truncationNotice_length.
  unfold slice0. fold (substring0 24900 content).
  rewrite substring0_length by lia. lia.
Qed.

(** What [executeSearchSpot] returns once the place search has returned
    [places]. *)
Lemma executeSearchSpot_returns (B : Builtins) (W : World) (args : SearchArgs)
  (log log' : list Request) (places : list KakaoPlace) :
  searchPlaces W args.(purpose) args.(location) args.(keyword)
    (Some (orElseNum args.(radius) 500)) (Some (orElseNum args.(limit) 5)) log
  = (Return places, log') ->
  executeSearchSpot B W args log
  = (Return
       (if JsString_eqb (orElseStr args.(response_format) (js "markdown"))
             (js "json")
        then B.(JSON_stringify) (searchJson args places)
        else match places with
             | [] => markdownHeader args places ++ noResults
             | _ => truncateResponse
                      (markdownHeader args places ++ forEachPlace 0 places)
             end),
     log').
Proof.
  intros H. unfold executeSearchSpot, tryCatch, bind. rewrite H.
  destruct (JsString_eqb _ _); [reflexivity|].
  destruct places; reflexivity.
Qed.

Lemma jsLength_join_ge (sep : JsString) (lines : list JsString)
  (line : JsString) :
  In line lines -> (jsLength line <= jsLength (join sep lines))%Z.
Proof.
  induction lines as [|l rest IH]; [contradiction|].
  intros [->|Hin].
  - destruct rest as [|l' rest']; cbn [join]; [lia|].
    rewrite jsLength_app. unfold jsLength. lia.
  - specialize (IH Hin). destruct rest as [|l' rest']; [contradiction|].
    change (join sep (l :: l' :: rest'))
      with (l ++ sep ++ join sep (l' :: rest')).
    rewrite !jsLength_app. unfold jsLength in *. lia.
Qed.

(** The formatter of the services applies no ceiling: its markdown render
    holds the whole location line, its JSON render is [JSON.stringify]'s. *)
Lemma formatSearchSpotResult_not_cut (B : Builtins) (output : SearchSpotOutput) :
  (jsLength output.(so_location)
   <= jsLength (Formatters.formatSearchSpotResult B output markdown))%Z
  /\ Formatters.formatSearchSpotResult B output json
     = B.(JSON_stringify) (Formatters.SearchSpotOutput_toJson output).
Proof.
  split; [|reflexivity].
  apply Z.le_trans
    with (jsLength (js "**위치**: " ++ output.(so_location))).
  { rewrite jsLength_app. unfold jsLength. lia. }
  unfold Formatters.formatSearchSpotResult.
  destruct (so_places output) as [|p ps]; apply jsLength_join_ge;
    apply in_or_app; left; right; right; right; left; reflexivity.
Qed.

End Truncation.

(** C2 (as the code has it). In the self-contained handler a markdown search
    render with at least one place whose natural length exceeds 25,000 code
    units is cut to its first 24,900 code units (the ceiling minus 100) and
    the 17-unit notice is appended, 24,917 units in all; a render of at most
    25,000 units is returned unchanged; and a JSON render is returned as
    [JSON.stringify] gives it, whatever its length.  The formatter of the
    services cuts neither format: its markdown render holds the whole
    location, its JSON render is [JSON.stringify]'s. *)
Theorem markdown_truncation (B : Builtins) (W : World)
  (args : Inline.SearchArgs) (log log' : list Request)
  (places : list KakaoPlace) :
  Inline.searchPlaces W args.(Inline.purpose) args.(Inline.location)
    args.(Inline.keyword)
    (Some (orElseNum args.(Inline.radius) 500))
    (Some (orElseNum args.(Inline.limit) 5)) log
  = (Return places, log') ->
  let format := orElseStr args.(Inline.response_format) (js "markdown") in
  let md := Inline.markdownHeader args places ++ Inline.forEachPlace 0 places in
  let out := fst (Inline.executeSearchSpot B W args log) in
  (format = js "json" ->
   out = Return (B.(JSON_stringify) (Inline.searchJson args places)))
  /\ (format <> js "json" -> places <> [] ->
      ((jsLength md <= 25000)%Z -> out = Return md)
      /\ ((25000 < jsLength md)%Z ->
          out = Return (slice0 24900 md ++ Inline.truncationNotice)
          /\ jsLength (slice0 24900 md ++ Inline.truncationNotice) = 24917%Z))
  /\ (forall output : SearchSpotOutput,
        (jsLength output.(so_location)
         <= jsLength (Formatters.formatSearchSpotResult B output markdown))%Z
        /\ Formatters.formatSearchSpotResult B output json
           = B.(JSON_stringify) (Formatters.SearchSpotOutput_toJson output)).
Proof.
  intros H format md out. unfold out.
  split; [|split; [|apply formatSearchSpotResult_not_cut]]; revert H.
  all: intros H.
  - rewrite (executeSearchSpot_returns B W args log log' places H).
    fold format. cbn [fst].
    intros ->. now rewrite JsString_eqb_refl.
  - rewrite (executeSearchSpot_returns B W args log log' places H).
    fold format. cbn [fst].
    intros Hfmt Hne.
    destruct (JsString_eqb format (js "json")) eqn:E;
      [apply JsString_eqb_eq in E; contradiction|].
    destruct places as [|p ps]; [contradiction|]. fold md. split.
    + intros Hs. now rewrite truncateResponse_short.
    + intros Hl. destruct (truncateResponse_long md Hl) as [-> Hlen].
      split; [reflexivity|exact Hlen].
Qed.

(** A run of the theorem: one short place, markdown. *)
Lemma markdown_truncation_witness :
  let W := Fixtures.world Fixtures.apiKey None [Fixtures.cafe (js "북카페 콤마")] in
  let args :=
    {| Inline.purpose := study; Inline.location := js "홍대입구역";
       Inline.keyword := None; Inline.radius := None; Inline.limit := None;
       Inline.response_format := None |} in
  exists places log',
    Inline.searchPlaces W study (js "홍대입구역") None (Some 500%Z) (Some 5%Z) []
    = (Return places, log')
    /\ fst (Inline.executeSearchSpot Fixtures.builtins W args [])
       = Return (Inline.markdownHeader args places
                 ++ Inline.forEachPlace 0 places).
Proof.
  intros W args.
  exists [Fixtures.cafe (js "북카페 콤마")].
  eexists. split; [vm_compute; reflexivity|].
  assert (Hs : Inline.searchPlaces W args.(Inline.purpose)
                 args.(Inline.location) args.(Inline.keyword)
                 (Some (orElseNum args.(Inline.radius) 500))
                 (Some (orElseNum args.(Inline.limit) 5)) []
               = (Return [Fixtures.cafe (js "북카페 콤마")],
                  snd (Inline.searchPlaces W study (js "홍대입구역") None
                         (Some 500%Z) (Some 5%Z) [])))
    by (vm_compute; reflexivity).
  destruct (markdown_truncation Fixtures.builtins W args [] _ _ Hs)
    as [_ [Hmd _]].
  apply Hmd.
  - intros E. vm_compute in E. discriminate.
  - discriminate.
  - vm_compute. discriminate.
Defined.

(** C2, as stated, fails: a markdown render of more than 25,000 code units
    comes back 24,917 units long, not 25,000, because the kept prefix is
    24,900 units and not 25,000 minus the 17 of the notice (which would give
    25,000 in all); and the formatter of the services does not cut at all. *)
Lemma markdown_truncation_counterexample :
  let W := Fixtures.world Fixtures.apiKey None [Fixtures.cafe Fixtures.longName] in
  let args :=
    {| Inline.purpose := study; Inline.location := js "홍대입구역";
       Inline.keyword := None; Inline.radius := None; Inline.limit := None;
       Inline.response_format := None |} in
  let md := Inline.markdownHeader args [Fixtures.cafe Fixtures.longName]
            ++ Inline.forEachPlace 0 [Fixtures.cafe Fixtures.longName] in
  (25000 <? jsLength md)%Z = true
  /\ option_map jsLength
       (returned (fst (Inline.executeSearchSpot Fixtures.builtins W args [])))
     = Some 24917%Z
  /\ jsLength (slice0 (25000 - jsLength Inline.truncationNotice) md
               ++ Inline.truncationNotice) = 25000%Z
  /\ (25000
      <? jsLength
           (Formatters.formatSearchSpotResult Fixtures.builtins
              {| so_query := js "홍대입구역 스터디카페";
                 so_purpose := study;
                 so_location := js "홍대입구역";
                 so_total := 1;
                 so_places :=
                   [KakaoLocalApi.processPlace (Fixtures.cafe Fixtures.longName)] |}
              markdown))%Z = true.
Proof.
  intros W args md.
  split; [vm_compute; reflexivity|].
  split; [vm_compute; reflexivity|].
  split; vm_compute; reflexivity.
Qed.

(** ** Reminder snapping *)

Section Reminder.

Import KakaoCalendarApi.

(** [Math.round(minutes / 5) * 5] over the integers. *)
Lemma roundToFiveMinutes_div (minutes : Z) :
  roundToFiveMinutes minutes = ((2 * minutes + 5) / 10 * 5)%Z.
Proof.
  unfold roundToFiveMinutes, Math_round, Qfloor, Qplus, Qdiv, Qmult, Qinv,
    inject_Z.
  cbn [Qnum Qden]. cbn [Pos.mul]. f_equal. f_equal. lia.
Qed.

(** The result is the multiple of 5 nearest to the input. *)
Lemma roundToFiveMinutes_nearest (minutes : Z) :
  (roundToFiveMinutes minutes mod 5 = 0
   /\ -2 <= minutes - roundToFiveMinutes minutes <= 2)%Z.
Proof.
  rewrite roundToFiveMinutes_div.
  pose proof (Z.div_mod (2 * minutes + 5) 10 ltac:(lia)) as Hd.
  pose proof (Z.mod_pos_bound (2 * minutes + 5) 10 ltac:(lia)) as Hb.
  split; [apply Z.mod_mul; lia|lia].
Qed.

Lemma roundToFiveMinutes_zero (minutes : Z) :
  (0 <= minutes)%Z ->
  roundToFiveMinutes minutes = 0%Z <-> (minutes <= 2)%Z.
Proof.
  intros Hm. pose proof (roundToFiveMinutes_nearest minutes) as [Hmod Hnear].
  split; intros H; [lia|].
  apply Z.mod_divide in Hmod; [|lia]. destruct Hmod as [k Hk]. lia.
Qed.

(** Once the token is there and both times format, [createCalendarEvent]
    sends exactly one request, carrying the event built by [buildEvent]. *)
Lemma createCalendarEvent_request (B : Builtins) (W : World)
  (accessToken title startTime : JsString) (durationMinutes : Z)
  (options : CreateOptions) (log : list Request)
  (formattedStartTime endTime : JsString) :
  accessToken <> [] ->
  formatStartTime B startTime = Return formattedStartTime ->
  calculateEndTime B formattedStartTime durationMinutes = Return endTime ->
  snd (createCalendarEvent B W accessToken title startTime durationMinutes
         options log)
  = log ++ [PostCalendar accessToken
              (buildEvent title formattedStartTime endTime options
                 (roundToFiveMinutes
                    (nullishNum options.(reminderMinutes)
                       Constants.DEFAULT_REMINDER_MINUTES)))].
Proof.
  intros Htoken Hstart Hend. unfold createCalendarEvent.
  destruct accessToken as [|c r]; [congruence|]. cbn [truthyStr negb].
  unfold bind, liftC. rewrite Hstart, Hend.
  unfold tryCatch, await, throw.
  match goal with
  | |- context [axios_calendar W log ?t ?e] =>
    destruct (axios_calendar W log t e) as [resp|err]
  end; [reflexivity|].
  destruct err as [status m d|m|v]; try reflexivity.
  repeat match goal with
  | |- context [if ?b then _ else _] => destruct b
  end; reflexivity.
Qed.

End Reminder.

(** C4. The reminder submitted by a calendar-create call is the input
    [reminder_minutes] (15 when absent) rounded to the nearest multiple of 5,
    so 7 is submitted as 5; and when the rounded value is 0, which for a
    non-negative input means the inputs 0, 1 and 2, the event sent carries no
    [reminders] field. *)
Theorem reminder_snapped_to_five (B : Builtins) (W : World)
  (accessToken title startTime : JsString) (durationMinutes : Z)
  (options : KakaoCalendarApi.CreateOptions) (log : list Request)
  (formattedStartTime endTime : JsString) :
  accessToken <> [] ->
  KakaoCalendarApi.formatStartTime B startTime = Return formattedStartTime ->
  KakaoCalendarApi.calculateEndTime B formattedStartTime durationMinutes
  = Return endTime ->
  let minutes :=
    nullishNum options.(KakaoCalendarApi.reminderMinutes)
      Constants.DEFAULT_REMINDER_MINUTES in
  let rounded := KakaoCalendarApi.roundToFiveMinutes minutes in
  exists event,
    snd (KakaoCalendarApi.createCalendarEvent B W accessToken title startTime
           durationMinutes options log)
    = log ++ [PostCalendar accessToken event]
    /\ (rounded mod 5 = 0 /\ -2 <= minutes - rounded <= 2)%Z
    /\ ((0 < rounded)%Z -> ev_reminders event = Some [rounded])
    /\ (rounded = 0%Z -> ev_reminders event = None)
    /\ ((0 <= minutes)%Z -> (rounded = 0%Z <-> (minutes <= 2)%Z))
    /\ KakaoCalendarApi.roundToFiveMinutes 7 = 5%Z.
Proof.
  intros Htoken Hstart Hend minutes rounded.
  eexists. split.
  - apply (createCalendarEvent_request B W accessToken title startTime
             durationMinutes options log formattedStartTime endTime);
      assumption.
  - fold minutes. fold rounded. cbn [KakaoCalendarApi.buildEvent ev_reminders].
    split; [apply roundToFiveMinutes_nearest|].
    split; [intros Hpos; apply Z.ltb_lt in Hpos; now rewrite Hpos|].
    split; [intros ->; reflexivity|].
    split; [apply roundToFiveMinutes_zero|].
    vm_compute. reflexivity.
Qed.

(** A run of the theorem: [reminder_minutes = 7] is sent as [[5]]. *)
Lemma reminder_snapped_to_five_witness :
  exists event,
    snd (KakaoCalendarApi.createCalendarEvent Fixtures.builtins
           (Fixtures.world None Fixtures.accessToken [])
           (js "access-token") (js "공부") (js "2026-01-15T19:00:00") 120
           {| KakaoCalendarApi.locationName := None;
              KakaoCalendarApi.locationAddress := None;
              KakaoCalendarApi.reminderMinutes := Some 7%Z;
              KakaoCalendarApi.color := None;
              KakaoCalendarApi.description := None |} [])
    = [PostCalendar (js "access-token") event]
    /\ ev_reminders event = Some [5%Z].
Proof.
  destruct (reminder_snapped_to_five Fixtures.builtins
              (Fixtures.world None Fixtures.accessToken [])
              (js "access-token") (js "공부") (js "2026-01-15T19:00:00") 120
              {| KakaoCalendarApi.locationName := None;
                 KakaoCalendarApi.locationAddress := None;
                 KakaoCalendarApi.reminderMinutes := Some 7%Z;
                 KakaoCalendarApi.color := None;
                 KakaoCalendarApi.description := None |} []
              (js "1970-01-01T00:00:00Z") (js "1970-01-01T00:00:00Z"))
    as [event [Hlog [_ [Hpos _]]]].
  - vm_compute. discriminate.
  - vm_compute. reflexivity.
  - vm_compute. reflexivity.
  - exists event. split; [exact Hlog|]. apply Hpos. vm_compute. reflexivity.
Defined.

(** The inputs 0, 1 and 2 leave the event without reminders; 3 gives 5. *)
Example reminders_of_small_inputs :
  map (fun m =>
         ev_reminders
           (KakaoCalendarApi.buildEvent [] [] []
              {| KakaoCalendarApi.locationName := None;
                 KakaoCalendarApi.locationAddress := None;
                 KakaoCalendarApi.reminderMinutes := Some m;
                 KakaoCalendarApi.color := None;
                 KakaoCalendarApi.description := None |}
              (KakaoCalendarApi.roundToFiveMinutes m)))
      [0; 1; 2; 3; 7; 15]%Z
  = [None; None; None; Some [5]; Some [5]; Some [15]]%Z.
Proof. vm_compute. reflexivity. Qed.

(** The self-contained handler reads the reminder with [||], so there an
    input of 0 is replaced by the default 15 before rounding. *)
Remark inline_reminder_of_zero (args : Inline.BlockArgs) :
  args.(Inline.reminder_minutes) = Some 0%Z ->
  Inline.reminderOf args = 15%Z.
Proof. intros H. unfold Inline.reminderOf. rewrite H. vm_compute. reflexivity. Qed.

(** ** Validation *)

(** The start-time pattern on sample inputs: seconds and zone are
    optional, a date without the [T] or with milliseconds is refused. *)
Example startTimeRegex_samples :
  map Schemas.startTimeRegex
    [ js "2026-01-15T19:00:00"; js "2026-01-15T19:00";
      js "2026-01-15T19:00:00Z"; js "2026-01-15T19:00+09:00";
      js "2026-1-15T19:00"; js "2026-01-15 19:00:00";
      js "2026-01-15T19:00:00.000Z"; js "2026-01-15T19:00:00+0900" ]
  = [true; true; true; true; false; false; false; false].
Proof. vm_compute. reflexivity. Qed.

(** [duration_minutes = 500] is reported as too big. *)
Example duration_500_is_too_big :
  Schemas.BlockSessionInputSchema Fixtures.builtins Fixtures.blockArgs500
  = Schemas.ParseFailure
      [ {| code := too_big; path := [js "duration_minutes"] |} ].
Proof. vm_compute. reflexivity. Qed.

(** Valid calendar arguments come out with the defaults 15 and BLUE. *)
Example blockArgs_accepted :
  Schemas.BlockSessionInputSchema Fixtures.builtins Fixtures.blockArgs
  = Schemas.ParseSuccess
      {| Schemas.bs_title := js "공부";
         Schemas.bs_location_name := None;
         Schemas.bs_location_address := None;
         Schemas.bs_start_time := js "2026-01-15T19:00:00";
         Schemas.bs_duration_minutes := 120;
         Schemas.bs_reminder_minutes := 15;
         Schemas.bs_color := BLUE |}.
Proof. vm_compute. reflexivity. Qed.

Section Validation.

Import Schemas.

Variable B : Builtins.

Lemma ap_Some {A C} (pf : ObjParser (A -> C)) (pa : ObjParser A)
  (fields : list (JsString * JsValue)) (c : C) :
  ap pf pa fields = ([], Some c) ->
  exists f a, pf fields = ([], Some f) /\ pa fields = ([], Some a) /\ c = f a.
Proof.
  unfold ap. destruct (pf fields) as [i1 [f|]], (pa fields) as [i2 [a|]];
    intros H; inversion H as [[Hi Hc]].
  apply app_eq_nil in Hi as [-> ->]. now exists f, a.
Qed.

Lemma prop_Some {A} (key : JsString) (schema : Schema A)
  (fields : list (JsString * JsValue)) (a : A) :
  prop key schema fields = ([], Some a) ->
  schema (getProp key fields) = Valid a.
Proof.
  unfold prop. destruct (schema (getProp key fields)); intros H;
    inversion H; reflexivity.
Qed.

Lemma pure_Some {A} (a a' : A) (fields : list (JsString * JsValue)) :
  pure a fields = ([], Some a') -> a' = a.
Proof. unfold pure. intros H. now inversion H. Qed.

Lemma strictObject_success {A} (shapeKeys : list JsString) (p : ObjParser A)
  (args : JsValue) (d : A) :
  strictObject shapeKeys p args = ParseSuccess d ->
  exists fields,
    args = JObject fields /\ p fields = ([], Some d)
    /\ extraKeys shapeKeys fields = [].
Proof.
  unfold strictObject. destruct args; try discriminate.
  destruct (p fields) as [issues data] eqn:Ep.
  destruct issues as [|i issues]; [|discriminate].
  destruct (extraKeys shapeKeys fields) as [|k ks] eqn:Ee; [|discriminate].
  destruct data as [d'|]; [|discriminate].
  intros H. inversion H. subst. now exists fields.
Qed.

Lemma extraKeys_nil (shapeKeys : list JsString)
  (fields : list (JsString * JsValue)) (key : JsString) :
  extraKeys shapeKeys fields = [] ->
  In key (map fst fields) -> In key shapeKeys.
Proof.
  unfold extraKeys. intros Hnil Hin.
  destruct (existsb (JsString_eqb key) shapeKeys) eqn:E.
  - apply existsb_exists in E as [k [Hk Heq]].
    apply JsString_eqb_eq in Heq. now subst.
  - assert (Hf : In key
        (filter (fun k => negb (existsb (JsString_eqb k) shapeKeys))
           (map fst fields)))
      by (apply filter_In; split; [assumption|now rewrite E]).
    rewrite Hnil in Hf. contradiction.
Qed.

(** What a valid result says about the input of each kind of schema. *)

Lemma z_enum_Valid {A} (values : list A) (name : A -> JsString)
  (input : option JsValue) (a : A) :
  z_enum values name input = Valid a ->
  input = Some (JStr (name a)) /\ In a values.
Proof.
  unfold z_enum. destruct input as [[]|]; try discriminate.
  destruct (find _ values) as [a'|] eqn:E; [|discriminate].
  intros H. inversion H. subst a'. apply find_some in E as [Hin Heq].
  apply JsString_eqb_eq in Heq. now subst.
Qed.

Lemma z_string_Valid (checks : list StringCheck) (input : option JsValue)
  (s : JsString) :
  z_string B checks input = Valid s ->
  input = Some (JStr s) /\ flat_map (stringCheck B s) checks = [].
Proof.
  unfold z_string. destruct input as [[]|]; try discriminate.
  destruct (flat_map _ checks) eqn:E; [|discriminate].
  intros H. inversion H. subst. now split.
Qed.

Lemma z_number_int_Valid (checks : list NumberCheck) (input : option JsValue)
  (n : Z) :
  z_number_int checks input = Valid n ->
  input = Some (JNum n) /\ flat_map (numberCheck n) checks = [].
Proof.
  unfold z_number_int. destruct input as [[]|]; try discriminate.
  destruct (flat_map _ checks) eqn:E; [|discriminate].
  intros H. inversion H. subst. now split.
Qed.

Lemma optional_Valid {A} (inner : Schema A) (input : option JsValue)
  (o : option A) :
  optional inner input = Valid o ->
  match input with
  | None => o = None
  | Some _ => exists a, o = Some a /\ inner input = Valid a
  end.
Proof.
  unfold optional. destruct input as [v|].
  - destruct (inner (Some v)) as [a|]; [|discriminate].
    intros H. inversion H. now exists a.
  - intros H. now inversion H.
Qed.

Lemma default_Valid {A} (inner : Schema A) (d : JsValue)
  (input : option JsValue) (a : A) :
  default inner d input = Valid a ->
  match input with
  | None => inner (Some d) = Valid a
  | Some _ => inner input = Valid a
  end.
Proof. unfold default. now destruct input. Qed.

(** The length and number checks, read back as bounds. *)

Lemma min_max_bounds (lo hi : Z) (s : JsString) :
  flat_map (stringCheck B s) [min lo; max hi] = [] ->
  (lo <= jsLength s <= hi)%Z.
Proof.
  cbn [flat_map stringCheck]. 
  destruct (Z.ltb_spec (jsLength s) lo), (Z.ltb_spec hi (jsLength s));
    cbn; try discriminate. lia.
Qed.

Lemma max_bound (hi : Z) (s : JsString) :
  flat_map (stringCheck B s) [max hi] = [] -> (jsLength s <= hi)%Z.
Proof.
  cbn [flat_map stringCheck].
  destruct (Z.ltb_spec hi (jsLength s)); cbn; try discriminate. lia.
Qed.

Lemma nmin_nmax_bounds (lo hi n : Z) :
  flat_map (numberCheck n) [nmin lo; nmax hi] = [] -> (lo <= n <= hi)%Z.
Proof.
  cbn [flat_map numberCheck].
  destruct (Z.ltb_spec n lo), (Z.ltb_spec hi n); cbn; try discriminate. lia.
Qed.

(** A supplied value that a field schema accepts lies within the declared
    range. *)

Lemma string_in_range (lo hi : Z) (v : JsValue) (s : JsString) :
  z_string B [min lo; max hi] (Some v) = Valid s ->
  outOfRange (Length lo hi) v = false.
Proof.
  intros H. apply z_string_Valid in H as [Hv Hc]. inversion Hv. subst v.
  apply min_max_bounds in Hc. cbn [outOfRange].
  apply orb_false_iff. split; apply Z.ltb_ge; lia.
Qed.

Lemma optional_string_in_range (hi : Z) (v : JsValue) (o : option JsString) :
  optional (z_string B [max hi]) (Some v) = Valid o ->
  outOfRange (Length 0 hi) v = false.
Proof.
  intros H. apply optional_Valid in H as [s [_ H]].
  apply z_string_Valid in H as [Hv Hc]. inversion Hv. subst v.
  apply max_bound in Hc. cbn [outOfRange].
  assert (0 <= jsLength s)%Z by (unfold jsLength; lia).
  apply orb_false_iff. split; apply Z.ltb_ge; lia.
Qed.

Lemma number_in_range (lo hi : Z) (v : JsValue) (n : Z) :
  z_number_int [nmin lo; nmax hi] (Some v) = Valid n ->
  outOfRange (Between lo hi) v = false.
Proof.
  intros H. apply z_number_int_Valid in H as [Hv Hc]. inversion Hv. subst v.
  apply nmin_nmax_bounds in Hc. cbn [outOfRange].
  apply orb_false_iff. split; apply Z.ltb_ge; lia.
Qed.

Lemma default_number_in_range (lo hi : Z) (d : JsValue) (v : JsValue) (n : Z) :
  default (z_number_int [nmin lo; nmax hi]) d (Some v) = Valid n ->
  outOfRange (Between lo hi) v = false.
Proof. intros H. apply default_Valid in H. now apply number_in_range in H. Qed.

(** *** What a successful parse says, schema by schema *)

Lemma SearchSpotInputSchema_success (args : JsValue) (d : SearchSpotInput) :
  SearchSpotInputSchema B args = ParseSuccess d ->
  exists fields,
    args = JObject fields
    /\ extraKeys SearchSpotShape fields = []
    /\ PurposeSchema (getProp (js "purpose") fields) = Valid d.(ss_purpose)
    /\ optional (z_string B [max 100]) (getProp (js "keyword") fields)
       = Valid d.(ss_keyword)
    /\ z_string B [min 1; max 100] (getProp (js "location") fields)
       = Valid d.(ss_location)
    /\ default (z_number_int [nmin 100; nmax 20000]) (JNum 500)
         (getProp (js "radius") fields) = Valid d.(ss_radius)
    /\ default (z_number_int [nmin 1; nmax 15]) (JNum 5)
         (getProp (js "limit") fields) = Valid d.(ss_limit)
    /\ ResponseFormatSchema (getProp (js "response_format") fields)
       = Valid d.(ss_response_format).
Proof.
  unfold SearchSpotInputSchema. intros H.
  apply strictObject_success in H as [fields [-> [H Hextra]]].
  exists fields. split; [reflexivity|]. split; [exact Hextra|].
  repeat match type of H with
  | ap _ _ _ = _ =>
    let f := fresh "f" in let a := fresh "a" in
    let Ha := fresh "Ha" in let E := fresh "E" in
    apply ap_Some in H as [f [a [H [Ha E]]]]; apply prop_Some in Ha
  end.
  apply pure_Some in H. subst. cbn. repeat split; assumption.
Qed.

Lemma BlockSessionInputSchema_success (args : JsValue) (d : BlockSessionInput) :
  BlockSessionInputSchema B args = ParseSuccess d ->
  exists fields,
    args = JObject fields
    /\ extraKeys BlockSessionShape fields = []
    /\ z_string B [min 1; max 50] (getProp (js "title") fields)
       = Valid d.(bs_title)
    /\ optional (z_string B [max 100]) (getProp (js "location_name") fields)
       = Valid d.(bs_location_name)
    /\ optional (z_string B [max 200]) (getProp (js "location_address") fields)
       = Valid d.(bs_location_address)
    /\ z_string B [regex startTimeRegex] (getProp (js "start_time") fields)
       = Valid d.(bs_start_time)
    /\ z_number_int [nmin 15; nmax 480] (getProp (js "duration_minutes") fields)
       = Valid d.(bs_duration_minutes)
    /\ default (z_number_int [nmin 0; nmax 1440]) (JNum 15)
         (getProp (js "reminder_minutes") fields) = Valid d.(bs_reminder_minutes)
    /\ CalendarColorSchema (getProp (js "color") fields) = Valid d.(bs_color).
Proof.
  unfold BlockSessionInputSchema. intros H.
  apply strictObject_success in H as [fields [-> [H Hextra]]].
  exists fields. split; [reflexivity|]. split; [exact Hextra|].
  repeat match type of H with
  | ap _ _ _ = _ =>
    let f := fresh "f" in let a := fresh "a" in
    let Ha := fresh "Ha" in let E := fresh "E" in
    apply ap_Some in H as [f [a [H [Ha E]]]]; apply prop_Some in Ha
  end.
  apply pure_Some in H. subst. cbn. repeat split; assumption.
Qed.

Lemma SendCommitmentInputSchema_success (args : JsValue)
  (d : SendCommitmentInput) :
  SendCommitmentInputSchema B args = ParseSuccess d ->
  exists fields,
    args = JObject fields
    /\ extraKeys SendCommitmentShape fields = []
    /\ z_string B [min 1; max 200] (getProp (js "goal") fields)
       = Valid d.(sc_goal)
    /\ optional (z_string B [max 100]) (getProp (js "location_name") fields)
       = Valid d.(sc_location_name)
    /\ optional (z_string B [url]) (getProp (js "location_url") fields)
       = Valid d.(sc_location_url)
    /\ optional (z_string B [max 100]) (getProp (js "encouragement") fields)
       = Valid d.(sc_encouragement)
    /\ MessageTemplateTypeSchema (getProp (js "template_type") fields)
       = Valid d.(sc_template_type).
Proof.
  unfold SendCommitmentInputSchema. intros H.
  apply strictObject_success in H as [fields [-> [H Hextra]]].
  exists fields. split; [reflexivity|]. split; [exact Hextra|].
  repeat match type of H with
  | ap _ _ _ = _ =>
    let f := fresh "f" in let a := fresh "a" in
    let Ha := fresh "Ha" in let E := fresh "E" in
    apply ap_Some in H as [f [a [H [Ha E]]]]; apply prop_Some in Ha
  end.
  apply pure_Some in H. subst. cbn. repeat split; assumption.
Qed.

End Validation.

(** ** What the schemas accept *)

Section Acceptance.

Variable B : Builtins.

Lemma extraKeys_nil_intro (shapeKeys : list JsString)
  (fields : list (JsString * JsValue)) :
  (forall key, In key (map fst fields) -> In key shapeKeys) ->
  Schemas.extraKeys shapeKeys fields = [].
Proof.
  unfold Schemas.extraKeys. induction fields as [|[k v] rest IH]; intros H;
    [reflexivity|].
  cbn [map fst filter].
  assert (Hk : existsb (JsString_eqb k) shapeKeys = true).
  { apply existsb_exists. exists k. split; [|apply JsString_eqb_refl].
    apply H. now left. }
  rewrite Hk. cbn [negb]. apply IH. intros key Hin. apply H. now right.
Qed.

Lemma z_string_accepts (lo hi : Z) (s : JsString) :
  (lo <= jsLength s <= hi)%Z ->
  Schemas.z_string B [Schemas.min lo; Schemas.max hi] (Some (JStr s))
  = Schemas.Valid s.
Proof.
  intros H. unfold Schemas.z_string. cbn [flat_map Schemas.stringCheck].
  destruct (Z.ltb_spec (jsLength s) lo); [lia|].
  destruct (Z.ltb_spec hi (jsLength s)); [lia|]. reflexivity.
Qed.

Lemma optional_accepts (hi : Z) (o : option JsString) :
  (forall s, o = Some s -> (jsLength s <= hi)%Z) ->
  Schemas.optional (Schemas.z_string B [Schemas.max hi]) (option_map JStr o)
  = Schemas.Valid o.
Proof.
  intros H. destruct o as [s|]; [|reflexivity].
  unfold Schemas.optional, Schemas.z_string. cbn [option_map flat_map Schemas.stringCheck].
  destruct (Z.ltb_spec hi (jsLength s)); [specialize (H s eq_refl); lia|].
  reflexivity.
Qed.

Lemma default_number_accepts (lo hi dflt : Z) (o : option Z) :
  (lo <= dflt <= hi)%Z ->
  (forall v, o = Some v -> (lo <= v <= hi)%Z) ->
  Schemas.default (Schemas.z_number_int [Schemas.nmin lo; Schemas.nmax hi])
    (JNum dflt) (option_map JNum o)
  = Schemas.Valid (nullishNum o dflt).
Proof.
  intros Hd H.
  assert (Hn : forall n, (lo <= n <= hi)%Z ->
             Schemas.z_number_int [Schemas.nmin lo; Schemas.nmax hi]
               (Some (JNum n)) = Schemas.Valid n).
  { intros n Hn. unfold Schemas.z_number_int.
    cbn [flat_map Schemas.numberCheck].
    destruct (Z.ltb_spec n lo); [lia|].
    destruct (Z.ltb_spec hi n); [lia|]. reflexivity. }
  destruct o as [v|]; cbn [option_map Schemas.default nullishNum]; auto.
Qed.

Lemma PurposeSchema_accepts (p : Purpose) :
  Schemas.PurposeSchema (Some (JStr (Purpose_name p))) = Schemas.Valid p.
Proof. destruct p; vm_compute; reflexivity. Qed.

Lemma ResponseFormatSchema_accepts (f : option ResponseFormat) :
  Schemas.ResponseFormatSchema
    (option_map (fun x => JStr (ResponseFormat_name x)) f)
  = Schemas.Valid (match f with Some x => x | None => markdown end).
Proof. destruct f as [[|]|]; vm_compute; reflexivity. Qed.

End Acceptance.

(** Whatever map the search schema accepts comes out with its supplied
    values and, for the absent fields that declare one, the default. *)
Lemma accepted_search_fields (B : Builtins)
  (args : JsValue) (d : Schemas.SearchSpotInput) :
  Schemas.SearchSpotInputSchema B args = Schemas.ParseSuccess d ->
  exists fields,
    args = JObject fields
    /\ getProp (js "purpose") fields
       = Some (JStr (Purpose_name d.(Schemas.ss_purpose)))
    /\ getProp (js "location") fields = Some (JStr d.(Schemas.ss_location))
    /\ getProp (js "keyword") fields = option_map JStr d.(Schemas.ss_keyword)
    /\ match getProp (js "radius") fields with
       | Some v => v = JNum d.(Schemas.ss_radius)
       | None => d.(Schemas.ss_radius) = 500%Z
       end
    /\ match getProp (js "limit") fields with
       | Some v => v = JNum d.(Schemas.ss_limit)
       | None => d.(Schemas.ss_limit) = 5%Z
       end
    /\ match getProp (js "response_format") fields with
       | Some v => v = JStr (ResponseFormat_name d.(Schemas.ss_response_format))
       | None => d.(Schemas.ss_response_format) = markdown
       end.
Proof.
  intros H.
  apply SearchSpotInputSchema_success in H
    as [fields [-> [_ [Hp [Hk [Hl [Hr [Hn Hf]]]]]]]].
  exists fields. split; [reflexivity|].
  split; [now apply z_enum_Valid in Hp|].
  split; [now apply z_string_Valid in Hl|].
  split.
  { apply optional_Valid in Hk.
    destruct (getProp (js "keyword") fields) as [v|].
    - destruct Hk as [s [Hd Hs]]. rewrite Hd.
      apply z_string_Valid in Hs as [Hv _]. exact Hv.
    - rewrite Hk. reflexivity. }
  split.
  { apply default_Valid in Hr.
    destruct (getProp (js "radius") fields) as [v|];
      apply z_number_int_Valid in Hr as [Hv _]; congruence. }
  split.
  { apply default_Valid in Hn.
    destruct (getProp (js "limit") fields) as [v|];
      apply z_number_int_Valid in Hn as [Hv _]; congruence. }
  unfold Schemas.ResponseFormatSchema in Hf. apply default_Valid in Hf.
  destruct (getProp (js "response_format") fields) as [v|];
    apply z_enum_Valid in Hf as [Hv _].
  - congruence.
  - destruct (Schemas.ss_response_format d); [reflexivity|].
    vm_compute in Hv. discriminate.
Qed.

(** C7. The search schema accepts every valid argument map, that is, one
    that names a purpose, holds a location of 1 to 100 code units, keeps each
    optional field it supplies within its range and holds no undeclared
    field; and the value it produces carries every supplied field with the
    value it was given (purpose, location, keyword, radius, limit,
    response_format) and the declared default for every absent one: radius
    500, limit 5, response_format markdown.  Conversely, whatever map the
    schema accepts comes out with its supplied values and these defaults. *)
Theorem validate_search_keeps_fields_and_fills_defaults (B : Builtins)
  (fields : list (JsString * JsValue)) (purpose : Purpose)
  (location : JsString) (keyword : option JsString) (radius limit : option Z)
  (format : option ResponseFormat) :
  getProp (js "purpose") fields = Some (JStr (Purpose_name purpose)) ->
  getProp (js "location") fields = Some (JStr location) ->
  (1 <= jsLength location <= 100)%Z ->
  getProp (js "keyword") fields = option_map JStr keyword ->
  (forall k, keyword = Some k -> (jsLength k <= 100)%Z) ->
  getProp (js "radius") fields = option_map JNum radius ->
  (forall r, radius = Some r -> (100 <= r <= 20000)%Z) ->
  getProp (js "limit") fields = option_map JNum limit ->
  (forall n, limit = Some n -> (1 <= n <= 15)%Z) ->
  getProp (js "response_format") fields
  = option_map (fun f => JStr (ResponseFormat_name f)) format ->
  (forall key, In key (map fst fields) -> In key Schemas.SearchSpotShape) ->
  (exists d,
      Schemas.SearchSpotInputSchema B (JObject fields)
      = Schemas.ParseSuccess d
      /\ d.(Schemas.ss_purpose) = purpose
      /\ d.(Schemas.ss_location) = location
      /\ d.(Schemas.ss_keyword) = keyword
      /\ (forall r, radius = Some r -> d.(Schemas.ss_radius) = r)
      /\ (radius = None -> d.(Schemas.ss_radius) = 500%Z)
      /\ (forall n, limit = Some n -> d.(Schemas.ss_limit) = n)
      /\ (limit = None -> d.(Schemas.ss_limit) = 5%Z)
      /\ (forall f, format = Some f -> d.(Schemas.ss_response_format) = f)
      /\ (format = None -> d.(Schemas.ss_response_format) = markdown))
  /\ (forall args d,
         Schemas.SearchSpotInputSchema B args = Schemas.ParseSuccess d ->
         exists given,
           args = JObject given
           /\ getProp (js "purpose") given
              = Some (JStr (Purpose_name d.(Schemas.ss_purpose)))
           /\ getProp (js "location") given
              = Some (JStr d.(Schemas.ss_location))
           /\ getProp (js "keyword") given
              = option_map JStr d.(Schemas.ss_keyword)
           /\ match getProp (js "radius") given with
              | Some v => v = JNum d.(Schemas.ss_radius)
              | None => d.(Schemas.ss_radius) = 500%Z
              end
           /\ match getProp (js "limit") given with
              | Some v => v = JNum d.(Schemas.ss_limit)
              | None => d.(Schemas.ss_limit) = 5%Z
              end
           /\ match getProp (js "response_format") given with
              | Some v =>
                v = JStr (ResponseFormat_name d.(Schemas.ss_response_format))
              | None => d.(Schemas.ss_response_format) = markdown
              end).
Proof.
  intros Hp Hl Hlen Hk Hklen Hr Hrange Hn Hnrange Hf Hkeys.
  split; [|exact (accepted_search_fields B)].
  exists {| Schemas.ss_purpose := purpose;
            Schemas.ss_keyword := keyword;
            Schemas.ss_location := location;
            Schemas.ss_radius := nullishNum radius 500;
            Schemas.ss_limit := nullishNum limit 5;
            Schemas.ss_response_format :=
              match format with Some f => f | None => markdown end |}.
  split.
  { unfold Schemas.SearchSpotInputSchema, Schemas.strictObject.
    rewrite (extraKeys_nil_intro _ _ Hkeys).
    unfold Schemas.ap, Schemas.prop, Schemas.pure.
    rewrite Hp, Hl, Hk, Hr, Hn, Hf.
    rewrite PurposeSchema_accepts, (optional_accepts B 100 keyword Hklen),
      (z_string_accepts B 1 100 location Hlen),
      (default_number_accepts 100 20000 500 radius ltac:(lia) Hrange),
      (default_number_accepts 1 15 5 limit ltac:(lia) Hnrange),
      ResponseFormatSchema_accepts.
    reflexivity. }
  cbn [Schemas.ss_purpose Schemas.ss_location Schemas.ss_keyword
       Schemas.ss_radius Schemas.ss_limit Schemas.ss_response_format].
  split; [reflexivity|]. split; [reflexivity|]. split; [reflexivity|].
  split; [intros r ->; reflexivity|]. split; [intros ->; reflexivity|].
  split; [intros n ->; reflexivity|]. split; [intros ->; reflexivity|].
  split; [intros f ->; reflexivity|intros ->; reflexivity].
Qed.

(** A run of the theorem: purpose and location alone, so that every
    default is filled. *)
Lemma validate_search_keeps_fields_and_fills_defaults_witness :
  exists d,
    Schemas.SearchSpotInputSchema Fixtures.builtins
      (JObject [ (js "purpose", JStr (Purpose_name reading));
                 (js "location", JStr (js "강남역")) ])
    = Schemas.ParseSuccess d
    /\ d.(Schemas.ss_purpose) = reading
    /\ d.(Schemas.ss_location) = js "강남역"
    /\ d.(Schemas.ss_keyword) = None
    /\ d.(Schemas.ss_radius) = 500%Z
    /\ d.(Schemas.ss_limit) = 5%Z
    /\ d.(Schemas.ss_response_format) = markdown.
Proof.
  destruct (validate_search_keeps_fields_and_fills_defaults
              Fixtures.builtins
              [ (js "purpose", JStr (Purpose_name reading));
                (js "location", JStr (js "강남역")) ]
              reading (js "강남역") None None None None)
    as [[d [Hparse [Hp [Hl [Hk [_ [Hr [_ [Hn [_ Hf]]]]]]]]]] _].
  - vm_compute. reflexivity.
  - vm_compute. reflexivity.
  - vm_compute. split; discriminate.
  - vm_compute. reflexivity.
  - discriminate.
  - vm_compute. reflexivity.
  - discriminate.
  - vm_compute. reflexivity.
  - discriminate.
  - vm_compute. reflexivity.
  - intros key Hin. cbn [map fst In] in Hin. unfold Schemas.SearchSpotShape.
    cbn [In]. intuition.
  - exists d. split; [exact Hparse|]. split; [exact Hp|]. split; [exact Hl|].
    split; [exact Hk|]. split; [exact (Hr eq_refl)|].
    split; [exact (Hn eq_refl)|exact (Hf eq_refl)].
Defined.

(** ** Rejection of invalid arguments *)

Section Rejection.

Variable B : Builtins.

(** Arguments a schema accepts have every supplied field within its
    declared range and no undeclared field. *)
Lemma accepted_arguments_in_range (t : Tool)
  (fields : list (JsString * JsValue)) :
  validationIssues B t (JObject fields) = None ->
  (forall key r v,
      In (key, r) (declaredRanges t) -> getProp key fields = Some v ->
      outOfRange r v = false)
  /\ (forall key, In key (map fst fields) -> In key (declaredFields t)).
Proof.
  destruct t; cbn [validationIssues]; intros H.
  - destruct (Schemas.SearchSpotInputSchema B (JObject fields)) as [d|] eqn:E;
      [|discriminate].
    apply SearchSpotInputSchema_success in E
      as [fields' [Ef [Hx [Hp [Hk [Hl [Hr [Hn Hf]]]]]]]].
    inversion Ef. subst fields'. split.
    + intros key r v Hin Hget. cbn [declaredRanges In] in Hin.
      destruct Hin as [Hin|[Hin|[Hin|[Hin|[]]]]]; inversion Hin; subst;
        rewrite Hget in *;
        eauto using string_in_range, optional_string_in_range,
          default_number_in_range.
    + intros key. now apply extraKeys_nil.
  - destruct (Schemas.BlockSessionInputSchema B (JObject fields)) as [d|] eqn:E;
      [|discriminate].
    apply BlockSessionInputSchema_success in E
      as [fields' [Ef [Hx [Ht [Hln [Hla [Hs [Hd [Hr Hc]]]]]]]]].
    inversion Ef. subst fields'. split.
    + intros key r v Hin Hget. cbn [declaredRanges In] in Hin.
      destruct Hin as [Hin|[Hin|[Hin|[Hin|[Hin|[]]]]]]; inversion Hin; subst;
        rewrite Hget in *;
        eauto using string_in_range, optional_string_in_range,
          number_in_range, default_number_in_range.
    + intros key. now apply extraKeys_nil.
  - destruct (Schemas.SendCommitmentInputSchema B (JObject fields)) as [d|] eqn:E;
      [|discriminate].
    apply SendCommitmentInputSchema_success in E
      as [fields' [Ef [Hx [Hg [Hln [Hu [He Ht]]]]]]].
    inversion Ef. subst fields'. split.
    + intros key r v Hin Hget. cbn [declaredRanges In] in Hin.
      destruct Hin as [Hin|[Hin|[Hin|[]]]]; inversion Hin; subst;
        rewrite Hget in *;
        eauto using string_in_range, optional_string_in_range.
    + intros key. now apply extraKeys_nil.
Qed.

Lemma tool_names_differ :
  JsString_eqb (toolName BlockSession) (toolName SearchSpot) = false
  /\ JsString_eqb (toolName SendCommitment) (toolName SearchSpot) = false
  /\ JsString_eqb (toolName SendCommitment) (toolName BlockSession) = false.
Proof. vm_compute. auto. Qed.

(** [executeTool] answers a failed validation at once: the error text,
    the log as it was. *)
Lemma executeTool_rejects (W : World) (I : ApiHandler.Imports) (t : Tool)
  (args : JsValue) (issues : list ZodIssue) (log : list Request) :
  validationIssues B t args = Some issues ->
  ApiHandler.executeTool B W I (toolName t) args log
  = (Return (ApiHandler.inputError B issues), log).
Proof.
  destruct tool_names_differ as [Hbs [Hcs Hcb]].
  destruct t; cbn [validationIssues]; intros H; unfold ApiHandler.executeTool.
  - change (js "godsaeng_search_spot") with (toolName SearchSpot).
    rewrite JsString_eqb_refl.
    destruct (Schemas.SearchSpotInputSchema B args); inversion H. reflexivity.
  - change (js "godsaeng_search_spot") with (toolName SearchSpot).
    change (js "godsaeng_block_session") with (toolName BlockSession).
    rewrite Hbs, JsString_eqb_refl.
    destruct (Schemas.BlockSessionInputSchema B args); inversion H. reflexivity.
  - change (js "godsaeng_search_spot") with (toolName SearchSpot).
    change (js "godsaeng_block_session") with (toolName BlockSession).
    change (js "godsaeng_send_commitment") with (toolName SendCommitment).
    rewrite Hcs, Hcb, JsString_eqb_refl.
    destruct (Schemas.SendCommitmentInputSchema B args); inversion H.
    reflexivity.
Qed.

(** The callback of an SDK tool turns the ZodError its own parse throws
    into a failure envelope, the log as it was, for whatever arguments reach
    it. *)
Lemma handler_rejects (W : World) (t : Tool) (args : JsValue)
  (issues : list ZodIssue) (log : list Request) :
  validationIssues B t args = Some issues ->
  exists t',
    handlerOf B W t args log
    = (Return {| content := [textItem t']; isError := Some true |}, log).
Proof.
  destruct t; cbn [validationIssues handlerOf]; intros H.
  - unfold Tools.searchSpotHandler, tryCatch, bind, Schemas.parse.
    destruct (Schemas.SearchSpotInputSchema B args); inversion H.
    eexists. reflexivity.
  - unfold Tools.blockSessionHandler, tryCatch, bind, Schemas.parse.
    destruct (Schemas.BlockSessionInputSchema B args); inversion H.
    eexists. reflexivity.
  - unfold Tools.sendCommitmentHandler, tryCatch, bind, Schemas.parse.
    destruct (Schemas.SendCommitmentInputSchema B args); inversion H.
    eexists. reflexivity.
Qed.

End Rejection.

(** C6. An argument map that holds a field outside its declared range, or a
    field the tool's schema does not declare, fails the validation of the
    tool's strict schema; the dispatcher of the JSON-RPC handler answers
    with the validation error text, and the log of outbound requests is
    unchanged: no adapter runs.  (The SDK server parses the raw arguments
    with the shape of the schema before a callback runs; that path is not
    part of this statement.) *)
Theorem invalid_arguments_rejected (B : Builtins) (W : World)
  (I : ApiHandler.Imports) (t : Tool) (fields : list (JsString * JsValue))
  (log : list Request) :
  (exists key r v,
      In (key, r) (declaredRanges t) /\ getProp key fields = Some v
      /\ outOfRange r v = true)
  \/ (exists key, In key (map fst fields) /\ ~ In key (declaredFields t)) ->
  exists issues,
    validationIssues B t (JObject fields) = Some issues
    /\ ApiHandler.executeTool B W I (toolName t) (JObject fields) log
       = (Return (ApiHandler.inputError B issues), log).
Proof.
  intros Hbad.
  destruct (validationIssues B t (JObject fields)) as [issues|] eqn:E.
  - exists issues. split; [reflexivity|].
    now apply executeTool_rejects.
  - apply accepted_arguments_in_range in E as [Hrange Hkeys].
    destruct Hbad as [[key [r [v [Hin [Hget Hout]]]]]|[key [Hin Hnot]]].
    + rewrite (Hrange key r v Hin Hget) in Hout. discriminate.
    + elim Hnot. now apply Hkeys.
Qed.

(** A run of the theorem: [duration_minutes = 500] with a credential and
    every endpoint ready to answer. *)
Lemma invalid_arguments_rejected_witness :
  exists issues,
    ApiHandler.executeTool Fixtures.builtins
      (Fixtures.world Fixtures.apiKey Fixtures.accessToken [])
      Fixtures.imports (toolName BlockSession) Fixtures.blockArgs500 []
    = (Return (ApiHandler.inputError Fixtures.builtins issues), []).
Proof.
  destruct (invalid_arguments_rejected Fixtures.builtins
              (Fixtures.world Fixtures.apiKey Fixtures.accessToken [])
              Fixtures.imports BlockSession
              [ (js "title", JStr (js "공부"));
                (js "start_time", JStr (js "2026-01-15T19:00:00"));
                (js "duration_minutes", JNum 500) ] [])
    as [issues [_ H]].
  - left. exists (js "duration_minutes"), (Between 15 480), (JNum 500).
    split; [|split].
    + cbn. auto 10.
    + vm_compute. reflexivity.
    + vm_compute. reflexivity.
  - exists issues. exact H.
Defined.

(** The same for an undeclared field. *)
Example unknown_field_rejected :
  validationIssues Fixtures.builtins SearchSpot
    (JObject [ (js "purpose", JStr (js "study"));
               (js "location", JStr (js "홍대입구역"));
               (js "page", JNum 2) ])
  = Some [ {| code := unrecognized_keys [js "page"]; path := [] |} ].
Proof. vm_compute. reflexivity. Qed.

(** ** The place-search adapter *)

Section PlaceSearch.

Import KakaoLocalApi.

Variable W : World.

(** [getCoordinates], case by case on the two replies. *)
Lemma getCoordinates_cases (location : JsString) (log : list Request) :
  let key := kakaoRestApiKey W in
  let first := GetAddress key location in
  let second := GetKeyword key (lookupParams location) in
  getCoordinates W location log
  = match W.(axios_address) log key location with
    | Return (doc :: _) =>
      (Return (Some {| x := doc.(doc_x); y := doc.(doc_y) |}), log ++ [first])
    | Return [] =>
      (match W.(axios_keyword) (log ++ [first]) key (lookupParams location) with
       | Return (place :: _) =>
         Return (Some {| x := place.(place_x); y := place.(place_y) |})
       | Return [] => Return None
       | Throw _ => Return None
       end, (log ++ [first]) ++ [second])
    | Throw _ => (Return None, log ++ [first])
    end.
Proof.
  intros key first second.
  unfold getCoordinates, tryCatch, bind, axios_get_address, axios_get_keyword,
    await, ret.
  fold key.
  destruct (axios_address W log key location) as [[|doc docs]|e];
    try reflexivity.
  fold first.
  destruct (axios_keyword W (log ++ [first]) key (lookupParams location))
    as [[|place places]|e]; reflexivity.
Qed.

(** [getCoordinates] never throws. *)
Lemma getCoordinates_returns (location : JsString) (log : list Request) :
  exists coords, fst (getCoordinates W location log) = Return coords.
Proof.
  rewrite getCoordinates_cases.
  destruct (axios_address W log _ location) as [[|doc docs]|e];
    try (eexists; reflexivity).
  destruct (axios_keyword W _ _ _) as [[|place places]|e];
    eexists; reflexivity.
Qed.

(** [searchPlaces] after the coordinate step. *)
Lemma searchPlaces_cases (purpose : Purpose) (location : JsString)
  (keyword : option JsString) (radius limit : option Z) (log : list Request) :
  keyConfigured W ->
  let key := kakaoRestApiKey W in
  searchPlaces W purpose location keyword radius limit log
  = match getCoordinates W location log with
    | (Return None, log1) => (Throw (JsError (locationNotFound location)), log1)
    | (Return (Some coords), log1) =>
      let params :=
        placeSearchParams purpose location keyword radius limit coords in
      (match W.(axios_keyword) log1 key params with
       | Return places => Return (places, kp_query params)
       | Throw (AxiosError status message _) =>
         if statusIs status 401 then Throw (JsError unauthorized)
         else if statusIs status 429 then Throw (JsError rateLimited)
         else Throw (JsError (js "장소 검색 실패: " ++ message))
       | Throw e => Throw e
       end, log1 ++ [GetKeyword key params])
    | (Throw e, log1) => (Throw e, log1)
    end.
Proof.
  intros Hkey key. subst key. unfold keyConfigured in Hkey.
  unfold searchPlaces.
  destruct (kakaoRestApiKey W) as [|c r] eqn:Ekey; [congruence|].
  cbn [truthyStr negb]. unfold bind.
  destruct (getCoordinates W location log) as [[[coords|]|e] log1];
    try reflexivity.
  unfold tryCatch, bind, axios_get_keyword, await, ret, throw.
  rewrite Ekey. unfold placeSearchParams.
  destruct (axios_keyword W log1 (c :: r) _) as [places|e]; [reflexivity|].
  destruct e as [status m d|m|v]; try reflexivity.
  repeat match goal with
  | |- context [if ?b then _ else _] => destruct b
  end; reflexivity.
Qed.


End PlaceSearch.

(** The search of the JSON-RPC handler reaches the provider through one
    call of the imported search function, and its answer is a text made from
    what that call gives. *)
Lemma executeSearchSpot_call (I : ApiHandler.Imports)
  (args : Schemas.SearchSpotInput) (place : ApiHandler.LatLng)
  (log log2 : list Request) :
  ApiHandler.coordinateLookup I args.(Schemas.ss_location) log
  = (Return place, log2) ->
  exists options render,
    (let call :=
       ApiHandler.searchPlaces I (ApiHandler.searchQuery I args)
         place.(ApiHandler.longitude) place.(ApiHandler.latitude) options
         log2 in
     ApiHandler.executeSearchSpot I args log
     = (Return (render (fst call)), snd call))
    /\ ApiHandler.opt_categoryGroupCode options
       = ApiHandler.PURPOSE_CATEGORY_MAP I args.(Schemas.ss_purpose).
Proof.
  intros Hlookup.
  unfold ApiHandler.executeSearchSpot, tryCatch, bind, ret.
  rewrite Hlookup.
  exists {| ApiHandler.opt_radius :=
              orElseNum (Some args.(Schemas.ss_radius)) 500;
            ApiHandler.opt_size := orElseNum (Some args.(Schemas.ss_limit)) 5;
            ApiHandler.opt_categoryGroupCode :=
              ApiHandler.PURPOSE_CATEGORY_MAP I args.(Schemas.ss_purpose) |}.
  exists (fun c : Completion (list KakaoPlace) =>
            match c with
            | Return places =>
              ApiHandler.formatSearchSpotResult I
                {| ApiHandler.ao_purpose := args.(Schemas.ss_purpose);
                   ApiHandler.ao_location := args.(Schemas.ss_location);
                   ApiHandler.ao_count := arrayLength places;
                   ApiHandler.ao_places :=
                     map (fun p =>
                            {| ApiHandler.ap_name := p.(place_name);
                               ApiHandler.ap_address :=
                                 orElseStr (Some p.(road_address_name))
                                   p.(address_name);
                               ApiHandler.ap_distance := p.(distance);
                               ApiHandler.ap_phone :=
                                 if truthyStr (Some p.(phone))
                                 then Some p.(phone) else None;
                               ApiHandler.ap_url := p.(place_url);
                               ApiHandler.ap_category := p.(category_name) |})
                         places |}
                args.(Schemas.ss_response_format)
            | Throw e =>
              js "❌ 장소 검색 실패: " ++ messageOr ApiHandler.unknownError e
            end).
  cbv zeta. split.
  - match goal with
    | |- context [ApiHandler.searchPlaces I ?q ?a ?b ?o log2] =>
      destruct (ApiHandler.searchPlaces I q a b o log2) as [[places|e] log3]
    end; reflexivity.
  - reflexivity.
Qed.

(** C3 (as the code has it). In the services adapter, once the coordinates
    are resolved, the place search sends the query [{location} {term}],
    where the term is the keyword when a non-empty keyword is supplied and
    the purpose's default keyword otherwise (no keyword, or an empty one);
    the category-group filter CE7 is sent for the purposes study and reading
    and no filter for exercise and work.  In the JSON-RPC handler the phrase
    handed to the imported search function holds no location: it is the
    purpose keyword of the imported table (the empty string when the table
    has none) when no non-empty keyword is supplied, and the keyword, a
    space and that purpose keyword, trimmed, otherwise; the category code is
    that of the imported table. *)
Theorem place_search_query (W : World) (purpose : Purpose)
  (location : JsString) (keyword : option JsString) (radius limit : option Z)
  (log log1 : list Request) (coords : Coords) :
  keyConfigured W ->
  KakaoLocalApi.getCoordinates W location log = (Return (Some coords), log1) ->
  let defaultTerm :=
    (Constants.PURPOSE_CONFIG purpose).(Constants.defaultKeyword) in
  (exists params,
      snd (KakaoLocalApi.searchPlaces W purpose location keyword radius limit
             log)
      = log1 ++ [GetKeyword (KakaoLocalApi.kakaoRestApiKey W) params]
      /\ (keyword = None ->
          kp_query params = location ++ js " " ++ defaultTerm)
      /\ (keyword = Some [] ->
          kp_query params = location ++ js " " ++ defaultTerm)
      /\ (forall k, keyword = Some k -> k <> [] ->
          kp_query params = location ++ js " " ++ k)
      /\ kp_category_group_code params
         = match purpose with
           | study | reading => Some (js "CE7")
           | exercise | work => None
           end)
  /\ (forall (I : ApiHandler.Imports) (args : Schemas.SearchSpotInput)
             (place : ApiHandler.LatLng) (log2 : list Request),
         ApiHandler.coordinateLookup I args.(Schemas.ss_location) log
         = (Return place, log2) ->
         let purposeKeyword :=
           orElseStr
             (ApiHandler.PURPOSE_KEYWORDS I args.(Schemas.ss_purpose)) [] in
         exists phrase options render,
           (let call :=
              ApiHandler.searchPlaces I phrase place.(ApiHandler.longitude)
                place.(ApiHandler.latitude) options log2 in
            ApiHandler.executeSearchSpot I args log
            = (Return (render (fst call)), snd call))
           /\ (truthyStr args.(Schemas.ss_keyword) = false ->
               phrase = purposeKeyword)
           /\ (forall k, args.(Schemas.ss_keyword) = Some k -> k <> [] ->
               phrase = trim (k ++ js " " ++ purposeKeyword))
           /\ ApiHandler.opt_categoryGroupCode options
              = ApiHandler.PURPOSE_CATEGORY_MAP I args.(Schemas.ss_purpose)).
Proof.
  intros Hkey Hcoords defaultTerm. split.
  - exists (placeSearchParams purpose location keyword radius limit coords).
    split.
    + rewrite (searchPlaces_cases W purpose location keyword radius limit log
                 Hkey).
      rewrite Hcoords. reflexivity.
    + unfold placeSearchParams, KakaoLocalApi.searchParams.
      cbn [kp_query kp_category_group_code].
      fold defaultTerm.
      split; [intros ->; reflexivity|].
      split; [intros ->; reflexivity|].
      split.
      * intros k -> Hk. destruct k; [contradiction|reflexivity].
      * destruct purpose; reflexivity.
  - intros I args place log2 Hlookup purposeKeyword.
    destruct (executeSearchSpot_call I args place log log2 Hlookup)
      as [options [render [Hcall Hcode]]].
    exists (ApiHandler.searchQuery I args), options, render.
    split; [exact Hcall|]. split; [|split; [|exact Hcode]].
    + intros Hfalsy. unfold ApiHandler.searchQuery. now rewrite Hfalsy.
    + intros k Hk Hne. unfold ApiHandler.searchQuery. rewrite Hk.
      destruct k as [|c r]; [contradiction|reflexivity].
Qed.

(** Scenario A: purpose study, location "Hongdae Station", no keyword. *)
Lemma place_search_query_witness :
  exists params,
    snd (run (KakaoLocalApi.searchPlaces
                (Fixtures.world Fixtures.apiKey None [])
                study (js "Hongdae Station") None None None))
    = [ GetAddress (js "rest-api-key") (js "Hongdae Station");
        GetKeyword (js "rest-api-key") params ]
    /\ kp_query params = js "Hongdae Station 스터디카페"
    /\ kp_category_group_code params = Some (js "CE7").
Proof.
  destruct (place_search_query (Fixtures.world Fixtures.apiKey None [])
              study (js "Hongdae Station") None None None []
              [GetAddress (js "rest-api-key") (js "Hongdae Station")]
              {| x := js "126.9236"; y := js "37.5572" |})
    as [[params [Hlog [Hq [_ [_ Hc]]]]] _].
  - vm_compute. discriminate.
  - vm_compute. reflexivity.
  - exists params. split; [exact Hlog|]. split; [|exact Hc].
    rewrite (Hq eq_refl). vm_compute. reflexivity.
Defined.

(** The phrase of the JSON-RPC handler for the keyword "조용한" where the
    imported table has no keyword for the purpose: the keyword alone, the
    location nowhere. *)
Example json_rpc_phrase_has_no_location :
  ApiHandler.searchQuery Fixtures.imports
    {| Schemas.ss_purpose := study;
       Schemas.ss_keyword := Some (js "조용한");
       Schemas.ss_location := js "홍대입구역";
       Schemas.ss_radius := 500;
       Schemas.ss_limit := 5;
       Schemas.ss_response_format := markdown |}
  = js "조용한".
Proof. vm_compute. reflexivity. Qed.

(** C3, as stated, fails for a supplied keyword that is empty: the schema
    accepts it, and the query sent is the location with the default term,
    not the location with the keyword. *)
Lemma place_search_query_counterexample :
  let args :=
    JObject [ (js "purpose", JStr (js "study"));
              (js "location", JStr (js "홍대입구역"));
              (js "keyword", JStr []) ] in
  exists d params,
    Schemas.SearchSpotInputSchema Fixtures.builtins args
    = Schemas.ParseSuccess d
    /\ d.(Schemas.ss_keyword) = Some []
    /\ snd (run (KakaoLocalApi.searchPlaces
                   (Fixtures.world Fixtures.apiKey None [])
                   d.(Schemas.ss_purpose) d.(Schemas.ss_location)
                   d.(Schemas.ss_keyword)
                   (Some d.(Schemas.ss_radius)) (Some d.(Schemas.ss_limit))))
       = [ GetAddress (js "rest-api-key") (js "홍대입구역");
           GetKeyword (js "rest-api-key") params ]
    /\ kp_query params = js "홍대입구역 스터디카페"
    /\ kp_query params <> d.(Schemas.ss_location) ++ js " " ++ [].
Proof.
  intros args. eexists. eexists.
  split; [vm_compute; reflexivity|].
  split; [reflexivity|].
  split; [vm_compute; reflexivity|].
  split; [vm_compute; reflexivity|].
  vm_compute. discriminate.
Qed.

(** C9 (as the code has it). With the API key configured, the location is
    resolved by the address lookup first; the keyword lookup is sent only
    when the address lookup returns no document, and its first hit gives the
    coordinates; the search stops with the location-not-found error, naming
    the location and sending no place search, exactly when the address lookup
    fails, or returns no document and the keyword lookup fails or returns no
    document either. *)
Theorem coordinates_two_step_lookup (W : World) (purpose : Purpose)
  (location : JsString) (keyword : option JsString) (radius limit : option Z)
  (log : list Request) :
  keyConfigured W ->
  let key := KakaoLocalApi.kakaoRestApiKey W in
  let first := GetAddress key location in
  let second := GetKeyword key (KakaoLocalApi.lookupParams location) in
  let address := W.(axios_address) log key location in
  let fallback :=
    W.(axios_keyword) (log ++ [first]) key (KakaoLocalApi.lookupParams location) in
  (forall doc docs,
      address = Return (doc :: docs) ->
      KakaoLocalApi.getCoordinates W location log
      = (Return (Some {| x := doc.(doc_x); y := doc.(doc_y) |}),
         log ++ [first]))
  /\ (forall place places,
         address = Return [] -> fallback = Return (place :: places) ->
         KakaoLocalApi.getCoordinates W location log
         = (Return (Some {| x := place.(place_x); y := place.(place_y) |}),
            log ++ [first; second]))
  /\ (KakaoLocalApi.searchPlaces W purpose location keyword radius limit log
      = (Throw (JsError (KakaoLocalApi.locationNotFound location)),
         snd (KakaoLocalApi.getCoordinates W location log))
      <-> ((exists e, address = Throw e)
           \/ (address = Return []
               /\ (fallback = Return [] \/ exists e, fallback = Throw e)))).
Proof.
  intros Hkey key first second address fallback.
  pose proof (getCoordinates_cases W location log) as Hc. cbv zeta in Hc.
  fold key in Hc. fold first in Hc. fold second in Hc. fold address in Hc.
  fold fallback in Hc.
  pose proof (searchPlaces_cases W purpose location keyword radius limit log
                Hkey) as Hs. cbv zeta in Hs. fold key in Hs.
  split; [|split].
  - intros doc docs Ha. rewrite Hc, Ha. reflexivity.
  - intros place places Ha Hf. rewrite Hc, Ha, Hf.
    rewrite <- app_assoc. reflexivity.
  - rewrite Hs. rewrite Hc.
    destruct address as [[|doc docs]|e].
    + destruct fallback as [[|place places]|e]; cbn [fst snd].
      * split; [intros _; right; split; [reflexivity|now left]|reflexivity].
      * split.
        -- intros H. apply (f_equal snd) in H. cbn [snd] in H.
           apply (f_equal (@List.length Request)) in H.
           rewrite !length_app in H. cbn [List.length] in H. lia.
        -- intros [[e He]|[_ [Hf|[e He]]]]; discriminate.
      * split; [intros _; right; split; [reflexivity|right; now exists e]
               |reflexivity].
    + cbn [fst snd]. split.
      * intros H. apply (f_equal snd) in H. cbn [snd] in H.
        apply (f_equal (@List.length Request)) in H.
        rewrite !length_app in H. cbn [List.length] in H. lia.
      * intros [[e He]|[Ha _]]; discriminate.
    + cbn [fst snd].
      split; [intros _; left; now exists e|reflexivity].
Qed.

(** A run of the theorem: the address lookup answers, so one request is
    sent and its first document gives the coordinates. *)
Lemma coordinates_two_step_lookup_witness :
  KakaoLocalApi.getCoordinates (Fixtures.world Fixtures.apiKey None [])
    (js "홍대입구역") []
  = (Return (Some {| x := js "126.9236"; y := js "37.5572" |}),
     [GetAddress (js "rest-api-key") (js "홍대입구역")]).
Proof.
  destruct (coordinates_two_step_lookup
              (Fixtures.world Fixtures.apiKey None [])
              study (js "홍대입구역") None None None [])
    as [Hfirst _].
  - vm_compute. discriminate.
  - apply (Hfirst Fixtures.station []). reflexivity.
Defined.

(** C9, as stated, fails: here the address lookup is answered 401, no
    lookup returns zero results (the keyword lookup, had it been sent, would
    have returned a hit), and the search still fails with the
    location-not-found error. *)
Lemma coordinates_two_step_lookup_counterexample :
  let W := Fixtures.world401 Fixtures.apiKey in
  let key := js "rest-api-key" in
  let location := js "홍대입구역" in
  run (KakaoLocalApi.searchPlaces W study location None None None)
  = (Throw (JsError (KakaoLocalApi.locationNotFound location)),
     [GetAddress key location])
  /\ W.(axios_address) [] key location <> Return []
  /\ W.(axios_keyword) [GetAddress key location] key
       (KakaoLocalApi.lookupParams location) <> Return [].
Proof.
  intros W key location.
  split; [vm_compute; reflexivity|].
  split; discriminate.
Qed.

(** ** Failures of the coordinate lookup *)

Section LookupFailure.

Variable W : World.





End LookupFailure.



(** ** The envelope *)

Section Envelope.

Variable B : Builtins.
Variable W : World.

Lemma searchSpotHandler_envelope (params : JsValue) (log : list Request) :
  exists message log',
    Tools.searchSpotHandler B W params log
    = (Return {| content := [textItem message];
                 isError := flagOf (adapterCompletion B W SearchSpot params log) |},
       log').
Proof.
  unfold Tools.searchSpotHandler, tryCatch, bind, Schemas.parse, ret, throw.
  cbn [adapterCompletion].
  destruct (Schemas.SearchSpotInputSchema B params) as [input|issues];
    [|eexists; eexists; reflexivity].
  destruct (KakaoLocalApi.searchProductivitySpots W _ _ _ _ _ log)
    as [[result|e] log1]; eexists; eexists; reflexivity.
Qed.

(** When [createCalendarEvent] returns, the start time was a valid date. *)
Lemma createCalendarEvent_valid_start (accessToken title startTime : JsString)
  (durationMinutes : Z) (options : KakaoCalendarApi.CreateOptions)
  (log log' : list Request) (response : CalendarCreateResponse) :
  KakaoCalendarApi.createCalendarEvent B W accessToken title startTime
    durationMinutes options log = (Return response, log') ->
  exists t, B.(Date_parse) startTime = Some t.
Proof.
  unfold KakaoCalendarApi.createCalendarEvent.
  destruct (negb (truthyStr (Some accessToken))); [discriminate|].
  unfold bind, KakaoCalendarApi.liftC, KakaoCalendarApi.formatStartTime,
    KakaoCalendarApi.toISOString.
  destruct (Date_parse B startTime) as [t|]; [|discriminate].
  intros _. now exists t.
Qed.

Lemma blockSessionHandler_envelope (params : JsValue) (log : list Request) :
  exists message log',
    Tools.blockSessionHandler B W params log
    = (Return {| content := [textItem message];
                 isError := flagOf (adapterCompletion B W BlockSession params log) |},
       log').
Proof.
  unfold Tools.blockSessionHandler, tryCatch, bind, Schemas.parse, ret, throw.
  cbn [adapterCompletion].
  destruct (Schemas.BlockSessionInputSchema B params) as [input|issues];
    [|eexists; eexists; reflexivity].
  destruct (env_KAKAO_ACCESS_TOKEN W) as [[|c r]|];
    try (eexists; eexists; reflexivity).
  destruct (KakaoCalendarApi.createCalendarEvent B W (c :: r) _ _ _ _ log)
    as [[result|e] log1] eqn:Ecreate; [|eexists; eexists; reflexivity].
  apply createCalendarEvent_valid_start in Ecreate as [t Ht].
  rewrite Ht. cbn [option_map KakaoCalendarApi.toISOString KakaoCalendarApi.liftC].
  eexists; eexists; reflexivity.
Qed.

Lemma sendCommitmentHandler_envelope (params : JsValue) (log : list Request) :
  exists message log',
    Tools.sendCommitmentHandler B W params log
    = (Return {| content := [textItem message];
                 isError := flagOf (adapterCompletion B W SendCommitment params log) |},
       log').
Proof.
  unfold Tools.sendCommitmentHandler, tryCatch, bind, Schemas.parse, ret, throw.
  cbn [adapterCompletion].
  destruct (Schemas.SendCommitmentInputSchema B params) as [input|issues];
    [|eexists; eexists; reflexivity].
  destruct (env_KAKAO_ACCESS_TOKEN W) as [[|c r]|];
    try (eexists; eexists; reflexivity).
  destruct (KakaoMessageApi.sendCommitmentCard W (c :: r) _ _ log)
    as [[result|e] log1]; eexists; eexists; reflexivity.
Qed.

Variable I : ApiHandler.Imports.

(** The dispatcher of the JSON-RPC handler always returns a text. *)
Lemma executeTool_returns (name : JsString) (args : JsValue)
  (log : list Request) :
  exists message log',
    ApiHandler.executeTool B W I name args log = (Return message, log').
Proof.
  unfold ApiHandler.executeTool.
  repeat match goal with
  | |- context [if ?b then _ else _] => destruct b
  end.
  - destruct (Schemas.SearchSpotInputSchema B args) as [d|issues];
      [|eexists; eexists; reflexivity].
    unfold ApiHandler.executeSearchSpot, tryCatch, bind, ret.
    destruct (ApiHandler.coordinateLookup I _ log) as [[coords|e] log1];
      [|eexists; eexists; reflexivity].
    destruct (ApiHandler.searchPlaces I _ _ _ _ log1) as [[places|e] log2];
      eexists; eexists; reflexivity.
  - destruct (Schemas.BlockSessionInputSchema B args) as [d|issues];
      [|eexists; eexists; reflexivity].
    unfold ApiHandler.executeBlockSession.
    destruct (env_KAKAO_ACCESS_TOKEN W) as [[|c r]|];
      try (eexists; eexists; reflexivity).
    unfold tryCatch, bind, ret.
    destruct (KakaoCalendarApi.createCalendarEvent B W _ _ _ _ _ log)
      as [[result|e] log1]; [|eexists; eexists; reflexivity].
    destruct (KakaoCalendarApi.liftC _ log1) as [[endIso|e] log2];
      eexists; eexists; reflexivity.
  - destruct (Schemas.SendCommitmentInputSchema B args) as [d|issues];
      [|eexists; eexists; reflexivity].
    unfold ApiHandler.executeSendCommitment.
    destruct (env_KAKAO_ACCESS_TOKEN W) as [[|c r]|];
      try (eexists; eexists; reflexivity).
    unfold tryCatch, bind, ret.
    destruct (KakaoMessageApi.sendCommitmentCard W _ _ _ log)
      as [[result|e] log1]; eexists; eexists; reflexivity.
  - eexists; eexists; reflexivity.
Qed.

(** A tool name that is no string and cannot be converted to one: the
    template literal of the unknown-tool message throws, and the enclosing
    [catch] answers with the internal error. *)
Lemma toolsCall_unconvertible_name (params : option JsValue) (v : JsValue)
  (log : list Request) :
  ApiHandler.paramOf params (js "name") = Some v ->
  stringThrows v = true ->
  ApiHandler.toolsCall B W I params log
  = (Return (ApiHandler.RpcError 500 (-32603) B.(ToPrimitive_message)), log).
Proof.
  intros Hname Hthrows.
  unfold ApiHandler.toolsCall, tryCatch, bind, ret. rewrite Hname.
  destruct v as [| | | | |items|fields]; try discriminate;
    cbn [truthy negb]; unfold ApiHandler.interpolate; rewrite Hthrows;
    reflexivity.
Qed.

(** A [tools/call] is answered by a JSON-RPC error or by a result that
    holds [content] alone; the error is -32602, or the internal error
    -32603 where the tool name cannot be converted to a string. *)
Lemma toolsCall_reply (params : option JsValue) (log : list Request) :
  exists reply log',
    ApiHandler.toolsCall B W I params log = (Return reply, log')
    /\ match reply with
       | ApiHandler.RpcResult e =>
         isError e = None /\ exists message, content e = [textItem message]
       | ApiHandler.RpcError status code _ =>
         (status = 400%Z /\ code = (-32602)%Z)
         \/ (status = 500%Z /\ code = (-32603)%Z
             /\ exists v,
                  ApiHandler.paramOf params (js "name") = Some v
                  /\ stringThrows v = true)
       end.
Proof.
  destruct (ApiHandler.paramOf params (js "name")) as [v|] eqn:Hname.
  - destruct (stringThrows v) eqn:Hthrows.
    + rewrite (toolsCall_unconvertible_name params v log Hname Hthrows).
      eexists; eexists; split; [reflexivity|].
      right. split; [reflexivity|]. split; [reflexivity|].
      exists v. split; [reflexivity|exact Hthrows].
    + unfold ApiHandler.toolsCall, tryCatch, bind, ret. rewrite Hname.
      destruct (negb (truthy (Some v)));
        [eexists; eexists; split; [reflexivity|left; split; reflexivity]|].
      destruct v;
        try (unfold ApiHandler.interpolate; rewrite Hthrows;
             eexists; eexists; split; [reflexivity|left; split; reflexivity]).
      destruct (existsb (JsString_eqb s) ApiHandler.TOOLS);
        [|eexists; eexists; split; [reflexivity|left; split; reflexivity]].
      match goal with
      | |- context [ApiHandler.executeTool B W I s ?a log] =>
        destruct (executeTool_returns s a log) as [message [log1 ->]]
      end.
      eexists; eexists; split; [reflexivity|].
      split; [reflexivity|eexists; reflexivity].
  - unfold ApiHandler.toolsCall, tryCatch, bind, ret. rewrite Hname.
    eexists; eexists; split; [reflexivity|left; split; reflexivity].
Qed.

(** An unknown tool name is answered by a JSON-RPC error. *)
Lemma toolsCall_unknown_tool (params : option JsValue) (name : JsString)
  (log : list Request) :
  ApiHandler.paramOf params (js "name") = Some (JStr name) ->
  name <> [] ->
  existsb (JsString_eqb name) ApiHandler.TOOLS = false ->
  ApiHandler.toolsCall B W I params log
  = (Return (ApiHandler.RpcError 400 (-32602) (js "Unknown tool: " ++ name)),
     log).
Proof.
  intros Hname Hne Hunknown.
  unfold ApiHandler.toolsCall, tryCatch, bind, ret. rewrite Hname.
  destruct name as [|c r]; [congruence|]. cbn [truthy negb].
  rewrite Hunknown. reflexivity.
Qed.

End Envelope.

(** C1 (as the code has it). Every invocation of an SDK tool handler returns
    an envelope whose content is one text item; [isError] is present, and
    true, on every failure path (validation failure, missing credential,
    adapter error) and absent on the success path, that is, exactly when the
    adapter was called and completed normally.  The JSON-RPC handler answers
    a [tools/call] with a result that holds [content] alone, or with a
    JSON-RPC error and no envelope: -32602 with status 400 for a missing or
    unknown tool name, and the internal error -32603 with status 500 where
    the tool name is a value that cannot be converted to a string. *)
Theorem envelope_shape (B : Builtins) (W : World) (I : ApiHandler.Imports)
  (t : Tool) (params : JsValue) (rpcParams : option JsValue)
  (log : list Request) :
  (exists message log',
      handlerOf B W t params log
      = (Return {| content := [textItem message];
                   isError := flagOf (adapterCompletion B W t params log) |},
         log'))
  /\ (exists reply log',
         ApiHandler.toolsCall B W I rpcParams log = (Return reply, log')
         /\ match reply with
            | ApiHandler.RpcResult e =>
              isError e = None
              /\ exists message, content e = [textItem message]
            | ApiHandler.RpcError status code _ =>
              (status = 400%Z /\ code = (-32602)%Z)
              \/ (status = 500%Z /\ code = (-32603)%Z
                  /\ exists v,
                       ApiHandler.paramOf rpcParams (js "name") = Some v
                       /\ stringThrows v = true)
            end)
  /\ (forall name,
         ApiHandler.paramOf rpcParams (js "name") = Some (JStr name) ->
         name <> [] ->
         existsb (JsString_eqb name) ApiHandler.TOOLS = false ->
         ApiHandler.toolsCall B W I rpcParams log
         = (Return (ApiHandler.RpcError 400 (-32602)
                      (js "Unknown tool: " ++ name)), log))
  /\ (ApiHandler.paramOf rpcParams (js "name") = None ->
      ApiHandler.toolsCall B W I rpcParams log
      = (Return (ApiHandler.RpcError 400 (-32602) (js "Missing tool name")),
         log))
  /\ (forall v,
         ApiHandler.paramOf rpcParams (js "name") = Some v ->
         stringThrows v = true ->
         ApiHandler.toolsCall B W I rpcParams log
         = (Return (ApiHandler.RpcError 500 (-32603) B.(ToPrimitive_message)),
            log)).
Proof.
  split; [|split; [|split; [|split]]].
  - destruct t; cbn [handlerOf].
    + apply searchSpotHandler_envelope.
    + apply blockSessionHandler_envelope.
    + apply sendCommitmentHandler_envelope.
  - apply toolsCall_reply.
  - intros name. apply toolsCall_unknown_tool.
  - intros Hmissing.
    unfold ApiHandler.toolsCall, tryCatch, bind, ret. rewrite Hmissing.
    reflexivity.
  - intros v. apply toolsCall_unconvertible_name.
Qed.

(** C1, as stated, fails on the success path: a successful search returns an
    envelope without [isError], so the field is no boolean there; and the
    JSON-RPC handler answers an unknown tool with a JSON-RPC error, not with
    an envelope. *)
Lemma envelope_shape_counterexample :
  let W :=
    Fixtures.world Fixtures.apiKey None [Fixtures.cafe (js "북카페 콤마")] in
  (exists e log',
      run (Tools.searchSpotHandler Fixtures.builtins W Fixtures.searchArgs)
      = (Return e, log')
      /\ isError e = None
      /\ forall b : bool, isError e <> Some b)
  /\ run (ApiHandler.toolsCall Fixtures.builtins W Fixtures.imports
            (Some (JObject [(js "name", JStr (js "godsaeng_fly"))])))
     = (Return (ApiHandler.RpcError 400 (-32602)
                  (js "Unknown tool: godsaeng_fly")), []).
Proof.
  intros W. split.
  - eexists. eexists. split; [vm_compute; reflexivity|].
    split; [reflexivity|discriminate].
  - vm_compute. reflexivity.
Qed.

(** A tool name that cannot be converted to a string, [{ toString: null }]:
    the unknown-tool message throws, and the answer is the internal error. *)
Example tool_name_without_string_form :
  run (ApiHandler.toolsCall Fixtures.builtins (Fixtures.world None None [])
         Fixtures.imports
         (Some (JObject [(js "name", JObject [(js "toString", JNull)])])))
  = (Return (ApiHandler.RpcError 500 (-32603)
               (js "Cannot convert object to primitive value")), []).
Proof. vm_compute. reflexivity. Qed.

(** ** The credential check *)

(** C5 (as the code has it). With no bearer credential configured, the
    calendar handler returns a failure envelope and sends no request,
    whatever the arguments; the envelope carries the login-required message
    when the arguments pass validation (and the validation error otherwise).
    The self-contained handler, which does not validate, and the JSON-RPC
    dispatcher after validation return their login-required text, again with
    no request sent. *)
Theorem calendar_requires_credential (B : Builtins) (W : World)
  (I : ApiHandler.Imports) (params : JsValue) (args : Inline.BlockArgs)
  (log : list Request) :
  noCredential W ->
  (exists message,
      Tools.blockSessionHandler B W params log
      = (Return {| content := [textItem message]; isError := Some true |}, log)
      /\ (validationIssues B BlockSession params = None ->
          message = Tools.loginRequired))
  /\ Inline.executeBlockSession B W args log
     = (Return Inline.loginRequired, log)
  /\ (validationIssues B BlockSession params = None ->
      ApiHandler.executeTool B W I (toolName BlockSession) params log
      = (Return ApiHandler.loginRequired, log)).
Proof.
  intros Hno.
  assert (Htoken : match W.(env_KAKAO_ACCESS_TOKEN) with
                   | Some (_ :: _) => False
                   | _ => True
                   end)
    by (destruct Hno as [-> | ->]; exact Logic.I).
  destruct tool_names_differ as [Hbs _].
  split; [|split].
  - unfold Tools.blockSessionHandler, tryCatch, bind, Schemas.parse, ret, throw.
    cbn [validationIssues].
    destruct (Schemas.BlockSessionInputSchema B params) as [input|issues].
    + destruct (env_KAKAO_ACCESS_TOKEN W) as [[|c r]|]; try contradiction;
        (eexists; split; [reflexivity|reflexivity]).
    + eexists. split; [reflexivity|discriminate].
  - unfold Inline.executeBlockSession.
    destruct (env_KAKAO_ACCESS_TOKEN W) as [[|c r]|]; try contradiction;
      reflexivity.
  - cbn [validationIssues]. intros Hvalid. unfold ApiHandler.executeTool.
    change (js "godsaeng_search_spot") with (toolName SearchSpot).
    change (js "godsaeng_block_session") with (toolName BlockSession).
    rewrite Hbs, JsString_eqb_refl.
    destruct (Schemas.BlockSessionInputSchema B params) as [input|issues];
      [|discriminate].
    unfold ApiHandler.executeBlockSession.
    destruct (env_KAKAO_ACCESS_TOKEN W) as [[|c r]|]; try contradiction;
      reflexivity.
Qed.

(** A run of the theorem: valid arguments, no credential. *)
Lemma calendar_requires_credential_witness :
  run (Tools.blockSessionHandler Fixtures.builtins
         (Fixtures.world Fixtures.apiKey None []) Fixtures.blockArgs)
  = (Return {| content := [textItem Tools.loginRequired];
               isError := Some true |}, []).
Proof.
  destruct (calendar_requires_credential Fixtures.builtins
              (Fixtures.world Fixtures.apiKey None []) Fixtures.imports
              Fixtures.blockArgs
              {| Inline.title := js "공부";
                 Inline.start_time := js "2026-01-15T19:00:00";
                 Inline.duration_minutes := 120;
                 Inline.location_name := None;
                 Inline.location_address := None;
                 Inline.reminder_minutes := None;
                 Inline.color := None |} [])
    as [[message [Hrun Hmsg]] _].
  - left. reflexivity.
  - unfold run. rewrite Hrun. rewrite Hmsg; [reflexivity|].
    vm_compute. reflexivity.
Defined.

(** C5, as stated, fails for arguments that do not validate: with no
    credential configured the calendar handler then answers with the
    validation error, not with the login-required message. *)
Lemma calendar_requires_credential_counterexample :
  let W := Fixtures.world Fixtures.apiKey None [] in
  exists message,
    W.(env_KAKAO_ACCESS_TOKEN) = None
    /\ run (Tools.blockSessionHandler Fixtures.builtins W (JObject []))
       = (Return {| content := [textItem message]; isError := Some true |}, [])
    /\ message
       = js "# 일정 등록 실패" ++ nl ++ nl
         ++ Fixtures.builtins.(ZodError_message)
              [ {| code := invalid_type; path := [js "title"] |};
                {| code := invalid_type; path := [js "start_time"] |};
                {| code := invalid_type; path := [js "duration_minutes"] |} ]
    /\ message <> Tools.loginRequired.
Proof.
  intros W. eexists.
  split; [reflexivity|].
  split; [vm_compute; reflexivity|].
  split; [vm_compute; reflexivity|].
  vm_compute. discriminate.
Qed.

(** * Further properties *)

(** ** What the schemas guarantee *)

Section ValidatedArguments.

Variable B : Builtins.

Lemma regex_check (re : JsString -> bool) (s : JsString) :
  flat_map (Schemas.stringCheck B s) [Schemas.regex re] = [] -> re s = true.
Proof.
  cbn [flat_map Schemas.stringCheck]. destruct (re s); [reflexivity|].
  discriminate.
Qed.

Lemma url_check (s : JsString) :
  flat_map (Schemas.stringCheck B s) [Schemas.url] = [] ->
  B.(URL_valid) s = true.
Proof.
  cbn [flat_map Schemas.stringCheck]. destruct (URL_valid B s);
    [reflexivity|discriminate].
Qed.

(** An optional string that was accepted is within its maximal length. *)
Lemma optional_max (hi : Z) (input : option JsValue) (o : option JsString) :
  Schemas.optional (Schemas.z_string B [Schemas.max hi]) input
  = Schemas.Valid o ->
  (input = None <-> o = None)
  /\ forall s, o = Some s -> input = Some (JStr s) /\ (jsLength s <= hi)%Z.
Proof.
  intros H. apply optional_Valid in H. destruct input as [v|].
  - destruct H as [a [-> Ha]]. apply z_string_Valid in Ha as [Hv Hc].
    apply max_bound in Hc. split; [split; discriminate|].
    intros s Hs. inversion Hs. subst. now split.
  - subst. split; [tauto|discriminate].
Qed.

(** An accepted number with a default: the supplied one, or the default. *)
Lemma default_number (lo hi dflt : Z) (input : option JsValue) (n : Z) :
  Schemas.default (Schemas.z_number_int [Schemas.nmin lo; Schemas.nmax hi])
    (JNum dflt) input = Schemas.Valid n ->
  (lo <= n <= hi)%Z
  /\ match input with
     | Some v => v = JNum n
     | None => n = dflt
     end.
Proof.
  intros H. apply default_Valid in H.
  destruct input as [v|]; apply z_number_int_Valid in H as [Hv Hc];
    apply nmin_nmax_bounds in Hc; (split; [exact Hc|congruence]).
Qed.

End ValidatedArguments.

(** X1. Calendar arguments that the schema accepts satisfy every declared
    constraint: the title has 1 to 50 code units, the optional location name
    and address at most 100 and 200, the start time matches the date-time
    pattern, the duration lies in 15..480 and the reminder in 0..1440; and an
    absent reminder comes out as 15, an absent color as BLUE, while supplied
    ones come out as given. *)
Theorem validated_block_session (B : Builtins) (args : JsValue)
  (d : Schemas.BlockSessionInput) :
  Schemas.BlockSessionInputSchema B args = Schemas.ParseSuccess d ->
  exists fields,
    args = JObject fields
    /\ (1 <= jsLength d.(Schemas.bs_title) <= 50)%Z
    /\ (forall s, d.(Schemas.bs_location_name) = Some s ->
        (jsLength s <= 100)%Z)
    /\ (forall s, d.(Schemas.bs_location_address) = Some s ->
        (jsLength s <= 200)%Z)
    /\ Schemas.startTimeRegex d.(Schemas.bs_start_time) = true
    /\ (15 <= d.(Schemas.bs_duration_minutes) <= 480)%Z
    /\ (0 <= d.(Schemas.bs_reminder_minutes) <= 1440)%Z
    /\ match getProp (js "reminder_minutes") fields with
       | Some v => v = JNum d.(Schemas.bs_reminder_minutes)
       | None => d.(Schemas.bs_reminder_minutes) = 15%Z
       end
    /\ match getProp (js "color") fields with
       | Some v => v = JStr (CalendarColor_name d.(Schemas.bs_color))
       | None => d.(Schemas.bs_color) = BLUE
       end.
Proof.
  intros H.
  apply BlockSessionInputSchema_success in H
    as [fields [-> [_ [Ht [Hln [Hla [Hs [Hd [Hr Hc]]]]]]]]].
  exists fields. split; [reflexivity|].
  split.
  { apply z_string_Valid in Ht as [_ Ht]. now apply min_max_bounds in Ht. }
  split.
  { intros s Hs'. apply optional_max in Hln as [_ Hln].
    now apply Hln in Hs'. }
  split.
  { intros s Hs'. apply optional_max in Hla as [_ Hla].
    now apply Hla in Hs'. }
  split.
  { apply z_string_Valid in Hs as [_ Hs]. now apply regex_check in Hs. }
  split.
  { apply z_number_int_Valid in Hd as [_ Hd].
    now apply nmin_nmax_bounds in Hd. }
  apply default_number in Hr as [Hrange Hr].
  split; [exact Hrange|]. split; [exact Hr|].
  unfold Schemas.CalendarColorSchema in Hc. apply default_Valid in Hc.
  destruct (getProp (js "color") fields) as [v|];
    apply z_enum_Valid in Hc as [Hv _].
  - congruence.
  - destruct (Schemas.bs_color d); try reflexivity;
      vm_compute in Hv; discriminate.
Qed.

(** A run of the theorem on the sample calendar arguments. *)
Lemma validated_block_session_witness :
  exists d,
    Schemas.BlockSessionInputSchema Fixtures.builtins Fixtures.blockArgs
    = Schemas.ParseSuccess d
    /\ d.(Schemas.bs_reminder_minutes) = 15%Z
    /\ d.(Schemas.bs_color) = BLUE.
Proof.
  destruct (Schemas.BlockSessionInputSchema Fixtures.builtins
              Fixtures.blockArgs) as [d|issues] eqn:E;
    [|vm_compute in E; discriminate].
  exists d. split; [reflexivity|].
  destruct (validated_block_session Fixtures.builtins Fixtures.blockArgs d E)
    as [fields [Hargs [_ [_ [_ [_ [_ [_ [Hr Hc]]]]]]]]].
  inversion Hargs. subst fields. split; [exact Hr|exact Hc].
Defined.

(** X2. Message arguments that the schema accepts satisfy every declared
    constraint: the goal has 1 to 200 code units, the optional location name
    and encouragement at most 100, a supplied location URL is one that
    [new URL] accepts; and an absent template type comes out as feed. *)
Theorem validated_send_commitment (B : Builtins) (args : JsValue)
  (d : Schemas.SendCommitmentInput) :
  Schemas.SendCommitmentInputSchema B args = Schemas.ParseSuccess d ->
  exists fields,
    args = JObject fields
    /\ (1 <= jsLength d.(Schemas.sc_goal) <= 200)%Z
    /\ (forall s, d.(Schemas.sc_location_name) = Some s ->
        (jsLength s <= 100)%Z)
    /\ (forall s, d.(Schemas.sc_encouragement) = Some s ->
        (jsLength s <= 100)%Z)
    /\ (forall s, d.(Schemas.sc_location_url) = Some s ->
        B.(URL_valid) s = true)
    /\ match getProp (js "template_type") fields with
       | Some v => v = JStr (MessageTemplateType_name d.(Schemas.sc_template_type))
       | None => d.(Schemas.sc_template_type) = feed
       end.
Proof.
  intros H.
  apply SendCommitmentInputSchema_success in H
    as [fields [-> [_ [Hg [Hln [Hu [He Ht]]]]]]].
  exists fields. split; [reflexivity|].
  split.
  { apply z_string_Valid in Hg as [_ Hg]. now apply min_max_bounds in Hg. }
  split.
  { intros s Hs. apply optional_max in Hln as [_ Hln]. now apply Hln in Hs. }
  split.
  { intros s Hs. apply optional_max in He as [_ He]. now apply He in Hs. }
  split.
  { intros s Hs. apply optional_Valid in Hu.
    destruct (getProp (js "location_url") fields) as [v|];
      [|congruence].
    destruct Hu as [a [Ha Hu]]. apply z_string_Valid in Hu as [_ Hu].
    apply url_check in Hu. congruence. }
  unfold Schemas.MessageTemplateTypeSchema in Ht. apply default_Valid in Ht.
  destruct (getProp (js "template_type") fields) as [v|];
    apply z_enum_Valid in Ht as [Hv _].
  - congruence.
  - destruct (Schemas.sc_template_type d); [reflexivity|].
    vm_compute in Hv. discriminate.
Qed.

(** A run of the theorem: only the goal is given. *)
Lemma validated_send_commitment_witness :
  exists d,
    Schemas.SendCommitmentInputSchema Fixtures.builtins
      (JObject [(js "goal", JStr (js "자격증 공부 2시간"))])
    = Schemas.ParseSuccess d
    /\ d.(Schemas.sc_template_type) = feed.
Proof.
  destruct (Schemas.SendCommitmentInputSchema Fixtures.builtins
              (JObject [(js "goal", JStr (js "자격증 공부 2시간"))]))
    as [d|issues] eqn:E; [|vm_compute in E; discriminate].
  exists d. split; [reflexivity|].
  destruct (validated_send_commitment Fixtures.builtins _ d E)
    as [fields [Hargs [_ [_ [_ [_ Ht]]]]]].
  inversion Hargs. subst fields. exact Ht.
Defined.

(** X3. Search arguments that the schema accepts are within bounds whether
    supplied or defaulted: the location has 1 to 100 code units, a keyword at
    most 100, the radius lies in 100..20000 and the limit in 1..15. *)
Theorem validated_search_spot (B : Builtins) (args : JsValue)
  (d : Schemas.SearchSpotInput) :
  Schemas.SearchSpotInputSchema B args = Schemas.ParseSuccess d ->
  (1 <= jsLength d.(Schemas.ss_location) <= 100)%Z
  /\ (forall k, d.(Schemas.ss_keyword) = Some k -> (jsLength k <= 100)%Z)
  /\ (100 <= d.(Schemas.ss_radius) <= 20000)%Z
  /\ (1 <= d.(Schemas.ss_limit) <= 15)%Z.
Proof.
  intros H.
  apply SearchSpotInputSchema_success in H
    as [fields [-> [_ [Hp [Hk [Hl [Hr [Hn Hf]]]]]]]].
  split.
  { apply z_string_Valid in Hl as [_ Hl]. now apply min_max_bounds in Hl. }
  split.
  { intros k Hs. apply optional_max in Hk as [_ Hk]. now apply Hk in Hs. }
  split.
  { now apply default_number in Hr as [Hr _]. }
  now apply default_number in Hn as [Hn _].
Qed.

(** A run of the theorem on the sample search arguments. *)
Lemma validated_search_spot_witness :
  exists d,
    Schemas.SearchSpotInputSchema Fixtures.builtins Fixtures.searchArgs
    = Schemas.ParseSuccess d
    /\ (100 <= d.(Schemas.ss_radius) <= 20000)%Z.
Proof.
  destruct (Schemas.SearchSpotInputSchema Fixtures.builtins
              Fixtures.searchArgs) as [d|issues] eqn:E;
    [|vm_compute in E; discriminate].
  exists d. split; [reflexivity|].
  now destruct (validated_search_spot Fixtures.builtins _ d E)
    as [_ [_ [Hr _]]].
Defined.

(** ** What the search schema accepts *)

(** X4. The search schema accepts every argument map that names a purpose,
    holds a location of 1 to 100 code units, keeps each optional field it
    supplies within its range, and holds no undeclared field; the result
    carries the supplied values and the defaults 500, 5 and markdown for the
    absent ones. *)
Theorem search_arguments_accepted (B : Builtins)
  (fields : list (JsString * JsValue)) (purpose : Purpose)
  (location : JsString) (keyword : option JsString) (radius limit : option Z)
  (format : option ResponseFormat) :
  getProp (js "purpose") fields = Some (JStr (Purpose_name purpose)) ->
  getProp (js "location") fields = Some (JStr location) ->
  (1 <= jsLength location <= 100)%Z ->
  getProp (js "keyword") fields = option_map JStr keyword ->
  (forall k, keyword = Some k -> (jsLength k <= 100)%Z) ->
  getProp (js "radius") fields = option_map JNum radius ->
  (forall r, radius = Some r -> (100 <= r <= 20000)%Z) ->
  getProp (js "limit") fields = option_map JNum limit ->
  (forall n, limit = Some n -> (1 <= n <= 15)%Z) ->
  getProp (js "response_format") fields
  = option_map (fun f => JStr (ResponseFormat_name f)) format ->
  (forall key, In key (map fst fields) -> In key Schemas.SearchSpotShape) ->
  Schemas.SearchSpotInputSchema B (JObject fields)
  = Schemas.ParseSuccess
      {| Schemas.ss_purpose := purpose;
         Schemas.ss_keyword := keyword;
         Schemas.ss_location := location;
         Schemas.ss_radius := nullishNum radius 500;
         Schemas.ss_limit := nullishNum limit 5;
         Schemas.ss_response_format :=
           match format with Some f => f | None => markdown end |}.
Proof.
  intros Hp Hl Hlen Hk Hklen Hr Hrange Hn Hnrange Hf Hkeys.
  unfold Schemas.SearchSpotInputSchema, Schemas.strictObject.
  rewrite (extraKeys_nil_intro _ _ Hkeys).
  unfold Schemas.ap, Schemas.prop, Schemas.pure.
  rewrite Hp, Hl, Hk, Hr, Hn, Hf.
  rewrite PurposeSchema_accepts, (optional_accepts B 100 keyword Hklen),
    (z_string_accepts B 1 100 location Hlen),
    (default_number_accepts 100 20000 500 radius ltac:(lia) Hrange),
    (default_number_accepts 1 15 5 limit ltac:(lia) Hnrange),
    ResponseFormatSchema_accepts.
  reflexivity.
Qed.

(** A run of the theorem: purpose, location and a radius. *)
Lemma search_arguments_accepted_witness :
  Schemas.SearchSpotInputSchema Fixtures.builtins
    (JObject [ (js "purpose", JStr (Purpose_name exercise));
               (js "location", JStr (js "강남역"));
               (js "radius", JNum 1000) ])
  = Schemas.ParseSuccess
      {| Schemas.ss_purpose := exercise;
         Schemas.ss_keyword := None;
         Schemas.ss_location := js "강남역";
         Schemas.ss_radius := nullishNum (Some 1000%Z) 500;
         Schemas.ss_limit := nullishNum None 5;
         Schemas.ss_response_format := markdown |}.
Proof.
  apply (search_arguments_accepted Fixtures.builtins _ exercise (js "강남역")
           None (Some 1000%Z) None None).
  - vm_compute. reflexivity.
  - vm_compute. reflexivity.
  - vm_compute. split; discriminate.
  - vm_compute. reflexivity.
  - discriminate.
  - vm_compute. reflexivity.
  - intros r Hr. inversion Hr. lia.
  - vm_compute. reflexivity.
  - discriminate.
  - vm_compute. reflexivity.
  - intros key Hin. cbn [map fst In] in Hin. unfold Schemas.SearchSpotShape.
    cbn [In]. intuition.
Defined.

(** ** The place-search adapter, further *)

(** X5. A processed place never has an empty phone or distance: an empty
    phone and a missing or empty distance are replaced by the "unavailable"
    marker, a present distance gets the unit [m]; the road address falls back
    to the lot address when it is empty; latitude is the provider's [y] and
    longitude its [x]. *)
Theorem processPlace_fallbacks (place : KakaoPlace) :
  let p := KakaoLocalApi.processPlace place in
  pp_phone p <> []
  /\ pp_distance p <> []
  /\ (place.(phone) = [] -> pp_phone p = js "정보 없음")
  /\ (place.(phone) <> [] -> pp_phone p = place.(phone))
  /\ (truthyStr place.(distance) = false -> pp_distance p = js "정보 없음")
  /\ (forall d, place.(distance) = Some d -> d <> [] ->
      pp_distance p = d ++ js "m")
  /\ (place.(road_address_name) = [] -> pp_roadAddress p = place.(address_name))
  /\ (place.(road_address_name) <> [] ->
      pp_roadAddress p = place.(road_address_name))
  /\ pp_latitude p = place.(place_y)
  /\ pp_longitude p = place.(place_x).
Proof.
  assert (Hmarker : js "정보 없음" <> []) by (vm_compute; discriminate).
  destruct place as [name cat ph addr road px py url dist].
  cbv zeta. unfold KakaoLocalApi.processPlace.
  cbn [pp_phone pp_distance pp_roadAddress pp_latitude pp_longitude
       phone distance road_address_name address_name place_x place_y].
  split; [destruct ph; cbn [orElseStr]; [exact Hmarker|discriminate]|].
  split.
  { destruct dist as [[|c r]|]; cbn [truthyStr orElseStr];
      try exact Hmarker. discriminate. }
  split; [intros ->; reflexivity|].
  split; [destruct ph; [congruence|reflexivity]|].
  split; [intros H; now rewrite H|].
  split.
  { intros d -> Hd. destruct d; [congruence|reflexivity]. }
  split; [intros ->; reflexivity|].
  split; [destruct road; [congruence|reflexivity]|].
  split; reflexivity.
Qed.

(** X6. When the place search returns, [searchProductivitySpots] returns
    with the same log, the same query, the processed places in the
    provider's order, and a total equal to their number. *)
Theorem searchProductivitySpots_total (W : World) (purpose : Purpose)
  (location : JsString) (keyword : option JsString) (radius limit : option Z)
  (log log' : list Request) (places : list KakaoPlace) (query : JsString) :
  KakaoLocalApi.searchPlaces W purpose location keyword radius limit log
  = (Return (places, query), log') ->
  exists result,
    KakaoLocalApi.searchProductivitySpots W purpose location keyword radius
      limit log = (Return result, log')
    /\ result.(KakaoLocalApi.sr_query) = query
    /\ result.(KakaoLocalApi.sr_total) = arrayLength places
    /\ result.(KakaoLocalApi.sr_total)
       = arrayLength result.(KakaoLocalApi.sr_places)
    /\ map pp_name result.(KakaoLocalApi.sr_places) = map place_name places
    /\ map pp_mapUrl result.(KakaoLocalApi.sr_places) = map place_url places.
Proof.
  intros H. unfold KakaoLocalApi.searchProductivitySpots, bind. rewrite H.
  eexists. split; [reflexivity|].
  cbn [KakaoLocalApi.sr_query KakaoLocalApi.sr_total KakaoLocalApi.sr_places
       fst snd].
  split; [reflexivity|]. split; [reflexivity|].
  split; [unfold arrayLength; now rewrite length_map|].
  rewrite !map_map. split; reflexivity.
Qed.

(** A run of the theorem: two places come back. *)
Lemma searchProductivitySpots_total_witness :
  exists result log',
    KakaoLocalApi.searchProductivitySpots
      (Fixtures.world Fixtures.apiKey None
         [Fixtures.cafe (js "A"); Fixtures.cafe (js "B")])
      study (js "홍대입구역") None None None []
    = (Return result, log')
    /\ result.(KakaoLocalApi.sr_total) = 2%Z
    /\ map pp_name result.(KakaoLocalApi.sr_places) = [js "A"; js "B"].
Proof.
  destruct (searchProductivitySpots_total
              (Fixtures.world Fixtures.apiKey None
                 [Fixtures.cafe (js "A"); Fixtures.cafe (js "B")])
              study (js "홍대입구역") None None None []
              [ GetAddress (js "rest-api-key") (js "홍대입구역");
                GetKeyword (js "rest-api-key")
                  (placeSearchParams study (js "홍대입구역") None None None
                     {| x := js "126.9236"; y := js "37.5572" |}) ]
              [Fixtures.cafe (js "A"); Fixtures.cafe (js "B")]
              (js "홍대입구역" ++ js " " ++ js "스터디카페"))
    as [result [Hrun [_ [Htotal [_ [Hnames _]]]]]].
  - vm_compute. reflexivity.
  - exists result. eexists. split; [exact Hrun|].
    split; [exact Htotal|exact Hnames].
Defined.

(** X7. Without a REST API key (unset or empty) the search sends nothing:
    the adapter throws the not-configured error, the self-contained
    [searchPlaces] its own, and the search tool answers validated arguments
    with that message in a failure envelope; the log is unchanged in all
    three. *)
Theorem search_without_api_key (B : Builtins) (W : World) (purpose : Purpose)
  (location : JsString) (keyword : option JsString) (radius limit : option Z)
  (params : JsValue) (log : list Request) :
  KakaoLocalApi.kakaoRestApiKey W = [] ->
  KakaoLocalApi.searchPlaces W purpose location keyword radius limit log
  = (Throw (JsError (js "KAKAO_REST_API_KEY is not configured")), log)
  /\ Inline.searchPlaces W purpose location keyword radius limit log
     = (Throw (JsError (js "KAKAO_REST_API_KEY가 설정되지 않았습니다.")), log)
  /\ (validationIssues B SearchSpot params = None ->
      Tools.searchSpotHandler B W params log
      = (Return {| content :=
                     [textItem (js "오류: "
                                ++ js "KAKAO_REST_API_KEY is not configured")];
                   isError := Some true |}, log)).
Proof.
  intros Hkey.
  assert (Hsearch : forall p l k r n,
             KakaoLocalApi.searchPlaces W p l k r n log
             = (Throw (JsError KakaoLocalApi.notConfigured), log)).
  { intros. unfold KakaoLocalApi.searchPlaces. rewrite Hkey. reflexivity. }
  split; [apply Hsearch|]. split.
  - unfold Inline.searchPlaces, Inline.KAKAO_REST_API_KEY.
    unfold KakaoLocalApi.kakaoRestApiKey in Hkey.
    destruct (env_KAKAO_REST_API_KEY W) as [[|c r]|]; try reflexivity.
    discriminate.
  - cbn [validationIssues]. intros Hvalid.
    unfold Tools.searchSpotHandler, tryCatch, bind, Schemas.parse, ret.
    destruct (Schemas.SearchSpotInputSchema B params) as [input|issues];
      [|discriminate].
    unfold KakaoLocalApi.searchProductivitySpots, bind. rewrite Hsearch.
    reflexivity.
Qed.

(** A run of the theorem: the key is unset. *)
Lemma search_without_api_key_witness :
  run (Tools.searchSpotHandler Fixtures.builtins
         (Fixtures.world None None [Fixtures.cafe (js "A")])
         Fixtures.searchArgs)
  = (Return {| content :=
                 [textItem (js "오류: "
                            ++ js "KAKAO_REST_API_KEY is not configured")];
               isError := Some true |}, []).
Proof.
  destruct (search_without_api_key Fixtures.builtins
              (Fixtures.world None None [Fixtures.cafe (js "A")])
              study [] None None None Fixtures.searchArgs [])
    as [_ [_ H]].
  - reflexivity.
  - apply H. vm_compute. reflexivity.
Defined.

Section SearchRequests.

Variable W : World.

(** The requests of [getCoordinates]: one or two lookups with the key. *)
Lemma getCoordinates_requests (location : JsString) (log : list Request) :
  exists new,
    snd (KakaoLocalApi.getCoordinates W location log) = log ++ new
    /\ (List.length new <= 2)%nat
    /\ forallb (isLookupRequest (KakaoLocalApi.kakaoRestApiKey W)) new = true.
Proof.
  rewrite getCoordinates_cases. cbv zeta.
  destruct (axios_address W log _ location) as [[|doc docs]|e]; cbn [snd].
  - exists [GetAddress (KakaoLocalApi.kakaoRestApiKey W) location;
            GetKeyword (KakaoLocalApi.kakaoRestApiKey W)
              (KakaoLocalApi.lookupParams location)].
    split; [now rewrite <- app_assoc|]. split; [cbn [List.length]; lia|].
    cbn [forallb isLookupRequest]. now rewrite JsString_eqb_refl.
  - eexists. split; [reflexivity|]. split; [cbn [List.length]; lia|].
    cbn [forallb isLookupRequest]. now rewrite JsString_eqb_refl.
  - eexists. split; [reflexivity|]. split; [cbn [List.length]; lia|].
    cbn [forallb isLookupRequest]. now rewrite JsString_eqb_refl.
Qed.

End SearchRequests.

(** X8. One search sends at most three requests, all of them lookups or
    keyword searches carrying the REST API key: no request is repeated after
    a failure, and the calendar and message endpoints and the bearer token
    are never used. *)
Theorem searchPlaces_requests (W : World) (purpose : Purpose)
  (location : JsString) (keyword : option JsString) (radius limit : option Z)
  (log : list Request) :
  exists new,
    snd (KakaoLocalApi.searchPlaces W purpose location keyword radius limit log)
    = log ++ new
    /\ (List.length new <= 3)%nat
    /\ forallb (isLookupRequest (KakaoLocalApi.kakaoRestApiKey W)) new = true.
Proof.
  destruct (KakaoLocalApi.kakaoRestApiKey W) as [|c r] eqn:Ekey.
  - exists []. unfold KakaoLocalApi.searchPlaces. rewrite Ekey.
    cbn [truthyStr negb throw snd]. rewrite app_nil_r.
    split; [reflexivity|]. split; [cbn [List.length]; lia|reflexivity].
  - assert (Hkey : keyConfigured W)
      by (unfold keyConfigured; rewrite Ekey; discriminate).
    rewrite (searchPlaces_cases W purpose location keyword radius limit log
               Hkey).
    destruct (getCoordinates_requests W location log)
      as [new [Hlog [Hlen Hall]]].
    rewrite Ekey in *.
    destruct (KakaoLocalApi.getCoordinates W location log)
      as [[[coords|]|e] log1]; cbn [snd] in *; subst log1.
    + exists (new ++ [GetKeyword (c :: r)
                        (placeSearchParams purpose location keyword radius
                           limit coords)]).
      rewrite app_assoc. split; [reflexivity|].
      split; [rewrite length_app; cbn [List.length]; lia|].
      rewrite forallb_app, Hall. cbn [forallb isLookupRequest].
      now rewrite JsString_eqb_refl.
    + exists new. split; [reflexivity|]. split; [lia|exact Hall].
    + exists new. split; [reflexivity|]. split; [lia|exact Hall].
Qed.

(** ** The message adapter *)

(** X9. The link rule is the same for both templates: the link is the
    location URL when a non-empty one is given and the fixed fallback URL
    otherwise, so it is never empty, and web and mobile links agree.  The feed
    card has its map button exactly when a non-empty location URL is given,
    and the button then links to that URL. *)
Theorem template_links (goal encouragement : JsString)
  (locationName locationUrl : option JsString) :
  let card := KakaoMessageApi.createFeedTemplate goal encouragement
                locationName locationUrl in
  let plain := KakaoMessageApi.createTextTemplate goal encouragement
                 locationUrl in
  let link := mc_link (feed_content card) in
  tt_link plain = link
  /\ web_url link = mobile_web_url link
  /\ web_url link <> []
  /\ (truthyStr locationUrl = false ->
      web_url link = js "https://playmcp.kakao.com"
      /\ feed_buttons card = None)
  /\ (forall u, locationUrl = Some u -> u <> [] ->
      web_url link = u
      /\ feed_buttons card
         = Some [ {| btn_title := js "지도 보기";
                     btn_link := {| web_url := u; mobile_web_url := u |} |} ]).
Proof.
  assert (Hfallback : KakaoMessageApi.fallbackUrl <> [])
    by (vm_compute; discriminate).
  cbv zeta. unfold KakaoMessageApi.createFeedTemplate,
    KakaoMessageApi.createTextTemplate.
  cbn [feed_content feed_buttons mc_link tt_link web_url mobile_web_url].
  split; [reflexivity|]. split; [reflexivity|].
  split.
  { destruct locationUrl as [[|c r]|]; cbn [orElseStr];
      try exact Hfallback. discriminate. }
  split.
  { destruct locationUrl as [[|c r]|]; cbn [truthyStr orElseStr];
      try discriminate; intros _; split; reflexivity. }
  intros u -> Hu. destruct u as [|c r]; [congruence|]. split; reflexivity.
Qed.

(** X10. [sendCommitmentCard] with an empty token throws the token-required
    error and sends nothing; with a token it sends exactly one request, the
    feed card unless the template type is text, whatever the provider
    answers. *)
Theorem sendCommitmentCard_requests (W : World) (accessToken goal : JsString)
  (options : KakaoMessageApi.SendOptions) (log : list Request) :
  (accessToken = [] ->
   KakaoMessageApi.sendCommitmentCard W accessToken goal options log
   = (Throw (JsError KakaoMessageApi.tokenRequired), log))
  /\ (accessToken <> [] ->
      let encouragement :=
        orElseStr options.(KakaoMessageApi.encouragement)
          (KakaoMessageApi.getRandomEncouragement W) in
      snd (KakaoMessageApi.sendCommitmentCard W accessToken goal options log)
      = log ++ [PostMessage accessToken
                  (match options.(KakaoMessageApi.templateType) with
                   | Some text =>
                     Text (KakaoMessageApi.createTextTemplate goal
                             encouragement options.(KakaoMessageApi.locationUrl))
                   | _ =>
                     Feed (KakaoMessageApi.createFeedTemplate goal
                             encouragement
                             options.(KakaoMessageApi.locationName)
                             options.(KakaoMessageApi.locationUrl))
                   end)]).
Proof.
  split.
  - intros ->. reflexivity.
  - intros Htoken encouragement. unfold KakaoMessageApi.sendCommitmentCard.
    destruct accessToken as [|c r]; [congruence|]. cbn [truthyStr negb].
    fold encouragement.
    unfold tryCatch, bind, await, ret, throw.
    destruct (KakaoMessageApi.templateType options) as [[|]|];
      match goal with
      | |- context [axios_message W log ?t ?m] =>
        destruct (axios_message W log t m) as [[]|e]
      end; try reflexivity;
      destruct e as [status m d|m|v]; try reflexivity;
      repeat match goal with
      | |- context [if ?b then _ else _] => destruct b
      end; reflexivity.
Qed.

(** X11. [getRandomEncouragement] returns one of the seven encouragement
    messages whenever [Math.random()] lies in [0, 1). *)
Theorem getRandomEncouragement_in_table (W : World) :
  (0 <= W.(Math_random))%Q -> (W.(Math_random) < 1)%Q ->
  In (KakaoMessageApi.getRandomEncouragement W)
     Constants.ENCOURAGEMENT_MESSAGES.
Proof.
  intros Hlo Hhi. unfold KakaoMessageApi.getRandomEncouragement.
  change (arrayLength Constants.ENCOURAGEMENT_MESSAGES) with 7%Z.
  set (index := Qfloor (Math_random W * inject_Z 7)).
  assert (Hindex : (0 <= index < 7)%Z).
  { unfold index. split.
    - change 0%Z with (Qfloor 0). apply Qfloor_resp_le.
      apply Qmult_le_0_compat; [exact Hlo|discriminate].
    - rewrite Zlt_Qlt.
      apply Qle_lt_trans with (Math_random W * inject_Z 7);
        [apply Qfloor_le|].
      apply Qlt_le_trans with (1 * inject_Z 7).
      + apply Qmult_lt_compat_r; [reflexivity|exact Hhi].
      + rewrite Qmult_1_l. apply Qle_refl. }
  apply nth_In.
  change (List.length Constants.ENCOURAGEMENT_MESSAGES) with 7%nat. lia.
Qed.

(** A run of the theorem: [Math.random()] gives 0, the first message. *)
Lemma getRandomEncouragement_in_table_witness :
  In (KakaoMessageApi.getRandomEncouragement
        (Fixtures.world None None []))
     Constants.ENCOURAGEMENT_MESSAGES.
Proof.
  apply getRandomEncouragement_in_table.
  - vm_compute. discriminate.
  - vm_compute. reflexivity.
Defined.

(** ** Errors at the adapter boundary *)

(** X12. No adapter lets an AxiosError out: whatever the provider answers,
    the value that [searchPlaces], [createCalendarEvent] or
    [sendCommitmentCard] throws is never the AxiosError with its raw
    response. *)
Theorem axios_errors_never_escape (B : Builtins) (W : World)
  (status : option Z) (message : JsString) (data : option JsString) :
  (forall purpose location keyword radius limit log,
      fst (KakaoLocalApi.searchPlaces W purpose location keyword radius limit
             log) <> Throw (AxiosError status message data))
  /\ (forall accessToken title startTime durationMinutes options log,
         fst (KakaoCalendarApi.createCalendarEvent B W accessToken title
                startTime durationMinutes options log)
         <> Throw (AxiosError status message data))
  /\ (forall accessToken goal options log,
         fst (KakaoMessageApi.sendCommitmentCard W accessToken goal options log)
         <> Throw (AxiosError status message data)).
Proof.
  split; [|split].
  - intros purpose location keyword radius limit log.
    destruct (KakaoLocalApi.kakaoRestApiKey W) as [|c r] eqn:Ekey.
    + unfold KakaoLocalApi.searchPlaces. rewrite Ekey. discriminate.
    + assert (Hkey : keyConfigured W)
        by (unfold keyConfigured; rewrite Ekey; discriminate).
      rewrite (searchPlaces_cases W purpose location keyword radius limit log
                 Hkey).
      destruct (getCoordinates_returns W location log) as [coords Hc].
      destruct (KakaoLocalApi.getCoordinates W location log)
        as [[[co|]|e] log1]; cbn [fst] in *; try discriminate.
      destruct (axios_keyword W log1 _ _) as [places|e]; [discriminate|].
      destruct e as [st m d|m|v]; try discriminate.
      repeat match goal with
      | |- context [if ?b then _ else _] => destruct b
      end; discriminate.
  - intros accessToken title startTime durationMinutes options log.
    unfold KakaoCalendarApi.createCalendarEvent.
    destruct (negb (truthyStr (Some accessToken))); [discriminate|].
    unfold bind, KakaoCalendarApi.liftC, KakaoCalendarApi.formatStartTime,
      KakaoCalendarApi.calculateEndTime, KakaoCalendarApi.toISOString,
      KakaoCalendarApi.mapCompletion.
    destruct (Date_parse B startTime) as [t|]; [|discriminate].
    destruct (Date_parse B _) as [t'|]; [|discriminate].
    cbn [option_map]. unfold tryCatch, await, throw.
    match goal with
    | |- context [axios_calendar W log ?t ?e] =>
      destruct (axios_calendar W log t e) as [resp|err]
    end; [discriminate|].
    destruct err as [st m d|m|v]; try discriminate.
    repeat match goal with
    | |- context [if ?b then _ else _] => destruct b
    end; discriminate.
  - intros accessToken goal options log.
    unfold KakaoMessageApi.sendCommitmentCard.
    destruct (negb (truthyStr (Some accessToken))); [discriminate|].
    unfold tryCatch, bind, await, ret, throw.
    match goal with
    | |- context [axios_message W log ?t ?m] =>
      destruct (axios_message W log t m) as [[]|err]
    end; [discriminate|].
    destruct err as [st m d|m|v]; try discriminate.
    repeat match goal with
    | |- context [if ?b then _ else _] => destruct b
    end; discriminate.
Qed.

(** ** The calendar adapter, further *)

Section CalendarEvent.

Variable B : Builtins.
Variable W : World.

(** When [createCalendarEvent] has sent anything, the token was there and
    both times had formatted. *)
Lemma createCalendarEvent_sent (accessToken title startTime : JsString)
  (durationMinutes : Z) (options : KakaoCalendarApi.CreateOptions)
  (log : list Request) :
  snd (KakaoCalendarApi.createCalendarEvent B W accessToken title startTime
         durationMinutes options log) = log
  \/ exists formattedStartTime endTime,
       accessToken <> []
       /\ KakaoCalendarApi.formatStartTime B startTime
          = Return formattedStartTime
       /\ KakaoCalendarApi.calculateEndTime B formattedStartTime
            durationMinutes = Return endTime.
Proof.
  unfold KakaoCalendarApi.createCalendarEvent.
  destruct accessToken as [|c r]; [left; reflexivity|].
  cbn [truthyStr negb]. unfold bind, KakaoCalendarApi.liftC.
  destruct (KakaoCalendarApi.formatStartTime B startTime) as [fs|e] eqn:Hs;
    [|left; reflexivity].
  destruct (KakaoCalendarApi.calculateEndTime B fs durationMinutes)
    as [et|e] eqn:He; [|left; reflexivity].
  right. exists fs, et. split; [discriminate|]. split; [reflexivity|exact He].
Qed.

End CalendarEvent.

(** X13. Every event [createCalendarEvent] sends goes out with the caller's
    non-empty token, the time zone Asia/Seoul and [all_day] false; it has a
    location exactly when a non-empty location name was given, and that
    location has an address only when a non-empty address was given too; its
    color is the given one or BLUE; and its reminder, when present, is one
    positive multiple of 5. *)
Theorem calendar_event_invariants (B : Builtins) (W : World)
  (accessToken title startTime : JsString) (durationMinutes : Z)
  (options : KakaoCalendarApi.CreateOptions) (log : list Request)
  (token : JsString) (event : CalendarEvent) :
  snd (KakaoCalendarApi.createCalendarEvent B W accessToken title startTime
         durationMinutes options log)
  = log ++ [PostCalendar token event] ->
  token = accessToken /\ accessToken <> []
  /\ ev_title event = title
  /\ time_zone (ev_time event) = js "Asia/Seoul"
  /\ all_day (ev_time event) = false
  /\ (ev_location event = None
      <-> truthyStr options.(KakaoCalendarApi.locationName) = false)
  /\ (forall l, ev_location event = Some l ->
      Some (loc_name l) = options.(KakaoCalendarApi.locationName)
      /\ (loc_address l = None
          <-> truthyStr options.(KakaoCalendarApi.locationAddress) = false)
      /\ (forall a, loc_address l = Some a ->
          options.(KakaoCalendarApi.locationAddress) = Some a))
  /\ ev_color event
     = match options.(KakaoCalendarApi.color) with
       | Some c => CalendarColor_name c
       | None => js "BLUE"
       end
  /\ (forall rs, ev_reminders event = Some rs ->
      exists r, rs = [r] /\ (0 < r)%Z /\ (r mod 5 = 0)%Z).
Proof.
  intros Hsent.
  destruct (createCalendarEvent_sent B W accessToken title startTime
              durationMinutes options log) as [Hnone|[fs [et [Ht [Hs He]]]]].
  { rewrite Hnone in Hsent. apply (f_equal (@List.length Request)) in Hsent.
    rewrite length_app in Hsent. cbn [List.length] in Hsent. lia. }
  rewrite (createCalendarEvent_request B W accessToken title startTime
             durationMinutes options log fs et Ht Hs He) in Hsent.
  apply app_inv_head in Hsent. injection Hsent as Htoken Hevent.
  subst token event.
  split; [reflexivity|]. split; [exact Ht|].
  unfold KakaoCalendarApi.buildEvent.
  cbn [ev_title ev_time time_zone all_day ev_location ev_color ev_reminders].
  split; [reflexivity|]. split; [reflexivity|]. split; [reflexivity|].
  split.
  { destruct (KakaoCalendarApi.locationName options) as [[|c r]|];
      cbn [truthyStr]; split; congruence. }
  split.
  { intros l Hl.
    destruct (KakaoCalendarApi.locationName options) as [[|c r]|];
      try discriminate.
    inversion Hl. cbn [loc_name loc_address]. split; [reflexivity|].
    destruct (KakaoCalendarApi.locationAddress options) as [[|c' r']|];
      cbn [truthyStr]; (split; [split; congruence|]); intros a Ha;
      congruence. }
  split; [reflexivity|].
  intros rs Hrs.
  match type of Hrs with
  | (if (0 <? ?r)%Z then _ else _) = _ =>
    destruct (Z.ltb_spec 0 r); [|discriminate];
    exists r; inversion Hrs; split; [reflexivity|]; split; [assumption|];
    apply roundToFiveMinutes_nearest
  end.
Qed.

(** A run of the theorem: a location name without an address. *)
Lemma calendar_event_invariants_witness :
  exists event l,
    snd (KakaoCalendarApi.createCalendarEvent Fixtures.builtins
           (Fixtures.world None Fixtures.accessToken [])
           (js "access-token") (js "공부") (js "2026-01-15T19:00:00") 120
           {| KakaoCalendarApi.locationName := Some (js "북카페 콤마");
              KakaoCalendarApi.locationAddress := None;
              KakaoCalendarApi.reminderMinutes := None;
              KakaoCalendarApi.color := None;
              KakaoCalendarApi.description := None |} [])
    = [] ++ [PostCalendar (js "access-token") event]
    /\ ev_location event = Some l
    /\ loc_address l = None
    /\ ev_color event = js "BLUE".
Proof.
  eexists. eexists. split; [vm_compute; reflexivity|].
  split; [reflexivity|].
  match goal with
  | |- loc_address ?l = None /\ ev_color ?e = _ =>
    assert (Hsent :
      snd (KakaoCalendarApi.createCalendarEvent Fixtures.builtins
             (Fixtures.world None Fixtures.accessToken [])
             (js "access-token") (js "공부") (js "2026-01-15T19:00:00") 120
             {| KakaoCalendarApi.locationName := Some (js "북카페 콤마");
                KakaoCalendarApi.locationAddress := None;
                KakaoCalendarApi.reminderMinutes := None;
                KakaoCalendarApi.color := None;
                KakaoCalendarApi.description := None |} [])
      = [] ++ [PostCalendar (js "access-token") e])
      by (vm_compute; reflexivity);
    destruct (calendar_event_invariants _ _ _ _ _ _ _ _ _ _ Hsent)
      as [_ [_ [_ [_ [_ [_ [Hloc [Hcolor _]]]]]]]];
    destruct (Hloc l eq_refl) as [_ [Haddr _]]
  end.
  split; [apply Haddr; reflexivity|exact Hcolor].
Defined.

(** X14. Rounding to five minutes is monotone and idempotent, and it keeps
    the validated reminder range: an input in 0..1440 gives a multiple of 5
    in 0..1440. *)
Theorem roundToFiveMinutes_order (m n : Z) :
  ((m <= n)%Z ->
   (KakaoCalendarApi.roundToFiveMinutes m
    <= KakaoCalendarApi.roundToFiveMinutes n)%Z)
  /\ KakaoCalendarApi.roundToFiveMinutes
       (KakaoCalendarApi.roundToFiveMinutes m)
     = KakaoCalendarApi.roundToFiveMinutes m
  /\ ((0 <= m <= 1440)%Z ->
      (0 <= KakaoCalendarApi.roundToFiveMinutes m <= 1440)%Z).
Proof.
  rewrite !roundToFiveMinutes_div. split; [|split].
  - intros Hmn.
    assert ((2 * m + 5) / 10 <= (2 * n + 5) / 10)%Z
      by (apply Z.div_le_mono; lia).
    lia.
  - replace (2 * ((2 * m + 5) / 10 * 5) + 5)%Z
      with (5 + ((2 * m + 5) / 10) * 10)%Z by lia.
    rewrite Z.div_add by lia. change (5 / 10)%Z with 0%Z. lia.
  - intros Hm.
    pose proof (Z.div_le_mono 5 (2 * m + 5) 10 ltac:(lia) ltac:(lia)) as Hlo.
    pose proof (Z.div_le_mono (2 * m + 5) 2885 10 ltac:(lia) ltac:(lia)) as Hhi.
    change (5 / 10)%Z with 0%Z in Hlo. change (2885 / 10)%Z with 288%Z in Hhi.
    lia.
Qed.

(** ** What the calendar and message tools tell the caller *)

Section ToolFailures.

Variable B : Builtins.
Variable W : World.

(** The reason the calendar adapter gives for a rejected request. *)
Lemma createCalendarEvent_rejected (accessToken title startTime : JsString)
  (durationMinutes : Z) (options : KakaoCalendarApi.CreateOptions)
  (log : list Request) (formattedStartTime endTime : JsString)
  (status : option Z) (message : JsString) (data : option JsString) :
  accessToken <> [] ->
  KakaoCalendarApi.formatStartTime B startTime = Return formattedStartTime ->
  KakaoCalendarApi.calculateEndTime B formattedStartTime durationMinutes
  = Return endTime ->
  (forall event,
      W.(axios_calendar) log accessToken event
      = Throw (AxiosError status message data)) ->
  fst (KakaoCalendarApi.createCalendarEvent B W accessToken title startTime
         durationMinutes options log)
  = Throw (JsError
      (if statusIs status 401 then
         js "카카오 인증이 만료되었습니다. 다시 로그인해주세요."
       else if statusIs status 403 then
         js "톡캘린더 권한이 없습니다. PlayMCP에서 talk_calendar 권한을 허용해주세요."
       else if statusIs status 400 then
         js "일정 생성 실패: " ++ orElseStr data (js "잘못된 요청입니다.")
       else js "일정 생성 실패: " ++ message)).
Proof.
  intros Htoken Hstart Hend Hreply.
  unfold KakaoCalendarApi.createCalendarEvent.
  destruct accessToken as [|c r]; [congruence|]. cbn [truthyStr negb].
  unfold bind, KakaoCalendarApi.liftC. rewrite Hstart, Hend.
  unfold tryCatch, await, throw. rewrite Hreply.
  destruct (statusIs status 401); [reflexivity|].
  destruct (statusIs status 403); [reflexivity|].
  destruct (statusIs status 400); reflexivity.
Qed.

Lemma statusIs_false (status : option Z) (n : Z) :
  status <> Some n -> statusIs status n = false.
Proof.
  intros H. destruct status as [s|]; [|reflexivity]. cbn [statusIs].
  apply Z.eqb_neq. congruence.
Qed.

(** The reason the message adapter gives for a rejected request. *)
Lemma sendCommitmentCard_rejected (accessToken goal : JsString)
  (options : KakaoMessageApi.SendOptions) (log : list Request)
  (status : option Z) (message : JsString) (data : option JsString) :
  accessToken <> [] ->
  (forall template,
      W.(axios_message) log accessToken template
      = Throw (AxiosError status message data)) ->
  fst (KakaoMessageApi.sendCommitmentCard W accessToken goal options log)
  = Throw (JsError
      (if statusIs status 401 then
         js "카카오 인증이 만료되었습니다. 다시 로그인해주세요."
       else if statusIs status 403 then
         js "메시지 전송 권한이 없습니다. PlayMCP에서 talk_message 권한을 허용해주세요."
       else js "메시지 전송 실패: " ++ message)).
Proof.
  intros Htoken Hreply. unfold KakaoMessageApi.sendCommitmentCard.
  destruct accessToken as [|c r]; [congruence|]. cbn [truthyStr negb].
  unfold tryCatch, bind, await, ret, throw. rewrite Hreply.
  destruct (statusIs status 401); [reflexivity|].
  destruct (statusIs status 403); reflexivity.
Qed.

End ToolFailures.



(** X16. When the provider rejects the calendar request, the caller of the
    calendar tool is told why: 401 and 403 have their own texts, 400 shows
    the provider's [msg] or, without one, a fixed text, and any other failure
    shows the transport's message; the SDK handler puts the reason under its
    failure heading with [isError] set, the JSON-RPC handler after its
    prefix. *)
Theorem calendar_rejection_reasons (B : Builtins) (W : World)
  (params : JsValue) (input : Schemas.BlockSessionInput) (token : JsString)
  (formattedStartTime endTime : JsString)
  (status : option Z) (message : JsString) (data : option JsString)
  (log : list Request) :
  Schemas.BlockSessionInputSchema B params = Schemas.ParseSuccess input ->
  W.(env_KAKAO_ACCESS_TOKEN) = Some token -> token <> [] ->
  KakaoCalendarApi.formatStartTime B input.(Schemas.bs_start_time)
  = Return formattedStartTime ->
  KakaoCalendarApi.calculateEndTime B formattedStartTime
    input.(Schemas.bs_duration_minutes) = Return endTime ->
  (forall event,
      W.(axios_calendar) log token event
      = Throw (AxiosError status message data)) ->
  exists reason,
    fst (Tools.blockSessionHandler B W params log)
    = Return {| content :=
                  [textItem (js "# 일정 등록 실패" ++ nl ++ nl ++ reason)];
                isError := Some true |}
    /\ fst (ApiHandler.executeBlockSession B W input log)
       = Return (js "❌ 일정 등록 실패: " ++ reason)
    /\ (status = Some 401%Z ->
        reason = js "카카오 인증이 만료되었습니다. 다시 로그인해주세요.")
    /\ (status = Some 403%Z ->
        reason = js "톡캘린더 권한이 없습니다. PlayMCP에서 talk_calendar 권한을 허용해주세요.")
    /\ (status = Some 400%Z ->
        reason = js "일정 생성 실패: "
                 ++ orElseStr data (js "잘못된 요청입니다."))
    /\ (status <> Some 401%Z -> status <> Some 403%Z ->
        status <> Some 400%Z ->
        reason = js "일정 생성 실패: " ++ message).
Proof.
  intros Hparse Henv Htoken Hstart Hend Hreply.
  eexists. split; [|split].
  - unfold Tools.blockSessionHandler, tryCatch, bind, Schemas.parse.
    rewrite Hparse. unfold ret at 1. rewrite Henv.
    destruct token as [|c r]; [congruence|].
    match goal with
    | |- context [KakaoCalendarApi.createCalendarEvent B W ?t ?ti ?s ?d ?o log] =>
      pose proof (createCalendarEvent_rejected B W t ti s d o log
                    formattedStartTime endTime status message data Htoken
                    Hstart Hend Hreply) as Hthrown;
      destruct (KakaoCalendarApi.createCalendarEvent B W t ti s d o log)
        as [res log1]
    end.
    cbn [fst] in Hthrown. rewrite Hthrown. reflexivity.
  - unfold ApiHandler.executeBlockSession. rewrite Henv.
    destruct token as [|c r]; [congruence|].
    unfold tryCatch, bind.
    match goal with
    | |- context [KakaoCalendarApi.createCalendarEvent B W ?t ?ti ?s ?d ?o log] =>
      pose proof (createCalendarEvent_rejected B W t ti s d o log
                    formattedStartTime endTime status message data Htoken
                    Hstart Hend Hreply) as Hthrown;
      destruct (KakaoCalendarApi.createCalendarEvent B W t ti s d o log)
        as [res log1]
    end.
    cbn [fst] in Hthrown. rewrite Hthrown. reflexivity.
  - split; [|split; [|split]].
    + intros ->. reflexivity.
    + intros ->. reflexivity.
    + intros ->. reflexivity.
    + intros H401 H403 H400.
      rewrite (statusIs_false status 401 H401),
        (statusIs_false status 403 H403), (statusIs_false status 400 H400).
      reflexivity.
Qed.

(** A run of the theorem: the provider answers 400 without a [msg]. *)
Lemma calendar_rejection_reasons_witness :
  fst (ApiHandler.executeBlockSession Fixtures.builtins
         (Scenarios.rejecting 400 None)
         {| Schemas.bs_title := js "공부";
            Schemas.bs_location_name := None;
            Schemas.bs_location_address := None;
            Schemas.bs_start_time := js "2026-01-15T19:00:00";
            Schemas.bs_duration_minutes := 120;
            Schemas.bs_reminder_minutes := 15;
            Schemas.bs_color := BLUE |} [])
  = Return (js "❌ 일정 등록 실패: "
            ++ (js "일정 생성 실패: "
                ++ orElseStr None (js "잘못된 요청입니다."))).
Proof.
  destruct (calendar_rejection_reasons Fixtures.builtins
              (Scenarios.rejecting 400 None) Fixtures.blockArgs
              {| Schemas.bs_title := js "공부";
                 Schemas.bs_location_name := None;
                 Schemas.bs_location_address := None;
                 Schemas.bs_start_time := js "2026-01-15T19:00:00";
                 Schemas.bs_duration_minutes := 120;
                 Schemas.bs_reminder_minutes := 15;
                 Schemas.bs_color := BLUE |}
              (js "access-token") (js "1970-01-01T00:00:00Z")
              (js "1970-01-01T00:00:00Z")
              (Some 400%Z) (js "Request failed") None []
              ltac:(vm_compute; reflexivity) eq_refl
              ltac:(vm_compute; discriminate)
              ltac:(vm_compute; reflexivity) ltac:(vm_compute; reflexivity)
              ltac:(intros event; reflexivity))
    as [reason [_ [Hrpc [_ [_ [H400 _]]]]]].
  rewrite Hrpc, (H400 eq_refl). reflexivity.
Defined.

(** X17. The message tool: without an access token every handler answers
    with its login-required text and sends nothing; with one, a provider
    rejection is shown as the adapter's reason under the failure heading, 401
    and 403 with their own texts and any other failure with the transport's
    message. *)
Theorem message_tool_failures (B : Builtins) (W : World)
  (params : JsValue) (input : Schemas.SendCommitmentInput) (log : list Request) :
  Schemas.SendCommitmentInputSchema B params = Schemas.ParseSuccess input ->
  (truthyStr W.(env_KAKAO_ACCESS_TOKEN) = false ->
   Tools.sendCommitmentHandler B W params log
   = (Return {| content := [textItem Tools.loginRequired];
                isError := Some true |}, log)
   /\ ApiHandler.executeSendCommitment B W input log
      = (Return ApiHandler.loginRequired, log))
  /\ (forall token status message data,
         W.(env_KAKAO_ACCESS_TOKEN) = Some token -> token <> [] ->
         (forall template,
             W.(axios_message) log token template
             = Throw (AxiosError status message data)) ->
         exists reason,
           fst (Tools.sendCommitmentHandler B W params log)
           = Return {| content :=
                         [textItem (js "# 다짐 카드 전송 실패" ++ nl ++ nl
                                    ++ reason)];
                       isError := Some true |}
           /\ fst (ApiHandler.executeSendCommitment B W input log)
              = Return (js "❌ 메시지 전송 실패: " ++ reason)
           /\ (status = Some 401%Z ->
               reason
               = js "카카오 인증이 만료되었습니다. 다시 로그인해주세요.")
           /\ (status = Some 403%Z ->
               reason
               = js "메시지 전송 권한이 없습니다. PlayMCP에서 talk_message 권한을 허용해주세요.")
           /\ (status <> Some 401%Z -> status <> Some 403%Z ->
               reason = js "메시지 전송 실패: " ++ message)).
Proof.
  intros Hparse. split.
  - intros Hnone. split.
    + unfold Tools.sendCommitmentHandler, tryCatch, bind, Schemas.parse.
      rewrite Hparse. unfold ret at 1.
      destruct (env_KAKAO_ACCESS_TOKEN W) as [[|c r]|];
        [reflexivity|discriminate|reflexivity].
    + unfold ApiHandler.executeSendCommitment.
      destruct (env_KAKAO_ACCESS_TOKEN W) as [[|c r]|];
        [reflexivity|discriminate|reflexivity].
  - intros token status message data Henv Htoken Hreply.
    eexists. split; [|split].
    + unfold Tools.sendCommitmentHandler, tryCatch, bind, Schemas.parse.
      rewrite Hparse. unfold ret at 1. rewrite Henv.
      destruct token as [|c r]; [congruence|].
      match goal with
      | |- context [KakaoMessageApi.sendCommitmentCard W ?t ?g ?o log] =>
        pose proof (sendCommitmentCard_rejected W t g o log status message
                      data Htoken Hreply) as Hthrown;
        destruct (KakaoMessageApi.sendCommitmentCard W t g o log)
          as [res log1]
      end.
      cbn [fst] in Hthrown. rewrite Hthrown. reflexivity.
    + unfold ApiHandler.executeSendCommitment. rewrite Henv.
      destruct token as [|c r]; [congruence|].
      unfold tryCatch, bind.
      match goal with
      | |- context [KakaoMessageApi.sendCommitmentCard W ?t ?g ?o log] =>
        pose proof (sendCommitmentCard_rejected W t g o log status message
                      data Htoken Hreply) as Hthrown;
        destruct (KakaoMessageApi.sendCommitmentCard W t g o log)
          as [res log1]
      end.
      cbn [fst] in Hthrown. rewrite Hthrown. reflexivity.
    + split; [|split].
      * intros ->. reflexivity.
      * intros ->. reflexivity.
      * intros H401 H403.
        rewrite (statusIs_false status 401 H401),
          (statusIs_false status 403 H403).
        reflexivity.
Qed.

(** A run of the theorem: no access token in the environment. *)
Lemma message_tool_failures_witness :
  Tools.sendCommitmentHandler Fixtures.builtins
    (Fixtures.world Fixtures.apiKey None [])
    (JObject [(js "goal", JStr (js "자격증 공부"))]) []
  = (Return {| content := [textItem Tools.loginRequired];
               isError := Some true |}, []).
Proof.
  refine (proj1 (proj1 (message_tool_failures Fixtures.builtins
                          (Fixtures.world Fixtures.apiKey None [])
                          (JObject [(js "goal", JStr (js "자격증 공부"))])
                          _ [] _) eq_refl)).
  vm_compute. reflexivity.
Defined.

(** X18. The credentials are kept apart: the search tool does the same
    whatever the access token is, and the calendar and message tools do the
    same whatever the REST API key is. *)
Theorem credentials_kept_apart (B : Builtins) (W : World) (params : JsValue)
  (log : list Request) :
  (forall token,
      Tools.searchSpotHandler B (withAccessToken W token) params log
      = Tools.searchSpotHandler B W params log)
  /\ (forall key,
         Tools.blockSessionHandler B (withRestApiKey W key) params log
         = Tools.blockSessionHandler B W params log)
  /\ (forall key,
         Tools.sendCommitmentHandler B (withRestApiKey W key) params log
         = Tools.sendCommitmentHandler B W params log).
Proof.
  split; [|split]; intros v; reflexivity.
Qed.

(** ** A rejected place search *)

(** X19. When the provider rejects the place search proper, the SDK search
    tool answers with an error envelope that names the cause: 401 is an
    authentication failure, 429 the rate limit, and any other failure shows
    the transport's message. *)
Theorem search_rejection_reasons (B : Builtins) (W : World)
  (params : JsValue) (input : Schemas.SearchSpotInput) (coords : Coords)
  (status : option Z) (message : JsString) (data : option JsString)
  (log log1 : list Request) :
  Schemas.SearchSpotInputSchema B params = Schemas.ParseSuccess input ->
  keyConfigured W ->
  KakaoLocalApi.getCoordinates W input.(Schemas.ss_location) log
  = (Return (Some coords), log1) ->
  (forall p,
      W.(axios_keyword) log1 (KakaoLocalApi.kakaoRestApiKey W) p
      = Throw (AxiosError status message data)) ->
  exists reason,
    fst (Tools.searchSpotHandler B W params log)
    = Return {| content := [textItem (js "오류: " ++ reason)];
                isError := Some true |}
    /\ (status = Some 401%Z -> reason = KakaoLocalApi.unauthorized)
    /\ (status = Some 429%Z -> reason = KakaoLocalApi.rateLimited)
    /\ (status <> Some 401%Z -> status <> Some 429%Z ->
        reason = js "장소 검색 실패: " ++ message).
Proof.
  intros Hparse Hkey Hcoords Hreply.
  exists (if statusIs status 401 then KakaoLocalApi.unauthorized
          else if statusIs status 429 then KakaoLocalApi.rateLimited
          else js "장소 검색 실패: " ++ message).
  split.
  - unfold Tools.searchSpotHandler, tryCatch, bind, Schemas.parse.
    rewrite Hparse. unfold ret at 1.
    unfold KakaoLocalApi.searchProductivitySpots, bind.
    rewrite (searchPlaces_cases W _ _ _ _ _ log Hkey).
    rewrite Hcoords. cbv zeta. rewrite Hreply.
    destruct (statusIs status 401); [reflexivity|].
    destruct (statusIs status 429); reflexivity.
  - split; [|split].
    + intros ->. reflexivity.
    + intros ->. reflexivity.
    + intros H401 H429.
      rewrite (statusIs_false status 401 H401),
        (statusIs_false status 429 H429).
      reflexivity.
Qed.

(** A run of the theorem: the provider answers the place search with 429. *)
Lemma search_rejection_reasons_witness :
  fst (Tools.searchSpotHandler Fixtures.builtins
         (Scenarios.rejecting 429 None) Fixtures.searchArgs [])
  = Return {| content := [textItem (js "오류: " ++ KakaoLocalApi.rateLimited)];
              isError := Some true |}.
Proof.
  edestruct (search_rejection_reasons Fixtures.builtins
               (Scenarios.rejecting 429 None) Fixtures.searchArgs)
    as [reason [Htext [_ [H429 _]]]].
  - vm_compute. reflexivity.
  - vm_compute. discriminate.
  - vm_compute. reflexivity.
  - intros p. vm_compute. reflexivity.
  - rewrite Htext, (H429 eq_refl). reflexivity.
Defined.



(** ** The self-contained handler *)

(** X21. [truncateResponse] never returns more than the 25,000-unit ceiling,
    truncating twice is truncating once, and the first 24,900 units of the
    content are always kept. *)
Theorem truncateResponse_ceiling (content : JsString) :
  (jsLength (Inline.truncateResponse content) <= Inline.CHARACTER_LIMIT)%Z
  /\ Inline.truncateResponse (Inline.truncateResponse content)
     = Inline.truncateResponse content
  /\ slice0 24900 (Inline.truncateResponse content) = slice0 24900 content.
Proof.
  assert (Hlen : (jsLength (Inline.truncateResponse content) <= 25000)%Z).
  { destruct (Z.leb_spec (jsLength content) 25000) as [Hs|Hl].
    - now rewrite truncateResponse_short.
    - destruct (truncateResponse_long content Hl) as [_ ->]. lia. }
  split; [exact Hlen|]. split.
  - now apply truncateResponse_short.
  - destruct (Z.leb_spec (jsLength content) 25000) as [Hs|Hl].
    + now rewrite truncateResponse_short.
    + destruct (truncateResponse_long content Hl) as [-> _].
      unfold slice0. unfold jsLength in Hl.
      rewrite firstn_app, firstn_firstn, Nat.min_id.
      rewrite length_firstn.
      replace (Z.to_nat 24900 - Nat.min (Z.to_nat 24900) (List.length content))%nat
        with 0%nat by lia.
      cbn [firstn]. apply app_nil_r.
Qed.

(** X22. The tools of the self-contained handler always answer with a text:
    whatever the provider does, no exception leaves [executeSearchSpot],
    [executeBlockSession] or [executeSendCommitment]. *)
Theorem inline_tools_always_answer (B : Builtins) (W : World)
  (fetch_message : list Request -> JsString -> MessageTemplate
                   -> FetchOutcome unit)
  (log : list Request) :
  (forall args,
      exists text, fst (Inline.executeSearchSpot B W args log) = Return text)
  /\ (forall args,
         exists text,
           fst (Inline.executeBlockSession B W args log) = Return text)
  /\ (forall args,
         exists text,
           fst (InlineMessage.executeSendCommitment W fetch_message args log)
           = Return text).
Proof.
  split; [|split]; intros args.
  - unfold Inline.executeSearchSpot, tryCatch, bind.
    destruct (Inline.searchPlaces W _ _ _ _ _ log) as [[places|e] log1];
      [|eexists; reflexivity].
    destruct (JsString_eqb _ _); [eexists; reflexivity|].
    destruct places; eexists; reflexivity.
  - unfold Inline.executeBlockSession.
    destruct (env_KAKAO_ACCESS_TOKEN W) as [[|c r]|];
      try (eexists; reflexivity).
    unfold tryCatch, bind, Inline.liftC, Inline.fetchWithTimeout.
    destruct (Date_parse B _) as [t|]; [|eexists; reflexivity].
    cbn [option_map KakaoCalendarApi.toISOString].
    destruct (fetch_calendar W log _ _) as [status data|e];
      [|eexists; reflexivity].
    cbn [fst].
    destruct (negb (Inline.ok status)); [|eexists; reflexivity].
    destruct (status =? 401)%Z; [eexists; reflexivity|].
    destruct (status =? 403)%Z; eexists; reflexivity.
  - unfold InlineMessage.executeSendCommitment.
    destruct (env_KAKAO_ACCESS_TOKEN W) as [[|c r]|];
      try (eexists; reflexivity).
    unfold tryCatch, bind, Inline.fetchWithTimeout.
    destruct (fetch_message log _ _) as [status data|e];
      [|eexists; reflexivity].
    cbn [fst].
    destruct (negb (Inline.ok status)); [|eexists; reflexivity].
    destruct (status =? 401)%Z; [eexists; reflexivity|].
    destruct (status =? 403)%Z; eexists; reflexivity.
Qed.

(** ** The two implementations side by side *)

Lemma eventDescription_truthy (title : JsString) :
  truthyStr (Some (Tools.eventDescription title)) = true.
Proof.
  unfold Tools.eventDescription.
  destruct (js "갓생 메이트로 등록한 일정입니다.") as [|c r] eqn:E;
    [vm_compute in E; discriminate|reflexivity].
Qed.

Lemma orElseStr_color (c : CalendarColor) (d : JsString) :
  orElseStr (Some (CalendarColor_name c)) d = CalendarColor_name c.
Proof. destruct c; vm_compute; reflexivity. Qed.

(** X23. The self-contained handler builds the event the calendar adapter
    would build from the same arguments and times, whenever the color is one
    of the eight names or absent and the reminder is not 0; with a reminder
    of 0 it sends [[15]] where the adapter sends no reminder. *)
Theorem inline_event_agrees (args : Inline.BlockArgs)
  (c : option CalendarColor) (startIso endIso : JsString) :
  args.(Inline.color) = option_map CalendarColor_name c ->
  let options :=
    {| KakaoCalendarApi.locationName := args.(Inline.location_name);
       KakaoCalendarApi.locationAddress := args.(Inline.location_address);
       KakaoCalendarApi.reminderMinutes := args.(Inline.reminder_minutes);
       KakaoCalendarApi.color := c;
       KakaoCalendarApi.description :=
         Some (Tools.eventDescription args.(Inline.title)) |} in
  let adapterEvent :=
    KakaoCalendarApi.buildEvent args.(Inline.title)
      (KakaoCalendarApi.stripMillis startIso)
      (KakaoCalendarApi.stripMillis endIso) options
      (KakaoCalendarApi.roundToFiveMinutes
         (nullishNum args.(Inline.reminder_minutes)
            Constants.DEFAULT_REMINDER_MINUTES)) in
  (args.(Inline.reminder_minutes) <> Some 0%Z ->
   Inline.eventOf args startIso endIso = adapterEvent)
  /\ (args.(Inline.reminder_minutes) = Some 0%Z ->
      ev_reminders (Inline.eventOf args startIso endIso) = Some [15%Z]
      /\ ev_reminders adapterEvent = None).
Proof.
  intros Hcolor options adapterEvent. split.
  - intros Hrem.
    unfold adapterEvent, Inline.eventOf, KakaoCalendarApi.buildEvent, options,
      Inline.reminderOf.
    cbn [KakaoCalendarApi.locationName KakaoCalendarApi.locationAddress
         KakaoCalendarApi.reminderMinutes KakaoCalendarApi.color
         KakaoCalendarApi.description].
    rewrite eventDescription_truthy, Hcolor.
    replace (orElseStr (option_map CalendarColor_name c) (js "BLUE"))
      with (match c with
            | Some c0 => CalendarColor_name c0
            | None => js "BLUE"
            end)
      by (destruct c as [c0|]; [symmetry; apply orElseStr_color|reflexivity]).
    replace (orElseNum (Inline.reminder_minutes args) 15)
      with (nullishNum (Inline.reminder_minutes args)
              Constants.DEFAULT_REMINDER_MINUTES).
    + reflexivity.
    + destruct (Inline.reminder_minutes args) as [v|]; [|reflexivity].
      cbn [nullishNum orElseNum].
      destruct (Z.eqb_spec v 0); [congruence|reflexivity].
  - intros Hzero.
    unfold adapterEvent, Inline.eventOf, KakaoCalendarApi.buildEvent, options,
      Inline.reminderOf.
    cbn [ev_reminders KakaoCalendarApi.reminderMinutes].
    rewrite Hzero. split; vm_compute; reflexivity.
Qed.

(** A run of the theorem: no color, a reminder of 7. *)
Lemma inline_event_agrees_witness :
  Inline.eventOf
    {| Inline.title := js "공부";
       Inline.start_time := js "2026-01-15T19:00:00";
       Inline.duration_minutes := 120;
       Inline.location_name := None;
       Inline.location_address := None;
       Inline.reminder_minutes := Some 7%Z;
       Inline.color := None |}
    (js "2026-01-15T10:00:00.000Z") (js "2026-01-15T12:00:00.000Z")
  = KakaoCalendarApi.buildEvent (js "공부")
      (KakaoCalendarApi.stripMillis (js "2026-01-15T10:00:00.000Z"))
      (KakaoCalendarApi.stripMillis (js "2026-01-15T12:00:00.000Z"))
      {| KakaoCalendarApi.locationName := None;
         KakaoCalendarApi.locationAddress := None;
         KakaoCalendarApi.reminderMinutes := Some 7%Z;
         KakaoCalendarApi.color := None;
         KakaoCalendarApi.description :=
           Some (Tools.eventDescription (js "공부")) |}
      (KakaoCalendarApi.roundToFiveMinutes
         (nullishNum (Some 7%Z) Constants.DEFAULT_REMINDER_MINUTES)).
Proof.
  refine (proj1 (inline_event_agrees
                   {| Inline.title := js "공부";
                      Inline.start_time := js "2026-01-15T19:00:00";
                      Inline.duration_minutes := 120;
                      Inline.location_name := None;
                      Inline.location_address := None;
                      Inline.reminder_minutes := Some 7%Z;
                      Inline.color := None |}
                   None (js "2026-01-15T10:00:00.000Z")
                   (js "2026-01-15T12:00:00.000Z") eq_refl) _).
  discriminate.
Defined.



(** ** What the rendered text contains *)

(** A line of a joined text is a part of the text. *)
Lemma join_contains (sep line : JsString) (lines : list JsString) :
  In line lines ->
  exists before after, join sep lines = before ++ line ++ after.
Proof.
  induction lines as [|l rest IH]; [intros []|].
  intros [->|Hin].
  - exists []. destruct rest as [|l' rest'].
    + exists []. cbn [join app]. now rewrite app_nil_r.
    + exists (sep ++ join sep (l' :: rest')). reflexivity.
  - destruct (IH Hin) as [before [after E]].
    destruct rest as [|l' rest']; [destruct Hin|].
    exists (l ++ sep ++ before), after.
    change (join sep (l :: l' :: rest'))
      with (l ++ sep ++ join sep (l' :: rest')).
    rewrite E. now rewrite <- !app_assoc.
Qed.

(** The heading of the place at position [k] is among the lines pushed for
    the places. *)
Lemma forEachLines_heading (places : list ProcessedPlace)
  (i : Z) (k : nat) (place : ProcessedPlace) :
  nth_error places k = Some place ->
  In (js "## " ++ Number_toString (i + Z.of_nat k + 1) ++ js ". "
      ++ place.(pp_name))
     (Formatters.forEachLines Formatters.placeLines i places).
Proof.
  revert i k. induction places as [|p rest IH]; intros i k Hnth.
  - destruct k; discriminate.
  - cbn [Formatters.forEachLines]. apply in_or_app.
    destruct k as [|k].
    + left. injection Hnth as ->. left.
      replace (i + Z.of_nat 0 + 1)%Z with (i + 1)%Z by lia. reflexivity.
    + right. cbn [nth_error] in Hnth.
      replace (i + Z.of_nat (S k) + 1)%Z with (i + 1 + Z.of_nat k + 1)%Z
        by lia.
      now apply IH.
Qed.

(** X25. A successful markdown search of the SDK tool lists every place the
    provider returned: the text contains, for the place at position [k], the
    heading with the number [k + 1] and the place's name, and the envelope
    carries no [isError]. *)
Theorem search_markdown_lists_every_place (B : Builtins) (W : World)
  (params : JsValue) (input : Schemas.SearchSpotInput)
  (places : list KakaoPlace) (query : JsString) (log log1 : list Request)
  (k : nat) (place : KakaoPlace) :
  Schemas.SearchSpotInputSchema B params = Schemas.ParseSuccess input ->
  input.(Schemas.ss_response_format) = markdown ->
  KakaoLocalApi.searchPlaces W input.(Schemas.ss_purpose)
    input.(Schemas.ss_location) input.(Schemas.ss_keyword)
    (Some input.(Schemas.ss_radius)) (Some input.(Schemas.ss_limit)) log
  = (Return (places, query), log1) ->
  nth_error places k = Some place ->
  exists before after,
    fst (Tools.searchSpotHandler B W params log)
    = Return
        {| content :=
             [textItem
                (before
                 ++ (js "## " ++ Number_toString (Z.of_nat k + 1) ++ js ". "
                     ++ place.(place_name))
                 ++ after)];
           isError := None |}.
Proof.
  intros Hparse Hformat Hsearch Hnth.
  unfold Tools.searchSpotHandler, tryCatch, bind, Schemas.parse.
  rewrite Hparse. unfold ret at 1.
  unfold KakaoLocalApi.searchProductivitySpots, bind.
  rewrite Hsearch. unfold ret. cbn [fst snd KakaoLocalApi.sr_places
    KakaoLocalApi.sr_query KakaoLocalApi.sr_total].
  rewrite Hformat.
  unfold Formatters.formatSearchSpotResult.
  cbn [so_places so_query so_purpose so_location so_total].
  assert (Hmapped :
    nth_error (map KakaoLocalApi.processPlace places) k
    = Some (KakaoLocalApi.processPlace place))
    by (rewrite nth_error_map, Hnth; reflexivity).
  pose proof (forEachLines_heading _ 0 k _ Hmapped) as Hin.
  cbn [KakaoLocalApi.processPlace pp_name] in Hin.
  replace (0 + Z.of_nat k + 1)%Z with (Z.of_nat k + 1)%Z in Hin by lia.
  destruct (map KakaoLocalApi.processPlace places) as [|p ps] eqn:Emap;
    [destruct k; discriminate|].
  match goal with
  | |- context [join nl ?lines] =>
    destruct (join_contains nl
                (js "## " ++ Number_toString (Z.of_nat k + 1) ++ js ". "
                 ++ place.(place_name)) lines) as [before [after E]];
      [|exists before, after; rewrite E; reflexivity]
  end.
  apply in_or_app. right. apply in_or_app. left. exact Hin.
Qed.

(** A run of the theorem: one place returned. *)
Lemma search_markdown_lists_every_place_witness :
  exists before after,
    fst (Tools.searchSpotHandler Fixtures.builtins
           (Fixtures.world Fixtures.apiKey None
              [Fixtures.cafe (js "북카페 콤마")])
           Fixtures.searchArgs [])
    = Return
        {| content :=
             [textItem
                (before
                 ++ (js "## " ++ Number_toString (Z.of_nat 0 + 1) ++ js ". "
                     ++ (Fixtures.cafe (js "북카페 콤마")).(place_name))
                 ++ after)];
           isError := None |}.
Proof.
  eapply (search_markdown_lists_every_place Fixtures.builtins
            (Fixtures.world Fixtures.apiKey None
               [Fixtures.cafe (js "북카페 콤마")])
            Fixtures.searchArgs).
  - vm_compute. reflexivity.
  - reflexivity.
  - vm_compute. reflexivity.
  - reflexivity.
Defined.

(** X26. On success the SDK calendar tool reports the reminder as it was
    given, while the event it has sent carries the reminder rounded to five
    minutes (or none, when that is 0): the two differ whenever the input is
    no multiple of 5. *)
Theorem sdk_reminder_text_unrounded (B : Builtins) (W : World)
  (params : JsValue) (input : Schemas.BlockSessionInput) (token : JsString)
  (formattedStartTime endTime : JsString) (response : CalendarCreateResponse)
  (log : list Request) :
  Schemas.BlockSessionInputSchema B params = Schemas.ParseSuccess input ->
  W.(env_KAKAO_ACCESS_TOKEN) = Some token -> token <> [] ->
  KakaoCalendarApi.formatStartTime B input.(Schemas.bs_start_time)
  = Return formattedStartTime ->
  KakaoCalendarApi.calculateEndTime B formattedStartTime
    input.(Schemas.bs_duration_minutes) = Return endTime ->
  (forall event, W.(axios_calendar) log token event = Return response) ->
  let rounded :=
    KakaoCalendarApi.roundToFiveMinutes input.(Schemas.bs_reminder_minutes) in
  exists before after event,
    Tools.blockSessionHandler B W params log
    = (Return
         {| content :=
              [textItem
                 (before
                  ++ (js "**알림**: "
                      ++ Number_toString input.(Schemas.bs_reminder_minutes)
                      ++ js "분 전")
                  ++ after)];
            isError := None |},
       log ++ [PostCalendar token event])
    /\ ev_reminders event
       = (if (0 <? rounded)%Z then Some [rounded] else None).
Proof.
  intros Hparse Henv Htoken Hstart Hend Hreply rounded.
  destruct token as [|c r]; [congruence|].
  unfold Tools.blockSessionHandler, tryCatch, bind, Schemas.parse.
  rewrite Hparse. unfold ret at 1. rewrite Henv.
  assert (Hdate : exists t,
    B.(Date_parse) input.(Schemas.bs_start_time) = Some t).
  { unfold KakaoCalendarApi.formatStartTime, KakaoCalendarApi.toISOString
      in Hstart.
    destruct (Date_parse B _) as [t|]; [now exists t|discriminate]. }
  destruct Hdate as [t Hdate].
  match goal with
  | |- context [KakaoCalendarApi.createCalendarEvent B W ?tk ?ti ?s ?d ?o log] =>
    assert (Hcreate :
      KakaoCalendarApi.createCalendarEvent B W tk ti s d o log
      = (Return response,
         log ++ [PostCalendar tk
                   (KakaoCalendarApi.buildEvent ti formattedStartTime endTime
                      o rounded)]))
  end.
  { unfold KakaoCalendarApi.createCalendarEvent. cbn [truthyStr negb].
    unfold bind, KakaoCalendarApi.liftC. rewrite Hstart, Hend.
    unfold tryCatch, await. rewrite Hreply. reflexivity. }
  rewrite Hcreate, Hdate.
  cbn [option_map KakaoCalendarApi.toISOString KakaoCalendarApi.liftC].
  unfold ret, Formatters.formatBlockSessionResult.
  cbn [bo_success bo_title bo_startTime bo_endTime bo_location bo_reminder].
  match goal with
  | |- context [join nl ?lines] =>
    destruct (join_contains nl
                (js "**알림**: "
                 ++ Number_toString input.(Schemas.bs_reminder_minutes)
                 ++ js "분 전") lines) as [before [after E]]
  end.
  { apply in_or_app. right. apply in_or_app. right. left. reflexivity. }
  exists before, after. eexists. split.
  - rewrite E. reflexivity.
  - reflexivity.
Qed.

(** A run of the theorem: a reminder of 7 is reported as 7 and sent as 5. *)
Lemma sdk_reminder_text_unrounded_witness :
  exists before after event,
    Tools.blockSessionHandler Fixtures.builtins
      (Fixtures.world None Fixtures.accessToken [])
      (JObject [ (js "title", JStr (js "공부"));
                 (js "start_time", JStr (js "2026-01-15T19:00:00"));
                 (js "duration_minutes", JNum 120);
                 (js "reminder_minutes", JNum 7) ]) []
    = (Return
         {| content :=
              [textItem
                 (before
                  ++ (js "**알림**: " ++ Number_toString 7 ++ js "분 전")
                  ++ after)];
            isError := None |},
       [] ++ [PostCalendar (js "access-token") event])
    /\ ev_reminders event = Some [5%Z].
Proof.
  edestruct (sdk_reminder_text_unrounded Fixtures.builtins
               (Fixtures.world None Fixtures.accessToken [])
               (JObject [ (js "title", JStr (js "공부"));
                          (js "start_time", JStr (js "2026-01-15T19:00:00"));
                          (js "duration_minutes", JNum 120);
                          (js "reminder_minutes", JNum 7) ]))
    as [before [after [event [Htext Hrem]]]].
  - vm_compute. reflexivity.
  - reflexivity.
  - vm_compute. discriminate.
  - vm_compute. reflexivity.
  - vm_compute. reflexivity.
  - intros event. reflexivity.
  - exists before, after, event. split; [exact Htext|exact Hrem].
Defined.

(** ** The Vercel entry point *)

Section EntryPoint.

Import VercelHandler.

Variable B : Builtins.
Variable W : World.
Variable I : ApiHandler.Imports.
Variable now : Z.
Variable TypeError_message : JsString.

Ltac literal_tests :=
  repeat match goal with
  | |- context [JsString_eqb (js ?a) (js ?b)] =>
    let v := eval vm_compute in (JsString_eqb (js a) (js b)) in
    replace (JsString_eqb (js a) (js b)) with v by (vm_compute; reflexivity)
  end.

(** A POST to one of the three MCP paths reaches the JSON-RPC part. *)
Lemma handler_post (req : VercelRequest) (log : list Request) :
  req.(method) = Some (js "POST") ->
  In (urlPath req) [js "/mcp"; js "/api"; js "/api/"] ->
  handler B W I now TypeError_message req log
  = tryCatch
      (fields <- destructure TypeError_message req.(body) ;;
       let jsonrpc := getProp (js "jsonrpc") fields in
       let id := getProp (js "id") fields in
       let method := getProp (js "method") fields in
       let params := getProp (js "params") fields in
       if negb (isString jsonrpc (js "2.0")) then
         ret (JsonRpcError 400 id (-32600) (js "Invalid JSON-RPC version"))
       else if isString method (js "initialize") then
         let protocolVersion :=
           ApiHandler.paramOf params (js "protocolVersion") in
         ret (JsonRpcResponse 200 id
                (InitializeResult
                   (match protocolVersion with
                    | Some v =>
                      if truthy protocolVersion then v
                      else JStr (js "2024-11-05")
                    | None => JStr (js "2024-11-05")
                    end)))
       else if isString method (js "notifications/initialized") then
         ret (End_ 200)
       else if isString method (js "tools/list") then
         ret (JsonRpcResponse 200 id ToolsList)
       else if isString method (js "tools/call") then
         let toolName := ApiHandler.paramOf params (js "name") in
         let toolArgs :=
           match ApiHandler.paramOf params (js "arguments") with
           | Some v => if truthy (Some v) then v else JObject []
           | None => JObject []
           end in
         if negb (truthy toolName) then
           ret (JsonRpcError 400 id (-32602) (js "Missing tool name"))
         else
           match toolName with
           | Some (JStr name) =>
             if existsb (JsString_eqb name) ApiHandler.TOOLS then
               toolResult <- ApiHandler.executeTool B W I name toolArgs ;;
               ret (JsonRpcResponse 200 id (ToolCallResult toolResult))
             else
               text <- interpolate B toolName ;;
               ret (JsonRpcError 400 id (-32602)
                      (js "Unknown tool: " ++ text))
           | _ =>
             text <- interpolate B toolName ;;
             ret (JsonRpcError 400 id (-32602)
                    (js "Unknown tool: " ++ text))
           end
       else if isString method (js "ping") then
         ret (JsonRpcResponse 200 id EmptyResult)
       else
         text <- interpolate B method ;;
         ret (JsonRpcError 400 id (-32601)
                (js "Method not found: " ++ text)))
      (fun error =>
         ret (JsonRpcError 500 (Some JNull) (-32603)
                (getErrorMessage error))) log.
Proof.
  intros Hmethod Hpath. unfold handler, methodIs. rewrite Hmethod.
  cbv zeta.
  destruct Hpath as [<-|[<-|[<-|[]]]]; literal_tests; reflexivity.
Qed.

(** A template literal either gives its text or throws on a value that
    cannot be converted; it sends nothing. *)
Lemma interpolate_cases (v : option JsValue) (log : list Request) :
  (exists text, interpolate B v log = (Return text, log))
  \/ (exists x,
         v = Some x /\ stringThrows x = true
         /\ interpolate B v log
            = (Throw (JsError B.(ToPrimitive_message)), log)).
Proof.
  destruct v as [x|]; [|left; eexists; reflexivity].
  unfold interpolate, ApiHandler.interpolate.
  destruct (stringThrows x) eqn:Hx.
  - destruct x; try discriminate;
      (right; eexists; split; [reflexivity|]; split; [exact Hx|reflexivity]).
  - left. destruct x; eexists; reflexivity.
Qed.

Ltac answer_unknown :=
  match goal with
  | |- context [interpolate ?b ?v ?l] =>
    let shown := fresh "shown" in
    let x := fresh "x" in
    let Hx := fresh "Hx" in
    let Hthrows := fresh "Hthrows" in
    destruct (interpolate_cases v l) as [[shown ->]|[x [Hx [Hthrows ->]]]];
    [ eexists; eexists; split; [reflexivity|]; split; [discriminate|];
      left; split; [reflexivity|]; split; [reflexivity|];
      right; right; left; reflexivity
    | eexists; eexists; split; [reflexivity|]; split; [discriminate|];
      right; split; [reflexivity|]; split; [reflexivity|];
      split; [reflexivity|];
      right; exists x; split; [exact Hthrows|right; exact Hx] ]
  end.

(** What the JSON-RPC part answers. *)
Lemma rpc_reply (req : VercelRequest) (log : list Request) :
  req.(method) = Some (js "POST") ->
  In (urlPath req) [js "/mcp"; js "/api"; js "/api/"] ->
  exists r log',
    handler B W I now TypeError_message req log = (Return r, log')
    /\ (isToolCall req = false -> log' = log)
    /\ match r with
       | End_ s => s = 200%Z
       | JsonRpcResponse s id _ => s = 200%Z /\ id = requestId req
       | JsonRpcError s id code _ =>
         (s = 400%Z /\ id = requestId req
          /\ In code [-32600; -32601; -32602]%Z)
         \/ (s = 500%Z /\ id = Some JNull /\ code = (-32603)%Z
             /\ (truthy req.(body) = false
                 \/ exists v,
                      stringThrows v = true
                      /\ (requestMethod req = Some v
                          \/ requestToolName req = Some v)))
       | _ => False
       end.
Proof.
  intros Hmethod Hpath. rewrite (handler_post req log Hmethod Hpath).
  unfold requestId, requestMethod, requestToolName, isToolCall, tryCatch,
    bind, destructure.
  destruct (body req) as [[| | | | | |fields]|];
    try (eexists; eexists; split; [reflexivity|];
         split; [reflexivity|]; right;
         split; [reflexivity|]; split; [reflexivity|];
         split; [reflexivity|left; reflexivity]);
    unfold ret, throw; cbv zeta.
  all: try (cbn [getProp isString negb];
            eexists; eexists; split; [reflexivity|];
            split; [reflexivity|]; left;
            split; [reflexivity|]; split; [reflexivity|]; left; reflexivity).
  destruct (negb (isString (getProp (js "jsonrpc") fields) (js "2.0")));
    [eexists; eexists; split; [reflexivity|]; split; [reflexivity|];
     left; split; [reflexivity|]; split; [reflexivity|]; left; reflexivity|].
  destruct (isString (getProp (js "method") fields) (js "initialize"));
    [eexists; eexists; split; [reflexivity|]; split; [reflexivity|];
     split; reflexivity|].
  destruct (isString (getProp (js "method") fields)
              (js "notifications/initialized"));
    [eexists; eexists; split; [reflexivity|]; split; reflexivity|].
  destruct (isString (getProp (js "method") fields) (js "tools/list"));
    [eexists; eexists; split; [reflexivity|]; split; [reflexivity|];
     split; reflexivity|].
  destruct (isString (getProp (js "method") fields) (js "tools/call")).
  - destruct (negb (truthy (ApiHandler.paramOf (getProp (js "params") fields)
                              (js "name"))));
      [eexists; eexists; split; [reflexivity|]; split; [discriminate|];
       left; split; [reflexivity|]; split; [reflexivity|];
       right; right; left; reflexivity|].
    destruct (ApiHandler.paramOf (getProp (js "params") fields) (js "name"))
      as [[| | | |name| |]|]; try answer_unknown.
    destruct (existsb (JsString_eqb name) ApiHandler.TOOLS);
      [|answer_unknown].
    match goal with
    | |- context [ApiHandler.executeTool B W I name ?a log] =>
      destruct (executeTool_returns B W I name a log) as [text [log1 ->]]
    end.
    eexists; eexists; split; [reflexivity|]; split; [discriminate|];
      split; reflexivity.
  - destruct (isString (getProp (js "method") fields) (js "ping"));
      [eexists; eexists; split; [reflexivity|]; split; [reflexivity|];
       split; reflexivity|].
    destruct (interpolate_cases (getProp (js "method") fields) log)
      as [[text ->]|[x [Hx [Hthrows ->]]]].
    + eexists; eexists; split; [reflexivity|]; split; [reflexivity|].
      left; split; [reflexivity|]; split; [reflexivity|].
      right; left; reflexivity.
    + eexists; eexists; split; [reflexivity|]; split; [reflexivity|].
      right; split; [reflexivity|]; split; [reflexivity|];
        split; [reflexivity|].
      right. exists x. split; [exact Hthrows|left; exact Hx].
Qed.

(** Off the JSON-RPC part the handler answers at once. *)
Lemma handler_elsewhere (req : VercelRequest) (log : list Request) :
  (req.(method) = Some (js "POST")
   /\ In (urlPath req) [js "/mcp"; js "/api"; js "/api/"])
  \/ exists r,
       handler B W I now TypeError_message req log = (Return r, log)
       /\ In (statusOf r) [200; 302; 405]%Z.
Proof.
  unfold handler. cbv zeta.
  destruct (methodIs req (js "OPTIONS"));
    [right; eexists; split; [reflexivity|left; reflexivity]|].
  destruct (methodIs req (js "GET")
            && (JsString_eqb (urlPath req) (js "/")
                || JsString_eqb (urlPath req) []));
    [right; eexists; split; [reflexivity|right; left; reflexivity]|].
  destruct (methodIs req (js "GET")
            && JsString_eqb (urlPath req) (js "/health"));
    [right; eexists; split; [reflexivity|left; reflexivity]|].
  destruct (methodIs req (js "POST")
            && (JsString_eqb (urlPath req) (js "/mcp")
                || JsString_eqb (urlPath req) (js "/api")
                || JsString_eqb (urlPath req) (js "/api/"))) eqn:Epost.
  - left. apply andb_prop in Epost as [Hm Hp]. split.
    + unfold methodIs in Hm. destruct (method req) as [m|]; [|discriminate].
      apply JsString_eqb_eq in Hm. now rewrite Hm.
    + apply orb_prop in Hp as [Hp|Hp];
        [apply orb_prop in Hp as [Hp|Hp]|];
        apply JsString_eqb_eq in Hp; rewrite Hp.
      * left. reflexivity.
      * right. left. reflexivity.
      * right. right. left. reflexivity.
  - destruct (methodIs req (js "DELETE"));
      right; eexists; (split; [reflexivity|]); cbn [statusOf In]; auto.
Qed.

End EntryPoint.

(** X27. The entry point answers every request: no exception leaves
    [handler], whatever the method, path and body are and whatever the
    provider does, and the status written is 200, 302, 400, 405 or 500. *)
Theorem handler_always_responds (B : Builtins) (W : World)
  (I : ApiHandler.Imports) (now : Z) (TypeError_message : JsString)
  (req : VercelHandler.VercelRequest) (log : list Request) :
  exists r,
    fst (VercelHandler.handler B W I now TypeError_message req log) = Return r
    /\ In (VercelHandler.statusOf r) [200; 302; 400; 405; 500]%Z.
Proof.
  destruct (handler_elsewhere B W I now TypeError_message req log)
    as [[Hmethod Hpath]|[r [Hr Hstatus]]].
  - destruct (rpc_reply B W I now TypeError_message req log Hmethod Hpath)
      as [r [log' [Hr [_ Hshape]]]].
    exists r. rewrite Hr. split; [reflexivity|].
    destruct r as [s|s l|s a b c d|s id res|s id code m|s|s];
      cbn [VercelHandler.statusOf]; try contradiction.
    + subst s. cbn [In]. auto 10.
    + destruct Hshape as [-> _]. cbn [In]. auto 10.
    + destruct Hshape as [[-> _]|[-> _]]; cbn [In]; auto 10.
  - exists r. rewrite Hr. split; [reflexivity|].
    cbn [In] in *. destruct Hstatus as [<-|[<-|[<-|[]]]]; auto 10.
Qed.



(** A run that ends in the internal error: a tools/call whose name is
    [{ toString: null }]. *)
Example rpc_internal_error_on_unconvertible_name :
  VercelHandler.handler Fixtures.builtins (Fixtures.world None None [])
    Fixtures.imports 0 (js "Cannot destructure")
    {| VercelHandler.method := Some (js "POST");
       VercelHandler.url := Some (js "/mcp");
       VercelHandler.body :=
         Some (JObject
                 [ (js "jsonrpc", JStr (js "2.0"));
                   (js "id", JNum 7);
                   (js "method", JStr (js "tools/call"));
                   (js "params",
                    JObject [(js "name",
                              JObject [(js "toString", JNull)])]) ]) |} []
  = (Return (VercelHandler.JsonRpcError 500 (Some JNull) (-32603)
               (js "Cannot convert object to primitive value")), []).
Proof. vm_compute. reflexivity. Qed.

(** X29. Only a tools/call reaches the provider: a request whose body does
    not ask for [tools/call] leaves the request log as it was, whatever its
    method and path are. *)
Theorem handler_sends_nothing_unless_tool_call (B : Builtins) (W : World)
  (I : ApiHandler.Imports) (now : Z) (TypeError_message : JsString)
  (req : VercelHandler.VercelRequest) (log : list Request) :
  VercelHandler.isToolCall req = false ->
  snd (VercelHandler.handler B W I now TypeError_message req log) = log.
Proof.
  intros Hcall.
  destruct (handler_elsewhere B W I now TypeError_message req log)
    as [[Hmethod Hpath]|[r [Hr _]]].
  - destruct (rpc_reply B W I now TypeError_message req log Hmethod Hpath)
      as [r [log' [Hr [Hlog _]]]].
    rewrite Hr. exact (Hlog Hcall).
  - now rewrite Hr.
Qed.

(** A run of the theorem: tools/list. *)
Lemma handler_sends_nothing_unless_tool_call_witness :
  snd (VercelHandler.handler Fixtures.builtins
         (Fixtures.world Fixtures.apiKey Fixtures.accessToken [])
         Fixtures.imports 0 (js "Cannot destructure")
         {| VercelHandler.method := Some (js "POST");
            VercelHandler.url := Some (js "/api");
            VercelHandler.body :=
              Some (JObject [ (js "jsonrpc", JStr (js "2.0"));
                              (js "id", JNum 1);
                              (js "method", JStr (js "tools/list")) ]) |} [])
  = [].
Proof.
  apply handler_sends_nothing_unless_tool_call.
  vm_compute. reflexivity.
Defined.

Lemma beforeQuestion_path (path rest : JsString) :
  forallb (fun c => negb (c =? 63)%N) path = true ->
  VercelHandler.beforeQuestion (path ++ 63%N :: rest) = path
  /\ VercelHandler.beforeQuestion path = path.
Proof.
  induction path as [|c r IH]; [intros _; split; reflexivity|].
  cbn [forallb app VercelHandler.beforeQuestion].
  intros H. apply andb_prop in H as [Hc Hr].
  apply negb_true_iff in Hc. rewrite Hc.
  destruct (IH Hr) as [-> ->]. split; reflexivity.
Qed.

(** X30. Routing ignores the query string: a request to [path?query] is
    answered exactly as the same request to [path], and a POST to any path
    other than /mcp, /api and /api/ is answered 405, with or without a
    JSON-RPC body. *)
Theorem routing_ignores_query_string (B : Builtins) (W : World)
  (I : ApiHandler.Imports) (now : Z) (TypeError_message : JsString)
  (method : option JsString) (path query : JsString)
  (body : option JsValue) (log : list Request) :
  forallb (fun c => negb (c =? 63)%N) path = true ->
  let asked :=
    {| VercelHandler.method := method;
       VercelHandler.url := Some (path ++ js "?" ++ query);
       VercelHandler.body := body |} in
  let plain :=
    {| VercelHandler.method := method;
       VercelHandler.url := Some path;
       VercelHandler.body := body |} in
  VercelHandler.handler B W I now TypeError_message asked log
  = VercelHandler.handler B W I now TypeError_message plain log
  /\ (method = Some (js "POST") ->
      ~ In (VercelHandler.urlPath plain) [js "/mcp"; js "/api"; js "/api/"] ->
      VercelHandler.handler B W I now TypeError_message plain log
      = (Return (VercelHandler.NotAllowed 405), log)).
Proof.
  intros Hpath asked plain.
  assert (Hurl : VercelHandler.urlPath asked = VercelHandler.urlPath plain).
  { unfold VercelHandler.urlPath, asked, plain.
    cbn [VercelHandler.url option_map].
    replace (js "?") with [63%N] by (vm_compute; reflexivity).
    cbn [app].
    destruct (beforeQuestion_path path query Hpath) as [-> ->].
    reflexivity. }
  split.
  - unfold VercelHandler.handler. cbv zeta. rewrite Hurl. reflexivity.
  - intros -> Hnot.
    unfold VercelHandler.handler, VercelHandler.methodIs. cbv zeta.
    cbn [VercelHandler.method plain].
    assert (Hno : forall p,
      In p [js "/mcp"; js "/api"; js "/api/"] ->
      JsString_eqb (VercelHandler.urlPath plain) p = false).
    { intros p Hin.
      destruct (JsString_eqb (VercelHandler.urlPath plain) p) eqn:E;
        [|reflexivity].
      apply JsString_eqb_eq in E. rewrite E in Hnot. contradiction. }
    rewrite (Hno (js "/mcp")), (Hno (js "/api")), (Hno (js "/api/"))
      by (cbn [In]; auto).
    replace (JsString_eqb (js "POST") (js "OPTIONS")) with false
      by (vm_compute; reflexivity).
    replace (JsString_eqb (js "POST") (js "GET")) with false
      by (vm_compute; reflexivity).
    replace (JsString_eqb (js "POST") (js "DELETE")) with false
      by (vm_compute; reflexivity).
    replace (JsString_eqb (js "POST") (js "POST")) with true
      by (vm_compute; reflexivity).
    reflexivity.
Qed.

(** A run of the theorem: a ping sent to /health?x=1. *)
Lemma routing_ignores_query_string_witness :
  VercelHandler.handler Fixtures.builtins (Fixtures.world None None [])
    Fixtures.imports 0 (js "Cannot destructure")
    {| VercelHandler.method := Some (js "POST");
       VercelHandler.url := Some (js "/health" ++ js "?" ++ js "x=1");
       VercelHandler.body :=
         Some (JObject [ (js "jsonrpc", JStr (js "2.0"));
                         (js "method", JStr (js "ping")) ]) |} []
  = (Return (VercelHandler.NotAllowed 405), []).
Proof.
  destruct (routing_ignores_query_string Fixtures.builtins
              (Fixtures.world None None []) Fixtures.imports 0
              (js "Cannot destructure") (Some (js "POST")) (js "/health")
              (js "x=1")
              (Some (JObject [ (js "jsonrpc", JStr (js "2.0"));
                               (js "method", JStr (js "ping")) ])) []
              ltac:(vm_compute; reflexivity)) as [Hsame H405].
  rewrite Hsame. apply H405; [reflexivity|].
  vm_compute. intros [E|[E|[E|[]]]]; discriminate.
Defined.
